(** * Allegro 5 WAV reader / writer (addons/audio/wav.c)

    A shallow embedding of the WAV container parser, the pull decoder, the
    stream control surface and the sample writer of [wav.c], with the
    properties of the specification stated and settled against it.

    Conventions
    - C integers are [Z]; every narrowing the C code performs is written out
      ([s16], [s32], [u64]).  C's [/] and [%] are [Z.quot] and [Z.rem].
    - [double] is the kernel's binary64 ([PrimFloat.float]).
    - Memory ([char buffer[12]], the sample data block, [any_buffer_t]) is a
      list of bytes; the byte order of the host is an explicit parameter
      wherever the code stores or loads a multi-byte object.
    - An [ALLEGRO_FILE] is a byte vector with a read/write cursor.
    - The chunk loop of [wav_open] has no termination argument in C (a chunk
      may declare a negative length and send the cursor backwards), so it is
      driven by fuel and a run is either [OutOfFuel] or [Done]. *)

From Stdlib Require Import ZArith List Bool Lia String Ascii.
From Stdlib Require Import PrimFloat FloatOps SpecFloat.
Import ListNotations.
Local Open Scope Z_scope.

(* ------------------------------------------------------------------ *)
(** ** Machine integers *)

Module CInt.

(** Conversion to [signed short] (two's complement wrap-around). *)
Definition s16 (v : Z) : Z := (v + 32768) mod 65536 - 32768.

(** Conversion to [int]. *)
Definition s32 (v : Z) : Z := (v + 2147483648) mod 4294967296 - 2147483648.

(** Conversion to [size_t] / [unsigned long] (LP64). *)
Definition u64 (v : Z) : Z := v mod 18446744073709551616.

(** Conversion to [int64_t]. *)
Definition s64 (v : Z) : Z :=
  (v + 9223372036854775808) mod 18446744073709551616 - 9223372036854775808.

(** Conversion to [int8_t]. *)
Definition s8 (v : Z) : Z := (v + 128) mod 256 - 128.

(** Conversion to [unsigned char]. *)
Definition u8 (v : Z) : Z := v mod 256.

Definition INT_MAX : Z := 2147483647.

End CInt.
Import CInt.

(* ------------------------------------------------------------------ *)
(** ** Byte vectors *)

Module Bytes.

Definition blen (l : list Z) : Z := Z.of_nat (List.length l).

(** [drop n l]: [l] without its first [n] bytes ([l] itself when [n <= 0]). *)
Fixpoint drop (n : Z) (l : list Z) : list Z :=
  match l with
  | [] => []
  | x :: t => if n <=? 0 then l else drop (n - 1) t
  end.

(** [take n l]: the first [n] bytes of [l] (fewer when [l] is shorter). *)
Fixpoint take (n : Z) (l : list Z) : list Z :=
  match l with
  | [] => []
  | x :: t => if n <=? 0 then [] else x :: take (n - 1) t
  end.

(** [zeros n]: [n] zero bytes. *)
Definition zeros (n : Z) : list Z := List.repeat 0 (Z.to_nat n).

(** [store l p bs]: [l] with [bs] written at offset [p]; a write past the
    end extends the vector, the gap reading as zero. *)
Definition store (l : list Z) (p : Z) (bs : list Z) : list Z :=
  take p l ++ zeros (p - blen l) ++ bs ++ drop (p + blen bs) l.

Fixpoint eqb (a b : list Z) : bool :=
  match a, b with
  | [], [] => true
  | x :: a', y :: b' => (x =? y) && eqb a' b'
  | _, _ => false
  end.

(** The bytes of a C string literal (without the terminating NUL). *)
Definition of_string (s : string) : list Z :=
  List.map (fun c => Z.of_N (N_of_ascii c)) (list_ascii_of_string s).

(** [memcmp a b n <> 0], on operands that hold at least [n] bytes. *)
Definition memcmp (a b : list Z) (n : Z) : bool :=
  negb (eqb (take n a) (take n b)).

(** Little-endian images of 16- and 32-bit values. *)
Definition le16 (v : Z) : list Z := [u8 v; u8 (Z.shiftr v 8)].
Definition le32 (v : Z) : list Z :=
  [u8 v; u8 (Z.shiftr v 8); u8 (Z.shiftr v 16); u8 (Z.shiftr v 24)].

End Bytes.
Import Bytes.

(* ------------------------------------------------------------------ *)
(** ** The byte stream (ALLEGRO_FILE) *)

Record ALLEGRO_FILE : Type := mkFile {
  fbytes : list Z;   (* the bytes of the file *)
  fpos   : Z         (* the cursor *)
}.

Definition EOF : Z := -1.

Inductive whence : Type := ALLEGRO_SEEK_SET | ALLEGRO_SEEK_CUR.

(** The bytes between the cursor and the end of the stream. *)
Definition remaining (f : ALLEGRO_FILE) : list Z := drop (fpos f) (fbytes f).

Definition advance (f : ALLEGRO_FILE) (k : Z) : ALLEGRO_FILE :=
  mkFile (fbytes f) (fpos f + k).

(** Modelled from the spec: the byte-stream capability of section 6
    (read-n-bytes, seek, tell and the write primitives); the file routines of
    the library ([al_fgetc], [al_fread], [al_fseek], [al_ftell], [al_fputc],
    [al_fwrite], [al_fputs], [al_fwrite16le], [al_fwrite32le]) are not part
    of [wav.c].  A read at the end of the stream returns nothing and [EOF];
    a seek may go past the end but not before the start. *)
Definition al_fgetc (f : ALLEGRO_FILE) : Z * ALLEGRO_FILE :=
  match remaining f with
  | [] => (EOF, f)
  | b :: _ => (u8 b, advance f 1)
  end.

Definition al_fread (f : ALLEGRO_FILE) (n : Z) : list Z * ALLEGRO_FILE :=
  let got := take n (remaining f) in
  (got, advance f (blen got)).

Definition al_fseek (f : ALLEGRO_FILE) (off : Z) (w : whence)
  : Z * ALLEGRO_FILE :=
  let target := match w with
                | ALLEGRO_SEEK_SET => off
                | ALLEGRO_SEEK_CUR => fpos f + off
                end in
  if target <? 0 then (-1, f) else (0, mkFile (fbytes f) target).

Definition al_ftell (f : ALLEGRO_FILE) : Z := fpos f.

Definition al_fwrite (f : ALLEGRO_FILE) (bs : list Z) : ALLEGRO_FILE :=
  mkFile (store (fbytes f) (fpos f) bs) (fpos f + blen bs).

Definition al_fputc (f : ALLEGRO_FILE) (c : Z) : ALLEGRO_FILE :=
  al_fwrite f [u8 c].

Definition al_fputs (f : ALLEGRO_FILE) (s : string) : ALLEGRO_FILE :=
  al_fwrite f (of_string s).

Definition al_fwrite16le (f : ALLEGRO_FILE) (v : Z) : ALLEGRO_FILE :=
  al_fwrite f (le16 v).

Definition al_fwrite32le (f : ALLEGRO_FILE) (v : Z) : ALLEGRO_FILE :=
  al_fwrite f (le32 v).

(** The memory block [data] after a read that delivered [got] into its
    start. *)
Definition fill (data got : list Z) : list Z :=
  got ++ drop (blen got) data.

(* ------------------------------------------------------------------ *)
(** ** Host memory representation of 16-bit objects *)

Inductive byte_order : Type := LittleEndian | BigEndian.

Definition store16 (host : byte_order) (mem : list Z) (off v : Z) : list Z :=
  match host with
  | LittleEndian => store mem off [u8 v; u8 (Z.shiftr v 8)]
  | BigEndian => store mem off [u8 (Z.shiftr v 8); u8 v]
  end.

(* ------------------------------------------------------------------ *)
(** ** Doubles *)

Module Double.

(** [(double) i] for an integer [i], rounded to nearest even (exact for
    every [int]). *)
Definition of_Z (i : Z) : float :=
  SF2Prim (binary_normalize FloatOps.prec FloatOps.emax i 0 false).

(** Truncation toward zero of a finite double; 0 for NaN and infinities. *)
Definition trunc (d : float) : Z :=
  match Prim2SF d with
  | S754_finite s m e =>
      let a := Z.shiftl (Z.pos m) e in if s then - a else a
  | _ => 0
  end.

(** [(unsigned long) d].  C defines the conversion only when [d] is finite
    and the truncated value is representable ([converts_to_ulong] below);
    elsewhere the value computed here (the truncated value reduced modulo
    2^64, 0 for NaN and infinities) stands for no behaviour of the code, and
    statements about a computed offset assume the conversion defined. *)
Definition to_ulong (d : float) : Z := u64 (trunc d).

(** [(int) d], with the same proviso. *)
Definition to_int (d : float) : Z := s32 (trunc d).

End Double.

(* ------------------------------------------------------------------ *)
(** ** The handle *)

Record WAVFILE : Type := mkWav {
  f : ALLEGRO_FILE;
  dpos : Z;          (* the starting position of the data chunk *)
  freq : Z;          (* e.g., 44100 *)
  bits : Z;          (* 8 (unsigned char) or 16 (signed short) *)
  channels : Z;      (* 1 (mono) or 2 (stereo) *)
  samples : Z;       (* # of samples *)
  loop_start : float;
  loop_end : float
}.

Definition set_f (w : WAVFILE) (x : ALLEGRO_FILE) : WAVFILE :=
  mkWav x (dpos w) (freq w) (bits w) (channels w) (samples w)
        (loop_start w) (loop_end w).
Definition set_dpos (w : WAVFILE) (x : Z) : WAVFILE :=
  mkWav (f w) x (freq w) (bits w) (channels w) (samples w)
        (loop_start w) (loop_end w).
Definition set_freq (w : WAVFILE) (x : Z) : WAVFILE :=
  mkWav (f w) (dpos w) x (bits w) (channels w) (samples w)
        (loop_start w) (loop_end w).
Definition set_bits (w : WAVFILE) (x : Z) : WAVFILE :=
  mkWav (f w) (dpos w) (freq w) x (channels w) (samples w)
        (loop_start w) (loop_end w).
Definition set_channels (w : WAVFILE) (x : Z) : WAVFILE :=
  mkWav (f w) (dpos w) (freq w) (bits w) x (samples w)
        (loop_start w) (loop_end w).
Definition set_samples (w : WAVFILE) (x : Z) : WAVFILE :=
  mkWav (f w) (dpos w) (freq w) (bits w) (channels w) x
        (loop_start w) (loop_end w).
Definition set_loop (w : WAVFILE) (s e : float) : WAVFILE :=
  mkWav (f w) (dpos w) (freq w) (bits w) (channels w) (samples w) s e.

(** The outcome of running code that may loop for ever. *)
Inductive run (A : Type) : Type :=
| OutOfFuel : run A
| Done : A -> run A.
Arguments OutOfFuel {A}.
Arguments Done {A} _.

(* ------------------------------------------------------------------ *)
(** ** Binary reader *)

(** [read16 f v]: reads a signed, 16-bit little endian integer; on success
    the value read replaces [v].  Only the second byte is tested for EOF. *)
Definition read16 (f : ALLEGRO_FILE) (v : Z) : bool * Z * ALLEGRO_FILE :=
  let '(a, f1) := al_fgetc f in
  let '(b, f2) := al_fgetc f1 in
  if negb (b =? EOF) then (true, s16 (Z.lor a (Z.shiftl b 8)), f2)
  else (false, v, f2).

(** [read32 f v]: the same for a 32-bit integer; only the fourth byte is
    tested. *)
Definition read32 (f : ALLEGRO_FILE) (v : Z) : bool * Z * ALLEGRO_FILE :=
  let '(a, f1) := al_fgetc f in
  let '(b, f2) := al_fgetc f1 in
  let '(c, f3) := al_fgetc f2 in
  let '(d, f4) := al_fgetc f3 in
  if negb (d =? EOF)
  then (true,
        s32 (Z.lor (Z.lor (Z.lor a (Z.shiftl b 8)) (Z.shiftl c 16))
                   (Z.shiftl d 24)),
        f4)
  else (false, v, f4).

(* ------------------------------------------------------------------ *)
(** ** Container parser: wav_open *)

(** What one turn of the [while (true)] loop does. *)
Inductive turn : Type :=
| Again (w : WAVFILE)     (* fall through to the next iteration *)
| Break (w : WAVFILE)     (* the "data" tag was read *)
| Fail.                   (* goto wav_open_error *)

(** The body of the loop.  The tag is compared in [buffer], whose first four
    bytes are the four bytes [al_fread] has just delivered (the turn fails
    when it delivered fewer). *)
Definition wav_open_turn (w : WAVFILE) : turn :=
  let length0 := 0 in
  let pcm0 := 0 in
  let '(buffer, f1) := al_fread (f w) 4 in
  if negb (blen buffer =? 4) then Fail
  else if negb (memcmp buffer (of_string "fmt ") 4) then
    let '(_, length, f2) := read32 f1 length0 in
    if length <? 16 then Fail else
    let '(_, pcm, f3) := read16 f2 pcm0 in
    if negb (pcm =? 1) then Fail else
    let '(_, ch, f4) := read16 f3 (channels w) in
    let w := set_channels w ch in
    if negb (ch =? 1) && negb (ch =? 2) then Fail else
    let '(_, fr, f5) := read32 f4 (freq w) in
    let w := set_freq w fr in
    let '(_, f6) := al_fseek f5 6 ALLEGRO_SEEK_CUR in
    let '(_, bi, f7) := read16 f6 (bits w) in
    let w := set_bits w bi in
    if negb (bi =? 8) && negb (bi =? 16) then Fail else
    let length := length - 16 in
    let f8 := if length >? 0 then snd (al_fseek f7 length ALLEGRO_SEEK_CUR)
              else f7 in
    Again (set_f w f8)
  else if negb (memcmp buffer (of_string "data") 4) then
    Break (set_f w f1)
  else
    let '(_, length, f2) := read32 f1 length0 in
    let '(_, f3) := al_fseek f2 length ALLEGRO_SEEK_CUR in
    Again (set_f w f3).

(** The loop itself: [Done None] is the jump to [wav_open_error],
    [Done (Some w)] the [break]. *)
Fixpoint wav_open_chunks (fuel : nat) (w : WAVFILE) : run (option WAVFILE) :=
  match fuel with
  | O => OutOfFuel
  | S fuel' =>
      match wav_open_turn w with
      | Fail => Done None
      | Break w' => Done (Some w')
      | Again w' => wav_open_chunks fuel' w'
      end
  end.

(** The code after the loop: "find out how many samples exist". *)
Definition wav_open_finish (w : WAVFILE) : WAVFILE :=
  let '(_, n, f1) := read32 (f w) (samples w) in
  let n := if channels w =? 2 then Z.quot (s32 (n + 1)) 2 else n in
  let n := if bits w =? 16 then Z.quot n 2 else n in
  set_dpos (set_samples (set_f w f1) n) (u64 (al_ftell f1)).

(** Modelled from the spec: [al_fopen] is not part of [wav.c].  [contents]
    is the content of the named file, [None] when it cannot be opened; a
    stream opened for reading starts at offset 0. *)
Definition al_fopen (contents : option (list Z)) : option ALLEGRO_FILE :=
  match contents with
  | Some bytes => Some (mkFile bytes 0)
  | None => None
  end.

(** [wav_open].  [block] is what [malloc (sizeof (WAVFILE))] returned:
    [None] for NULL, otherwise the (indeterminate) initial contents of the
    new object.  [filename] stands for the file it names. *)
Definition wav_open (fuel : nat) (block : option WAVFILE)
    (filename : option (list Z)) : run (option WAVFILE) :=
  match al_fopen filename with
  | None => Done None
  | Some file =>
      match block with
      | None => Done None
      | Some w0 =>
          let w := set_channels (set_bits (set_freq (set_f w0 file) 22050) 8) 1 in
          let '(buffer, f1) := al_fread (f w) 12 in
          if negb (blen buffer =? 12) then Done None
          else if memcmp buffer (of_string "RIFF") 4
                  || memcmp (drop 8 buffer) (of_string "WAVE") 4
          then Done None
          else
            match wav_open_chunks fuel (set_f w f1) with
            | OutOfFuel => OutOfFuel
            | Done None => Done None
            | Done (Some w') => Done (Some (wav_open_finish w'))
            end
      end
  end.

(* ------------------------------------------------------------------ *)
(** ** Sample decoder: wav_read *)

Section Decoder.

Variable host : byte_order.

(** The [for (i = 0; i < n; i++)] loop of the 16-bit branch, [k] turns
    from index [i]: returns the final [i], the data block and the file. *)
Fixpoint wav_read16 (k : nat) (file : ALLEGRO_FILE) (data : list Z) (i : Z)
  : Z * list Z * ALLEGRO_FILE :=
  match k with
  | O => (i, data, file)
  | S k' =>
      let '(ok, s, file') := read16 file 0 in
      if ok then wav_read16 k' file' (store16 host data (2 * i) s) (i + 1)
      else (i, data, file')
  end.

(** [wav_read w data samples]: the returned count, the data block after
    the call, and the handle (whose file cursor has moved). *)
Definition wav_read (w : WAVFILE) (data : list Z) (samples : Z)
  : Z * list Z * WAVFILE :=
  let n := u64 (u64 (channels w) * samples) in
  if bits w =? 8 then
    let '(got, f1) := al_fread (f w) n in
    (Z.quot (blen got) (u64 (channels w)), fill data got, set_f w f1)
  else
    let '(i, data', f1) := wav_read16 (Z.to_nat n) (f w) data 0 in
    (Z.quot i (u64 (channels w)), data', set_f w f1).

End Decoder.

(* ------------------------------------------------------------------ *)
(** ** Stream control surface *)

(** [wav_stream_seek]: the result and the handle afterwards. *)
Definition wav_stream_seek (w : WAVFILE) (time : float) : bool * WAVFILE :=
  let align := Z.quot (bits w) 8 * channels w in
  let cpos :=
    Double.to_ulong
      (PrimFloat.mul time
         (Double.of_Z (s32 (freq w * Z.quot (bits w) 8 * channels w)))) in
  if PrimFloat.leb (loop_end w) time then (false, w)
  else
    let cpos := u64 (cpos + Z.rem cpos (u64 align)) in
    let '(r, f1) := al_fseek (f w) (s64 (u64 (dpos w + cpos))) ALLEGRO_SEEK_SET in
    (negb (r =? -1), set_f w f1).

Definition wav_stream_rewind (w : WAVFILE) : bool * WAVFILE :=
  wav_stream_seek w (loop_start w).

Definition wav_stream_get_position (w : WAVFILE) : float :=
  let samples_per :=
    PrimFloat.mul (Double.of_Z (Z.quot (bits w) 8 * channels w))
                  (Double.of_Z (freq w)) in
  PrimFloat.div (Double.of_Z (u64 (al_ftell (f w) - dpos w))) samples_per.

Definition wav_stream_get_length (w : WAVFILE) : float :=
  PrimFloat.div (Double.of_Z (samples w)) (Double.of_Z (freq w)).

Definition wav_stream_set_loop (w : WAVFILE) (s e : float) : bool * WAVFILE :=
  (true, set_loop w s e).

(** [wav_stream_update]: [onedir] says whether the stream's play mode is
    [_ALLEGRO_PLAYMODE_STREAM_ONEDIR]. *)
Definition wav_stream_update (host : byte_order) (onedir : bool) (w : WAVFILE)
    (data : list Z) (buf_size : Z) : Z * list Z * WAVFILE :=
  let bytes_per_sample := Z.quot (bits w) 8 * channels w in
  let ctime := wav_stream_get_position w in
  let btime :=
    PrimFloat.div
      (PrimFloat.div (Double.of_Z buf_size) (Double.of_Z bytes_per_sample))
      (Double.of_Z (freq w)) in
  let samples :=
    if onedir && PrimFloat.ltb (loop_end w) (PrimFloat.add ctime btime)
    then Double.to_int
           (PrimFloat.mul (PrimFloat.sub (loop_end w) ctime)
                          (Double.of_Z (freq w)))
    else s32 (Z.quot buf_size (u64 bytes_per_sample)) in
  if samples <? 0 then (0, data, w)
  else
    let '(got, data', w') := wav_read host w data (u64 samples) in
    (u64 (s32 (s32 got * bytes_per_sample)), data', w').

(* ------------------------------------------------------------------ *)
(** ** Samples *)

Inductive ALLEGRO_AUDIO_DEPTH : Type :=
| ALLEGRO_AUDIO_DEPTH_INT8
| ALLEGRO_AUDIO_DEPTH_INT16
| ALLEGRO_AUDIO_DEPTH_INT24
| ALLEGRO_AUDIO_DEPTH_FLOAT32
| ALLEGRO_AUDIO_DEPTH_UINT8
| ALLEGRO_AUDIO_DEPTH_UINT16
| ALLEGRO_AUDIO_DEPTH_UINT24
| ALLEGRO_AUDIO_DEPTH_unknown (code : Z).  (* any other value of the enum *)

(** The fields of [ALLEGRO_SAMPLE] that [wav.c] touches.  [buffer] is the
    memory behind the [any_buffer_t] union. *)
Record ALLEGRO_SAMPLE : Type := mkSample {
  depth : ALLEGRO_AUDIO_DEPTH;
  chan_conf : Z;
  frequency : Z;
  len : Z;
  buffer : list Z
}.

(** Typed loads from the sample memory, by element index. *)
Definition byte_at (mem : list Z) (off : Z) : Z := hd 0 (drop off mem).

Definition load_u8 (mem : list Z) (i : Z) : Z := u8 (byte_at mem i).
Definition load_s8 (mem : list Z) (i : Z) : Z := s8 (byte_at mem i).

Definition load_u16 (host : byte_order) (mem : list Z) (i : Z) : Z :=
  let b0 := u8 (byte_at mem (2 * i)) in
  let b1 := u8 (byte_at mem (2 * i + 1)) in
  match host with
  | LittleEndian => b0 + 256 * b1
  | BigEndian => b1 + 256 * b0
  end.

Definition load_u32 (host : byte_order) (mem : list Z) (i : Z) : Z :=
  let b0 := u8 (byte_at mem (4 * i)) in
  let b1 := u8 (byte_at mem (4 * i + 1)) in
  let b2 := u8 (byte_at mem (4 * i + 2)) in
  let b3 := u8 (byte_at mem (4 * i + 3)) in
  match host with
  | LittleEndian => b0 + 256 * b1 + 65536 * b2 + 16777216 * b3
  | BigEndian => b3 + 256 * b2 + 65536 * b1 + 16777216 * b0
  end.

(** [float] arithmetic (binary32, round to nearest even, evaluated in single
    precision). *)
Module Single.

Definition prec : Z := 24.
Definition emax : Z := 128.

Definition of_Z (i : Z) : spec_float := binary_normalize prec emax i 0 false.
Definition mul := SFmul prec emax.
Definition div := SFdiv prec emax.
Definition sub := SFsub prec emax.

(** The [float] whose object representation is the 32-bit pattern [u]. *)
Definition of_bits (u : Z) : spec_float :=
  let s := Z.testbit u 31 in
  let e := Z.land (Z.shiftr u 23) 255 in
  let m := Z.land u 8388607 in
  if e =? 0 then
    match m with
    | Z.pos p => S754_finite s p (-149)
    | _ => S754_zero s
    end
  else if e =? 255 then
    if m =? 0 then S754_infinity s else S754_nan
  else
    match m + 8388608 with
    | Z.pos p => S754_finite s p (e - 150)
    | _ => S754_nan
    end.

Definition trunc (x : spec_float) : Z :=
  match x with
  | S754_finite s m e =>
      let a := Z.shiftl (Z.pos m) e in if s then - a else a
  | _ => 0
  end.

(** [(int) x]; defined by C only when the truncated value fits. *)
Definition to_int (x : spec_float) : Z := s32 (trunc x).

End Single.

(** [memset (mem, c, n)]. *)
Definition memset (mem : list Z) (c n : Z) : list Z :=
  List.repeat (u8 c) (Z.to_nat n) ++ drop n mem.

Section Samples.

(** The fixed-point shift of the mixer; its definition is in a header that
    is not part of [wav.c]. *)
Variable MIXER_FRAC_SHIFT : Z.

Variable host : byte_order.

(** Modelled from the spec: [al_create_sample], [_al_word_size_to_depth_conf]
    and [_al_count_to_channel_conf] are not part of [wav.c].  A sample
    buffer is a flat buffer tagged with its encoding, channel configuration
    and frame count (section 3); the decoder produces unsigned 8-bit and
    signed 16-bit samples (section 2); the frame count and the channel
    configuration are stored the way [al_save_wav_stream] reads them back
    ([len >> MIXER_FRAC_SHIFT], high plus low nibble).  [created] is false
    when the sample object cannot be allocated. *)
Definition al_create_sample (created : bool) (buf : list Z) (samples freq : Z)
    (d : ALLEGRO_AUDIO_DEPTH) (c : Z) : option ALLEGRO_SAMPLE :=
  if created
  then Some (mkSample d c (u64 freq) (u64 (Z.shiftl (u64 samples) MIXER_FRAC_SHIFT)) buf)
  else None.

Definition _al_word_size_to_depth_conf (word_size : Z) : ALLEGRO_AUDIO_DEPTH :=
  if word_size =? 1 then ALLEGRO_AUDIO_DEPTH_UINT8
  else if word_size =? 2 then ALLEGRO_AUDIO_DEPTH_INT16
  else ALLEGRO_AUDIO_DEPTH_unknown 0.

Definition _al_count_to_channel_conf (num_channels : Z) : Z :=
  Z.shiftl num_channels 4.

Definition with_buffer (spl : ALLEGRO_SAMPLE) (data : list Z) : ALLEGRO_SAMPLE :=
  mkSample (depth spl) (chan_conf spl) (frequency spl) (len spl) data.

(** [al_load_wav].  [alloc n] is what [malloc (n)] returned: [None] for
    NULL, otherwise the indeterminate contents of the new block.  The
    sample object refers to the data block, so what is written into the
    block after [al_create_sample] is what the sample holds. *)
Definition al_load_wav (fuel : nat) (block : option WAVFILE)
    (filename : option (list Z)) (alloc : Z -> option (list Z))
    (created : bool) : run (option ALLEGRO_SAMPLE) :=
  match wav_open fuel block filename with
  | OutOfFuel => OutOfFuel
  | Done None => Done None
  | Done (Some w) =>
      let n := u64 (s32 (Z.quot (bits w) 8 * channels w * samples w)) in
      match alloc n with
      | None => Done None
      | Some data =>
          match al_create_sample created data (samples w) (freq w)
                  (_al_word_size_to_depth_conf (Z.quot (bits w) 8))
                  (_al_count_to_channel_conf (channels w)) with
          | Some spl =>
              let data := memset data 0 n in
              let '(_, data, _) := wav_read host w data (u64 (samples w)) in
              Done (Some (with_buffer spl data))
          | None => Done None
          end
      end
  end.

(** A [for (i = 0; i < n; ++i)] loop whose body writes to the file: [k]
    turns from index [i]. *)
Fixpoint write_loop (k : nat) (i : Z)
    (body : Z -> ALLEGRO_FILE -> ALLEGRO_FILE) (pf : ALLEGRO_FILE)
  : ALLEGRO_FILE :=
  match k with
  | O => pf
  | S k' => write_loop k' (i + 1) body (body i pf)
  end.

(** [al_save_wav_stream]: the result and the file afterwards. *)
Definition al_save_wav_stream (pf : ALLEGRO_FILE) (spl : ALLEGRO_SAMPLE)
  : bool * ALLEGRO_FILE :=
  let channels := u64 (Z.shiftr (chan_conf spl) 4 + Z.land (chan_conf spl) 15) in
  let bits :=
    match depth spl with
    | ALLEGRO_AUDIO_DEPTH_INT8 | ALLEGRO_AUDIO_DEPTH_UINT8 => 8
    | _ => 16
    end in
  if (channels <? 1) || (channels >? 2) then (false, pf)
  else
    let samples := u64 (Z.shiftr (len spl) MIXER_FRAC_SHIFT) in
    let data_size := Z.quot (u64 (samples * channels * bits)) 8 in
    let n := u64 (samples * channels) in
    let pf := al_fputs pf "RIFF" in
    let pf := al_fwrite32le pf (36 + data_size) in
    let pf := al_fputs pf "WAVE" in
    let pf := al_fputs pf "fmt " in
    let pf := al_fwrite32le pf 16 in
    let pf := al_fwrite16le pf 1 in
    let pf := al_fwrite16le pf channels in
    let pf := al_fwrite32le pf (frequency spl) in
    let pf := al_fwrite32le pf
                (Z.quot (u64 (frequency spl * channels * bits)) 8) in
    let pf := al_fwrite16le pf (Z.quot (channels * bits) 8) in
    let pf := al_fwrite16le pf bits in
    let pf := al_fputs pf "data" in
    let pf := al_fwrite32le pf data_size in
    match depth spl with
    | ALLEGRO_AUDIO_DEPTH_UINT8 =>
        (true, al_fwrite pf (take (u64 (samples * channels)) (buffer spl)))
    | ALLEGRO_AUDIO_DEPTH_INT16 =>
        (* the later INT16 branch of the C chain is never reached *)
        (true, al_fwrite pf (take (u64 (samples * channels * 2)) (buffer spl)))
    | ALLEGRO_AUDIO_DEPTH_INT8 =>
        (true,
         write_loop (Z.to_nat samples) 0
           (fun i pf => al_fputc pf (load_s8 (buffer spl) i + 128)) pf)
    | ALLEGRO_AUDIO_DEPTH_UINT16 =>
        (true,
         write_loop (Z.to_nat n) 0
           (fun i pf => al_fwrite16le pf (load_u16 host (buffer spl) i - 32768))
           pf)
    | ALLEGRO_AUDIO_DEPTH_INT24 =>
        (true,
         write_loop (Z.to_nat n) 0
           (fun i pf =>
              let x := s32 (s32 (load_u32 host (buffer spl) i) + 8388608) in
              let v := Single.to_int
                         (Single.sub
                            (Single.mul
                               (Single.div (Single.of_Z x) (Single.of_Z 8388607))
                               (Single.of_Z 32767))
                            (Single.of_Z 32768)) in
              al_fwrite16le pf v)
           pf)
    | ALLEGRO_AUDIO_DEPTH_UINT24 =>
        (true,
         write_loop (Z.to_nat n) 0
           (fun i pf =>
              let x := load_u32 host (buffer spl) i in
              let v := Single.to_int
                         (Single.sub
                            (Single.mul
                               (Single.div (Single.of_Z x) (Single.of_Z 8388607))
                               (Single.of_Z 32767))
                            (Single.of_Z 32768)) in
              al_fwrite16le pf v)
           pf)
    | ALLEGRO_AUDIO_DEPTH_FLOAT32 =>
        (true,
         write_loop (Z.to_nat n) 0
           (fun i pf =>
              al_fwrite16le pf
                (s16 (Single.trunc
                        (Single.mul
                           (Single.of_bits (load_u32 host (buffer spl) i))
                           (Single.of_Z 32767)))))
           pf)
    | ALLEGRO_AUDIO_DEPTH_unknown _ => (false, pf)
    end.

(** [al_save_wav]: [opened] is what [al_fopen (filename, "wb")] returned. *)
Definition al_save_wav (opened : option ALLEGRO_FILE) (spl : ALLEGRO_SAMPLE)
  : bool * option ALLEGRO_FILE :=
  match opened with
  | Some pf => let '(rv, pf') := al_save_wav_stream pf spl in (rv, Some pf')
  | None => (false, None)
  end.

End Samples.

(* ------------------------------------------------------------------ *)
(** ** Notions used by the statements *)

(** [keeps a b]: [b] is the stream [a] with its cursor elsewhere (and not
    before the start when the cursor of [a] is not). *)
Definition keeps (a b : ALLEGRO_FILE) : Prop :=
  fbytes b = fbytes a /\ (0 <= fpos a -> 0 <= fpos b).

(** The format fields of a handle are the ones the reader supports. *)
Definition supported (w : WAVFILE) : Prop :=
  (bits w = 8 \/ bits w = 16) /\ (channels w = 1 \/ channels w = 2).

(** The value of the four bytes [b0 b1 b2 b3] read as a little-endian [int]. *)
Definition int_le (b0 b1 b2 b3 : Z) : Z :=
  s32 (u8 b0 + 256 * u8 b1 + 65536 * u8 b2 + 16777216 * u8 b3).

(** The value of the two bytes [b0 b1] read as a little-endian [short]. *)
Definition short_le (b0 b1 : Z) : Z := s16 (u8 b0 + 256 * u8 b1).

(** The frame count as section 4.1 of the specification derives it from the
    byte count [count] the data chunk declares. *)
Definition frame_count (channels bits count : Z) : Z :=
  let n := if channels =? 2 then Z.quot (count + 1) 2 else count in
  if bits =? 16 then Z.quot n 2 else n.

(** The container layout of section 6 of the specification: a 44-byte header
    (one 16-byte "fmt " chunk, then the "data" tag and its byte count) in
    front of the sample bytes. *)
Definition wav_container (channels rate bits count : Z) (data : list Z) : list Z :=
  of_string "RIFF" ++ le32 (36 + count) ++ of_string "WAVE"
  ++ of_string "fmt " ++ le32 16 ++ le16 1 ++ le16 channels ++ le32 rate
  ++ le32 (Z.quot (rate * channels * bits) 8) ++ le16 (Z.quot (channels * bits) 8)
  ++ le16 bits
  ++ of_string "data" ++ le32 count ++ data.

(** [skips bytes p q k]: a reader whose cursor is at offset [p], in front of
    a chunk tag, arrives at offset [q] after passing [k] chunks that are
    neither "fmt " nor "data", each by the length its header declares (a
    declared length that would take the cursor before the start of the file
    is not followed: the seek fails and reading goes on behind the header). *)
Inductive skips (bytes : list Z) : Z -> Z -> nat -> Prop :=
| skips_none p : skips bytes p p 0
| skips_chunk p q k tag l0 l1 l2 l3 rest :
    0 <= p ->
    drop p bytes = tag ++ l0 :: l1 :: l2 :: l3 :: rest ->
    blen tag = 4 -> tag <> of_string "fmt " -> tag <> of_string "data" ->
    skips bytes
      (if p + 8 + int_le l0 l1 l2 l3 <? 0 then p + 8
       else p + 8 + int_le l0 l1 l2 l3) q k ->
    skips bytes p q (S k).

(** A freshly allocated handle, for the examples. *)
Definition blank_handle : WAVFILE :=
  mkWav (mkFile [] 0) 0 0 0 0 0 PrimFloat.zero PrimFloat.zero.

(** [same_format w w']: [w'] declares the bit depth and channel count of [w]. *)
Definition same_format (w w' : WAVFILE) : Prop :=
  bits w' = bits w /\ channels w' = channels w.

(** The handle of a stereo 16-bit 44100 Hz stream of one second. *)
Definition stereo16 : WAVFILE :=
  mkWav (mkFile (wav_container 2 44100 16 176400 []) 44)
        44 44100 16 2 44100 0%float 1%float.

(** Two stereo frames of signed 8-bit samples: 1, 2, -1, -128. *)
Definition int8_stereo : ALLEGRO_SAMPLE :=
  mkSample ALLEGRO_AUDIO_DEPTH_INT8 32 44100 (Z.shiftl 2 8) [1; 2; 255; 128].

(** The two bytes a 16-bit store leaves in memory. *)
Definition image16 (host : byte_order) (b0 b1 : Z) : list Z :=
  match host with
  | LittleEndian => [u8 b0; u8 b1]
  | BigEndian => [u8 b1; u8 b0]
  end.

(** The memory image of the values the loop decodes from the bytes [l]. *)
Fixpoint images16 (host : byte_order) (l : list Z) : list Z :=
  match l with
  | b0 :: b1 :: rest => image16 host b0 b1 ++ images16 host rest
  | _ => []
  end.

(** A stereo signed 16-bit sample of two frames: 513, 1027, 1541, -1. *)
Definition int16_stereo : ALLEGRO_SAMPLE :=
  mkSample ALLEGRO_AUDIO_DEPTH_INT16 32 44100 (Z.shiftl 2 8)
           [1; 2; 3; 4; 5; 6; 255; 255].

(** The whole frames between the cursor of a handle and the end of its
    stream. *)
Definition frames_left (w : WAVFILE) : Z :=
  Z.quot (blen (remaining (f w))) (channels w * Z.quot (bits w) 8).

(** What a writing loop of [k] turns from index [i] appends when turn [j]
    appends [g j]. *)
Fixpoint data_of (k : nat) (i : Z) (g : Z -> list Z) : list Z :=
  match k with
  | O => []
  | S k' => g i ++ data_of k' (i + 1) g
  end.

(** The bit depth [al_save_wav_stream] writes for a sample depth. *)
Definition bits_of (d : ALLEGRO_AUDIO_DEPTH) : Z :=
  match d with
  | ALLEGRO_AUDIO_DEPTH_INT8 | ALLEGRO_AUDIO_DEPTH_UINT8 => 8
  | _ => 16
  end.

(** Whether a depth is one of the seven encodings of the enumeration. *)
Definition known (d : ALLEGRO_AUDIO_DEPTH) : bool :=
  match d with
  | ALLEGRO_AUDIO_DEPTH_unknown _ => false
  | _ => true
  end.

(** [written host spl frames c data]: [data] is what the sample data of
    [spl] ([frames] frames of [c] channels) looks like behind the header:
    the sample memory itself for the two raw depths, one biased byte for
    each of the first [frames] signed 8-bit samples, the biased
    little-endian image of each unsigned 16-bit sample, and two bytes for
    each sample of the three depths that are narrowed through [float]. *)
Definition written (host : byte_order) (spl : ALLEGRO_SAMPLE) (frames c : Z)
    (data : list Z) : Prop :=
  match depth spl with
  | ALLEGRO_AUDIO_DEPTH_UINT8 => data = take (frames * c) (buffer spl)
  | ALLEGRO_AUDIO_DEPTH_INT16 => data = take (frames * c * 2) (buffer spl)
  | ALLEGRO_AUDIO_DEPTH_INT8 =>
      data = data_of (Z.to_nat frames) 0
               (fun i => [u8 (load_s8 (buffer spl) i + 128)])
  | ALLEGRO_AUDIO_DEPTH_UINT16 =>
      data = data_of (Z.to_nat (frames * c)) 0
               (fun i => le16 (load_u16 host (buffer spl) i - 32768))
  | ALLEGRO_AUDIO_DEPTH_INT24
  | ALLEGRO_AUDIO_DEPTH_UINT24
  | ALLEGRO_AUDIO_DEPTH_FLOAT32 => blen data = 2 * (frames * c)
  | ALLEGRO_AUDIO_DEPTH_unknown _ => data = []
  end.

(** [(unsigned long) d] is defined by C: [d] is finite (neither a NaN nor an
    infinity) and its integral part is an [unsigned long]. *)
Definition converts_to_ulong (d : float) : bool :=
  match Prim2SF d with
  | S754_zero _ => true
  | S754_finite _ _ _ =>
      (0 <=? Double.trunc d) && (Double.trunc d <? 18446744073709551616)
  | _ => false
  end.

(* ================================================================== *)
(** * Facts *)

Ltac Zify.zify_post_hook ::= Z.to_euclidean_division_equations.

(** ** Byte vectors *)

Lemma blen_nil : blen [] = 0.
Proof. reflexivity. Qed.

Lemma blen_cons x l : blen (x :: l) = 1 + blen l.
Proof. unfold blen; simpl List.length; lia. Qed.

Lemma blen_app a b : blen (a ++ b) = blen a + blen b.
Proof. unfold blen; rewrite length_app; lia. Qed.

Lemma blen_nonneg l : 0 <= blen l.
Proof. unfold blen; lia. Qed.

Lemma blen_0_nil l : blen l = 0 -> l = [].
Proof. destruct l; [reflexivity | rewrite blen_cons; pose proof (blen_nonneg l); lia]. Qed.

Lemma drop_le0 n l : n <= 0 -> drop n l = l.
Proof.
  intros H; destruct l as [|x t]; simpl; [reflexivity|].
  destruct (Z.leb_spec n 0); [reflexivity | lia].
Qed.

Lemma drop_cons n x l : 0 < n -> drop n (x :: l) = drop (n - 1) l.
Proof. intros H; simpl. destruct (Z.leb_spec n 0); [lia | reflexivity]. Qed.

Lemma take_le0 n l : n <= 0 -> take n l = [].
Proof.
  intros H; destruct l as [|x t]; simpl; [reflexivity|].
  destruct (Z.leb_spec n 0); [reflexivity | lia].
Qed.

Lemma take_cons n x l : 0 < n -> take n (x :: l) = x :: take (n - 1) l.
Proof. intros H; simpl. destruct (Z.leb_spec n 0); [lia | reflexivity]. Qed.

Lemma take_drop n l : take n l ++ drop n l = l.
Proof.
  revert n; induction l as [|x t IH]; intros n; [reflexivity|].
  destruct (Z_le_gt_dec n 0).
  - rewrite take_le0, drop_le0 by lia; reflexivity.
  - rewrite take_cons, drop_cons by lia; simpl; now rewrite IH.
Qed.

Lemma blen_take n l : blen (take n l) = Z.max 0 (Z.min n (blen l)).
Proof.
  revert n; induction l as [|x t IH]; intros n.
  - simpl; rewrite blen_nil; lia.
  - destruct (Z_le_gt_dec n 0).
    + rewrite take_le0 by lia. rewrite blen_nil. pose proof (blen_nonneg (x :: t)); lia.
    + rewrite take_cons by lia. rewrite !blen_cons, IH.
      pose proof (blen_nonneg t); lia.
Qed.

Lemma blen_drop n l : blen (drop n l) = blen l - Z.max 0 (Z.min n (blen l)).
Proof.
  pose proof (f_equal blen (take_drop n l)) as H.
  rewrite blen_app, blen_take in H; lia.
Qed.

Lemma drop_app a b n : 0 <= n -> drop (blen a + n) (a ++ b) = drop n b.
Proof.
  intros Hn; induction a as [|x a IH]; simpl app.
  - rewrite blen_nil; f_equal; lia.
  - rewrite blen_cons. pose proof (blen_nonneg a).
    rewrite drop_cons by lia. rewrite <- IH; f_equal; lia.
Qed.

Lemma drop_app_len a b : drop (blen a) (a ++ b) = b.
Proof.
  replace (blen a) with (blen a + 0) by lia.
  rewrite drop_app by lia. apply drop_le0; lia.
Qed.

Lemma take_app a b n : 0 <= n -> take (blen a + n) (a ++ b) = a ++ take n b.
Proof.
  intros Hn; induction a as [|x a IH]; simpl app.
  - rewrite blen_nil; f_equal; lia.
  - rewrite blen_cons. pose proof (blen_nonneg a).
    rewrite take_cons by lia. f_equal. rewrite <- IH; f_equal; lia.
Qed.

Lemma take_all n l : blen l <= n -> take n l = l.
Proof.
  revert n; induction l as [|x t IH]; intros n H; [reflexivity|].
  rewrite blen_cons in H. pose proof (blen_nonneg t).
  rewrite take_cons by lia. f_equal. apply IH; lia.
Qed.

Lemma take_app_len a b : take (blen a) (a ++ b) = a.
Proof.
  replace (blen a) with (blen a + 0) by lia.
  rewrite take_app by lia. rewrite take_le0 by lia. apply app_nil_r.
Qed.

Lemma drop_all n l : blen l <= n -> drop n l = [].
Proof.
  intros H. apply blen_0_nil. rewrite blen_drop. pose proof (blen_nonneg l); lia.
Qed.

Lemma drop_drop a b l : 0 <= a -> 0 <= b -> drop a (drop b l) = drop (a + b) l.
Proof.
  intros Ha; revert b; induction l as [|x t IH]; intros b Hb.
  - simpl. destruct a; reflexivity.
  - destruct (Z.eq_dec b 0) as [->|].
    + rewrite (drop_le0 0) by lia. f_equal; lia.
    + rewrite (drop_cons b) by lia.
      destruct (Z.eq_dec a 0) as [->|].
      * rewrite (drop_le0 0) by lia. simpl (0 + b). now rewrite drop_cons by lia.
      * rewrite (drop_cons (a + b)) by lia. rewrite IH by lia. f_equal; lia.
Qed.

Lemma blen_zeros n : blen (zeros n) = Z.max 0 n.
Proof. unfold blen, zeros; rewrite repeat_length; lia. Qed.

Lemma eqb_eq a b : Bytes.eqb a b = true <-> a = b.
Proof.
  revert b; induction a as [|x a IH]; intros [|y b]; simpl; split; intros H;
    try reflexivity; try discriminate.
  - apply andb_true_iff in H as [H1 H2]. apply Z.eqb_eq in H1. apply IH in H2.
    congruence.
  - injection H as -> ->. rewrite Z.eqb_refl. simpl. now apply IH.
Qed.

(** ** The byte stream *)

Lemma remaining_advance file k :
  0 <= fpos file -> 0 <= k -> remaining (advance file k) = drop k (remaining file).
Proof.
  unfold remaining, advance; simpl; intros.
  rewrite drop_drop by lia. f_equal; lia.
Qed.

Lemma keeps_refl a : keeps a a.
Proof. split; auto. Qed.

Lemma keeps_trans a b c : keeps a b -> keeps b c -> keeps a c.
Proof. intros [H1 H2] [H3 H4]; split; [congruence | auto]. Qed.

Lemma al_fgetc_keeps file c file' : al_fgetc file = (c, file') -> keeps file file'.
Proof.
  unfold al_fgetc; destruct (remaining file); intros H; inversion H; subst;
    split; simpl; auto; lia.
Qed.

Lemma al_fread_keeps file n got file' :
  al_fread file n = (got, file') -> keeps file file'.
Proof.
  unfold al_fread; intros H; inversion H; subst; split; simpl; auto.
  pose proof (blen_nonneg (take n (remaining file))); lia.
Qed.

Lemma al_fseek_keeps file off wh r file' :
  al_fseek file off wh = (r, file') -> keeps file file'.
Proof.
  unfold al_fseek; intros H.
  destruct wh; match type of H with context [?a <? 0] => destruct (Z.ltb_spec a 0) end;
    inversion H; subst; split; simpl; auto; lia.
Qed.

Lemma read16_keeps file v ok v' file' :
  read16 file v = (ok, v', file') -> keeps file file'.
Proof.
  unfold read16; intros H.
  destruct (al_fgetc file) as [a f1] eqn:E1.
  destruct (al_fgetc f1) as [b f2] eqn:E2.
  apply al_fgetc_keeps in E1, E2.
  destruct (negb (b =? EOF)); inversion H; subst; eapply keeps_trans; eauto.
Qed.

Lemma read32_keeps file v ok v' file' :
  read32 file v = (ok, v', file') -> keeps file file'.
Proof.
  unfold read32; intros H.
  destruct (al_fgetc file) as [a f1] eqn:E1.
  destruct (al_fgetc f1) as [b f2] eqn:E2.
  destruct (al_fgetc f2) as [c f3] eqn:E3.
  destruct (al_fgetc f3) as [d f4] eqn:E4.
  apply al_fgetc_keeps in E1, E2, E3, E4.
  destruct (negb (d =? EOF)); inversion H; subst;
    repeat (eapply keeps_trans; [eassumption|]); apply keeps_refl.
Qed.

(** ** The chunk loop *)

Ltac split_match H :=
  match type of H with
  | context [match ?x with _ => _ end] => destruct x eqn:?
  end.

(** A turn that falls through leaves a supported handle supported and the
    stream the same stream. *)
Lemma turn_again w w' :
  wav_open_turn w = Again w' ->
  supported w -> supported w' /\ keeps (f w) (f w').
Proof.
  unfold wav_open_turn; intros H Hs.
  repeat (split_match H; try discriminate); inversion H; subst; clear H;
    unfold supported in *; simpl;
    repeat match goal with
           | E : _ && _ = false |- _ => apply andb_false_iff in E
           | E : negb _ = false |- _ => apply negb_false_iff in E
           | E : (_ =? _) = true |- _ => apply Z.eqb_eq in E
           | E : al_fread _ _ = _ |- _ => apply al_fread_keeps in E
           | E : al_fseek _ _ _ = _ |- _ => apply al_fseek_keeps in E
           | E : read16 _ _ = _ |- _ => apply read16_keeps in E
           | E : read32 _ _ = _ |- _ => apply read32_keeps in E
           end.
  all: split; [ intuition lia | ].
  all: repeat (eapply keeps_trans; [eassumption|]); try apply keeps_refl.
  all: match goal with |- keeps ?a (snd ?x) => destruct x eqn:Ek; simpl;
         apply al_fseek_keeps in Ek; assumption end.
Qed.

Lemma turn_break w w' :
  wav_open_turn w = Break w' ->
  w' = set_f w (advance (f w) 4) /\
  take 4 (remaining (f w)) = of_string "data".
Proof.
  unfold wav_open_turn; intros H.
  destruct (al_fread (f w) 4) as [buffer f1] eqn:E.
  unfold al_fread in E; inversion E; subst buffer f1; clear E.
  set (got := take 4 (remaining (f w))) in *.
  destruct (blen got =? 4) eqn:E4; simpl in H; [|discriminate].
  apply Z.eqb_eq in E4.
  repeat (split_match H; try discriminate); inversion H; subst; clear H.
  rewrite E4; split; [reflexivity|].
  match goal with E : negb (memcmp got (of_string "data") 4) = true |- _ =>
    apply negb_true_iff in E; unfold memcmp in E; apply negb_false_iff in E;
    apply eqb_eq in E; rewrite (take_all 4 got) in E by lia;
    rewrite E; reflexivity end.
Qed.

(** When the loop leaves through [break], the cursor is just behind a
    "data" tag of the file and the handle is supported. *)
Lemma chunks_done fuel : forall w w',
  wav_open_chunks fuel w = Done (Some w') ->
  supported w -> 0 <= fpos (f w) ->
  exists p, 0 <= p /\ take 4 (drop p (fbytes (f w))) = of_string "data" /\
            f w' = mkFile (fbytes (f w)) (p + 4) /\ supported w' /\
            samples w' = samples w.
Proof.
  induction fuel as [|fuel IH]; intros w w' H Hs Hp; simpl in H; [discriminate|].
  destruct (wav_open_turn w) as [w1|w1|] eqn:Et; try discriminate.
  - destruct (turn_again _ _ Et Hs) as [Hs1 [Hb Hk]].
    destruct (IH _ _ H Hs1 (Hk Hp)) as (p & Hp0 & Htag & Hf & Hs' & Hn).
    assert (Hn1 : samples w1 = samples w).
    { clear - Et. unfold wav_open_turn in Et.
      repeat (split_match Et; try discriminate); inversion Et; reflexivity. }
    exists p; rewrite <- Hb, <- Hn1; auto.
  - inversion H; subst w1; clear H.
    destruct (turn_break _ _ Et) as [-> Htag].
    exists (fpos (f w)); repeat split; try assumption; apply Hs.
Qed.

(** ** Little-endian fields *)

Lemma lor_shiftl a b k :
  0 <= k -> 0 <= a < 2 ^ k -> Z.lor a (Z.shiftl b k) = a + b * 2 ^ k.
Proof.
  intros Hk Ha.
  assert (Hl : Z.land a (Z.shiftl b k) = 0).
  { apply Z.bits_inj'; intros n Hn. rewrite Z.land_spec, Z.bits_0.
    destruct (Z.lt_ge_cases n k).
    - rewrite Z.shiftl_spec_low by assumption. apply andb_false_r.
    - rewrite <- (Z.mod_small a (2 ^ k)) by lia.
      rewrite Z.mod_pow2_bits_high by lia. reflexivity. }
  rewrite <- Z.lxor_lor by assumption.
  rewrite <- Z.add_nocarry_lxor by assumption.
  now rewrite Z.shiftl_mul_pow2.
Qed.

Lemma u8_range v : 0 <= u8 v < 256.
Proof. unfold u8; lia. Qed.

Lemma al_fgetc_cons file b rest :
  0 <= fpos file -> remaining file = b :: rest ->
  al_fgetc file = (u8 b, advance file 1) /\ remaining (advance file 1) = rest.
Proof.
  intros Hp Hr; unfold al_fgetc; rewrite Hr; split; [reflexivity|].
  rewrite remaining_advance, Hr by lia. rewrite drop_cons by lia. apply drop_le0; lia.
Qed.

Lemma al_fgetc_nil file :
  remaining file = [] -> al_fgetc file = (EOF, file).
Proof. intros Hr; unfold al_fgetc; now rewrite Hr. Qed.

Lemma advance_advance file a b : advance (advance file a) b = advance file (a + b).
Proof. unfold advance; simpl; f_equal; lia. Qed.

Lemma read32_full file v b0 b1 b2 b3 rest :
  0 <= fpos file -> remaining file = b0 :: b1 :: b2 :: b3 :: rest ->
  read32 file v = (true, int_le b0 b1 b2 b3, advance file 4) /\
  remaining (advance file 4) = rest.
Proof.
  intros Hp Hr; unfold read32.
  destruct (al_fgetc_cons _ _ _ Hp Hr) as [-> R1].
  destruct (al_fgetc_cons (advance file 1) _ _ ltac:(simpl; lia) R1) as [-> R2].
  destruct (al_fgetc_cons (advance (advance file 1) 1) _ _ ltac:(simpl; lia) R2)
    as [-> R3].
  destruct (al_fgetc_cons (advance (advance (advance file 1) 1) 1) _ _
              ltac:(simpl; lia) R3) as [-> R4].
  rewrite !advance_advance in *; simpl Z.add in *.
  pose proof (u8_range b0); pose proof (u8_range b1);
    pose proof (u8_range b2); pose proof (u8_range b3).
  destruct (Z.eqb_spec (u8 b3) EOF) as [E|_]; [unfold EOF in E; lia|]; cbn [negb].
  split; [|assumption]. unfold int_le. do 3 f_equal.
  rewrite (lor_shiftl (u8 b0) (u8 b1) 8) by (change (2 ^ 8) with 256; lia).
  rewrite (lor_shiftl _ (u8 b2) 16) by (change (2 ^ 8) with 256; change (2 ^ 16) with 65536; lia).
  rewrite (lor_shiftl _ (u8 b3) 24)
    by (change (2 ^ 8) with 256; change (2 ^ 16) with 65536;
        change (2 ^ 24) with 16777216; lia).
  change (2 ^ 8) with 256; change (2 ^ 16) with 65536;
    change (2 ^ 24) with 16777216; lia.
Qed.

Lemma read16_full file v b0 b1 rest :
  0 <= fpos file -> remaining file = b0 :: b1 :: rest ->
  read16 file v = (true, short_le b0 b1, advance file 2) /\
  remaining (advance file 2) = rest.
Proof.
  intros Hp Hr; unfold read16.
  destruct (al_fgetc_cons _ _ _ Hp Hr) as [-> R1].
  destruct (al_fgetc_cons (advance file 1) _ _ ltac:(simpl; lia) R1) as [-> R2].
  rewrite !advance_advance in *; simpl Z.add in *.
  pose proof (u8_range b0); pose proof (u8_range b1).
  destruct (Z.eqb_spec (u8 b1) EOF) as [E|_]; [unfold EOF in E; lia|]; cbn [negb].
  split; [|assumption]. unfold short_le. do 3 f_equal.
  rewrite (lor_shiftl (u8 b0) (u8 b1) 8) by (change (2 ^ 8) with 256; lia).
  change (2 ^ 8) with 256; lia.
Qed.



(** ** wav_open as a whole *)

Lemma s32_small v : -2147483648 <= v <= 2147483647 -> s32 v = v.
Proof. unfold s32; lia. Qed.

Lemma s32_range v : -2147483648 <= s32 v <= 2147483647.
Proof. unfold s32; lia. Qed.

(** A successful [wav_open] ran the code after the loop on a supported
    handle whose cursor was just behind a "data" tag. *)
Lemma wav_open_done fuel block bytes w :
  wav_open fuel block (Some bytes) = Done (Some w) ->
  exists w0 w' p,
    block = Some w0 /\ 0 <= p /\ take 4 (drop p bytes) = of_string "data" /\
    f w' = mkFile bytes (p + 4) /\ supported w' /\ samples w' = samples w0 /\
    w = wav_open_finish w'.
Proof.
  unfold wav_open; simpl al_fopen; cbv iota.
  destruct block as [w0|]; [|discriminate].
  destruct (al_fread _ 12) as [buffer f1] eqn:E.
  intros H. repeat (split_match H; try discriminate).
  inversion H; subst w; clear H.
  match goal with Hc : wav_open_chunks _ _ = Done (Some ?w') |- _ =>
    apply chunks_done in Hc;
      [ destruct Hc as (p & Hp & Htag & Hf & Hs & Hn); exists w0, w', p
      | unfold supported; simpl; auto
      | simpl; apply al_fread_keeps in E; destruct E as [_ E]; apply E; simpl; lia ]
  end.
  simpl in Htag, Hf, Hn. apply al_fread_keeps in E. destruct E as [E _].
  simpl in E. rewrite E in *. auto 10.
Qed.

Lemma finish_format w :
  bits (wav_open_finish w) = bits w /\ channels (wav_open_finish w) = channels w.
Proof.
  unfold wav_open_finish. destruct (read32 (f w) (samples w)) as [[ok n] f1].
  split; reflexivity.
Qed.



(** ** Walking over chunks that are neither "fmt " nor "data" *)

Lemma al_fread_prefix file a rest :
  0 <= fpos file -> remaining file = a ++ rest ->
  al_fread file (blen a) = (a, advance file (blen a)) /\
  remaining (advance file (blen a)) = rest.
Proof.
  intros Hp Hr; unfold al_fread. rewrite Hr, take_app_len. split; [reflexivity|].
  rewrite remaining_advance, Hr by (try apply blen_nonneg; lia). apply drop_app_len.
Qed.

Lemma memcmp_same a n : memcmp a a n = false.
Proof.
  unfold memcmp. apply negb_false_iff. now apply eqb_eq.
Qed.

Lemma memcmp_differ a b n : blen a <= n -> blen b <= n -> a <> b -> memcmp a b n = true.
Proof.
  intros Ha Hb Hne; unfold memcmp. rewrite !take_all by assumption.
  apply negb_true_iff. destruct (Bytes.eqb a b) eqn:E; [|reflexivity].
  apply eqb_eq in E; contradiction.
Qed.

Lemma skips_nonneg bytes p q k : skips bytes p q k -> 0 <= p -> 0 <= q.
Proof.
  induction 1; intros Hp; [assumption|].
  apply IHskips. destruct (Z.ltb_spec (p + 8 + int_le l0 l1 l2 l3) 0); lia.
Qed.

Lemma turn_skip w tag l0 l1 l2 l3 rest :
  0 <= fpos (f w) ->
  remaining (f w) = tag ++ l0 :: l1 :: l2 :: l3 :: rest ->
  blen tag = 4 -> tag <> of_string "fmt " -> tag <> of_string "data" ->
  wav_open_turn w =
  Again (set_f w (mkFile (fbytes (f w))
                    (if fpos (f w) + 8 + int_le l0 l1 l2 l3 <? 0
                     then fpos (f w) + 8
                     else fpos (f w) + 8 + int_le l0 l1 l2 l3))).
Proof.
  intros Hp Hr H4 Hfmt Hdata. unfold wav_open_turn.
  destruct (al_fread_prefix _ _ _ Hp Hr) as [Hread Hr1]. rewrite H4 in Hread, Hr1.
  rewrite Hread, H4; cbn [Z.eqb Pos.eqb negb].
  rewrite (memcmp_differ tag (of_string "fmt "))
    by first [assumption | lia | vm_compute; discriminate].
  rewrite (memcmp_differ tag (of_string "data"))
    by first [assumption | lia | vm_compute; discriminate].
  cbn [negb].
  destruct (read32_full (advance (f w) 4) 0 _ _ _ _ _ ltac:(simpl; lia) Hr1) as [-> _].
  rewrite advance_advance; simpl Z.add.
  unfold al_fseek, advance; cbn [fpos fbytes].
  replace (fpos (f w) + 8 + int_le l0 l1 l2 l3 <? 0)
    with (fpos (f w) + 8 + int_le l0 l1 l2 l3 <? 0) by reflexivity.
  destruct (fpos (f w) + 8 + int_le l0 l1 l2 l3 <? 0); reflexivity.
Qed.

(** The loop passes such chunks in one turn each. *)
Lemma chunks_skip bytes p q k :
  skips bytes p q k ->
  forall w fuel, f w = mkFile bytes p ->
    wav_open_chunks (k + fuel) w = wav_open_chunks fuel (set_f w (mkFile bytes q)).
Proof.
  induction 1 as [p | p q k tag l0 l1 l2 l3 rest Hp Hd H4 Hfmt Hdata Hs IH];
    intros w fuel Hf.
  - simpl. rewrite <- Hf. destruct w; reflexivity.
  - cbn [Nat.add wav_open_chunks].
    assert (Hr : remaining (f w) = tag ++ l0 :: l1 :: l2 :: l3 :: rest)
      by (unfold remaining; rewrite Hf; simpl; assumption).
    rewrite (turn_skip w tag l0 l1 l2 l3 rest ltac:(rewrite Hf; simpl; lia) Hr H4 Hfmt Hdata).
    rewrite Hf; cbn [fpos fbytes].
    rewrite IH by reflexivity. reflexivity.
Qed.

Lemma turn_data w :
  0 <= fpos (f w) -> take 4 (remaining (f w)) = of_string "data" ->
  wav_open_turn w = Break (set_f w (advance (f w) 4)).
Proof.
  intros Hp Hd. unfold wav_open_turn, al_fread. rewrite Hd. reflexivity.
Qed.

Lemma blen_four l : blen l = 4 -> exists a b c d, l = [a; b; c; d].
Proof.
  destruct l as [|a [|b [|c [|d [|e l]]]]]; rewrite ?blen_cons, ?blen_nil; intros H;
    try lia; eauto.
  pose proof (blen_nonneg l); lia.
Qed.

(** A file that starts with the RIFF prefix gets past the prefix check with
    the defaults in the handle and the cursor at offset 12. *)
Lemma wav_open_prefix fuel w0 bytes sz rest :
  bytes = of_string "RIFF" ++ sz ++ of_string "WAVE" ++ rest -> blen sz = 4 ->
  wav_open fuel (Some w0) (Some bytes) =
  match wav_open_chunks fuel
          (set_f (set_channels (set_bits (set_freq (set_f w0 (mkFile bytes 0)) 22050) 8) 1)
                 (mkFile bytes 12)) with
  | OutOfFuel => OutOfFuel
  | Done None => Done None
  | Done (Some w') => Done (Some (wav_open_finish w'))
  end.
Proof.
  intros -> H4. apply blen_four in H4 as (a & b & c & d & ->).
  change (of_string "RIFF" ++ [a; b; c; d] ++ of_string "WAVE" ++ rest)
    with ([82; 73; 70; 70; a; b; c; d; 87; 65; 86; 69] ++ rest).
  set (pre := [82; 73; 70; 70; a; b; c; d; 87; 65; 86; 69]).
  unfold wav_open; cbn [al_fopen set_f set_freq set_bits set_channels f].
  destruct (al_fread_prefix (mkFile (pre ++ rest) 0) pre rest ltac:(simpl; lia)
              ltac:(reflexivity)) as [Hread _].
  change (blen pre) with 12 in Hread. rewrite Hread.
  reflexivity.
Qed.

(** C9.  A file with a valid "RIFF" ... "WAVE" prefix in which the chunk walk
    from offset 12 arrives at a "data" tag over chunks that are neither
    "fmt " nor "data" opens successfully, whatever the allocated handle held,
    and the handle has the defaults: 22050 Hz, 8 bits, 1 channel. *)
Theorem wav_open_defaults_without_fmt :
  forall bytes sz rest q k w0 fuel,
    bytes = of_string "RIFF" ++ sz ++ of_string "WAVE" ++ rest -> blen sz = 4 ->
    skips bytes 12 q k -> take 4 (drop q bytes) = of_string "data" ->
    (k < fuel)%nat ->
    exists w,
      wav_open fuel (Some w0) (Some bytes) = Done (Some w) /\
      freq w = 22050 /\ bits w = 8 /\ channels w = 1.
Proof.
  intros bytes sz rest q k w0 fuel Hb H4 Hs Hd Hk.
  rewrite (wav_open_prefix fuel w0 bytes sz rest Hb H4).
  replace fuel with (k + S (fuel - S k))%nat by lia.
  rewrite (chunks_skip bytes 12 q k Hs) by reflexivity.
  cbn [wav_open_chunks].
  rewrite turn_data.
  - eexists; split; [reflexivity|].
    unfold wav_open_finish; simpl.
    match goal with |- context [read32 ?a ?b] => destruct (read32 a b) as [[ok n] f1] end.
    simpl. auto.
  - simpl. apply (skips_nonneg _ _ _ _ Hs); lia.
  - unfold remaining; simpl. rewrite <- Hd; reflexivity.
Qed.

Lemma wav_open_defaults_without_fmt_witness :
  exists w,
    wav_open 2
      (Some blank_handle)
      (Some (of_string "RIFF" ++ [30; 0; 0; 0] ++ of_string "WAVE"
             ++ of_string "LIST" ++ [2; 0; 0; 0] ++ [7; 7]
             ++ of_string "data" ++ [4; 0; 0; 0] ++ [0; 64; 128; 192]))
    = Done (Some w) /\
    freq w = 22050 /\ bits w = 8 /\ channels w = 1.
Proof.
  apply (wav_open_defaults_without_fmt _ [30; 0; 0; 0]
           (of_string "LIST" ++ [2; 0; 0; 0] ++ [7; 7]
            ++ of_string "data" ++ [4; 0; 0; 0] ++ [0; 64; 128; 192])
           22 1%nat).
  - reflexivity.
  - reflexivity.
  - apply (skips_chunk _ 12 22 0%nat (of_string "LIST") 2 0 0 0
             ([7; 7] ++ of_string "data" ++ [4; 0; 0; 0] ++ [0; 64; 128; 192]));
      [lia | reflexivity | reflexivity | vm_compute; discriminate
      | vm_compute; discriminate | apply skips_none].
  - reflexivity.
  - lia.
Defined.

(** ** The format fields *)

Lemma wav_read_format host w data n :
  same_format w (snd (wav_read host w data n)).
Proof.
  unfold wav_read. destruct (bits w =? 8).
  - destruct (al_fread _ _); split; reflexivity.
  - destruct (wav_read16 _ _ _ _ _) as [[i d] f1]; split; reflexivity.
Qed.

Lemma wav_stream_seek_format w t : same_format w (snd (wav_stream_seek w t)).
Proof.
  unfold wav_stream_seek. destruct (PrimFloat.leb _ _); [split; reflexivity|].
  destruct (al_fseek _ _ _); split; reflexivity.
Qed.

Lemma wav_stream_update_format host onedir w data n :
  same_format w (snd (wav_stream_update host onedir w data n)).
Proof.
  unfold wav_stream_update.
  match goal with |- context [if ?c <? 0 then _ else _] => destruct (c <? 0) end;
    [split; reflexivity|].
  match goal with |- context [wav_read ?h ?a ?b ?c] =>
    pose proof (wav_read_format h a b c) as H; destruct (wav_read h a b c) as [[g d] w']
  end. exact H.
Qed.

(** A "fmt " chunk whose channel count is not 1 or 2, or whose bit depth is
    not 8 or 16, ends the turn that reads it in [wav_open_error]. *)
Lemma turn_bad_fmt w l0 l1 l2 l3 p0 p1 c0 c1 r0 r1 r2 r3 x0 x1 x2 x3 x4 x5 d0 d1 rest :
  0 <= fpos (f w) ->
  remaining (f w) =
    of_string "fmt " ++ [l0; l1; l2; l3] ++ [p0; p1] ++ [c0; c1]
    ++ [r0; r1; r2; r3] ++ [x0; x1; x2; x3; x4; x5] ++ [d0; d1] ++ rest ->
  (short_le c0 c1 <> 1 /\ short_le c0 c1 <> 2) \/
  (short_le d0 d1 <> 8 /\ short_le d0 d1 <> 16) ->
  wav_open_turn w = Fail.
Proof.
  intros Hp Hr Hbad. unfold wav_open_turn.
  destruct (al_fread_prefix _ _ _ Hp Hr) as [Hread Hr1].
  change (blen (of_string "fmt ")) with 4 in Hread, Hr1.
  rewrite Hread. cbn [negb blen List.length of_string].
  change (negb (Z.of_nat 4 =? 4)) with false. cbv iota.
  rewrite memcmp_same; cbn [negb].
  destruct (read32_full (advance (f w) 4) 0 _ _ _ _ _ ltac:(simpl; lia) Hr1) as [-> Hr2].
  destruct (int_le l0 l1 l2 l3 <? 16); [reflexivity|].
  rewrite advance_advance in *; cbn [Z.add Pos.add Pos.succ] in *.
  destruct (read16_full (advance (f w) 8) 0 _ _ _ ltac:(simpl; lia) Hr2) as [-> Hr3].
  destruct (negb (short_le p0 p1 =? 1)); [reflexivity|].
  rewrite advance_advance in *; cbn [Z.add Pos.add Pos.succ] in *.
  destruct (read16_full (advance (f w) 10) (channels w) _ _ _ ltac:(simpl; lia) Hr3)
    as [-> Hr4].
  rewrite advance_advance in *; cbn [Z.add Pos.add Pos.succ] in *.
  destruct (Z.eqb_spec (short_le c0 c1) 1) as [E1|E1];
    destruct (Z.eqb_spec (short_le c0 c1) 2) as [E2|E2]; cbn [negb andb];
    try reflexivity.
  all: cbn [set_channels set_freq f freq bits].
  all: destruct (read32_full (advance (f w) 12) (freq w) _ _ _ _ _
                   ltac:(simpl; lia) Hr4) as [-> Hr5].
  all: rewrite !advance_advance in *; cbn [Z.add Pos.add Pos.succ] in *.
  all: unfold al_fseek; cbn [fpos advance fbytes].
  all: destruct (Z.ltb_spec (fpos (f w) + 16 + 6) 0) as [?|_]; [lia|].
  all: assert (Hr6 : remaining (mkFile (fbytes (f w)) (fpos (f w) + 16 + 6))
                     = d0 :: d1 :: rest)
         by (change (mkFile (fbytes (f w)) (fpos (f w) + 16 + 6))
               with (advance (advance (f w) 16) 6);
             rewrite remaining_advance, Hr5 by (simpl; lia); reflexivity).
  all: destruct (read16_full (mkFile (fbytes (f w)) (fpos (f w) + 16 + 6)) (bits w)
                   _ _ _ ltac:(simpl; lia) Hr6) as [-> _].
  all: destruct (Z.eqb_spec (short_le d0 d1) 8) as [E3|E3];
    destruct (Z.eqb_spec (short_le d0 d1) 16) as [E4|E4]; cbn [negb andb];
    try reflexivity.
  all: exfalso; destruct Hbad as [[? ?]|[? ?]]; contradiction.
Qed.

(** Either the prefix check fails, or [wav_open] is the chunk loop from
    offset 12 followed by the code behind the loop. *)
Lemma wav_open_cases fuel w0 bytes :
  wav_open fuel (Some w0) (Some bytes) = Done None \/
  wav_open fuel (Some w0) (Some bytes) =
  match wav_open_chunks fuel
          (set_f (set_channels (set_bits (set_freq (set_f w0 (mkFile bytes 0)) 22050) 8) 1)
                 (mkFile bytes 12)) with
  | OutOfFuel => OutOfFuel
  | Done None => Done None
  | Done (Some w') => Done (Some (wav_open_finish w'))
  end.
Proof.
  unfold wav_open; cbn [al_fopen set_f set_freq set_bits set_channels f].
  unfold al_fread; cbn [fpos fbytes advance].
  destruct (Z.eqb_spec (blen (take 12 (remaining (mkFile bytes 0)))) 12) as [E|E];
    cbn [negb]; [|now left].
  rewrite E.
  match goal with |- context [if ?c then Done None else _] => destruct c end;
    [now left | now right].
Qed.

Lemma same_format_supported w w' : same_format w w' -> supported w -> supported w'.
Proof. unfold same_format, supported; intros [-> ->]; auto. Qed.

(** C8.  Every handle a successful [wav_open] returns has bit depth 8 or 16
    and channel count 1 or 2; decoding, seeking, rewinding, setting the loop
    region and feeding a buffer keep it so; and a "fmt " chunk that declares
    another channel count or another bit depth makes the open fail, both at
    whatever state the chunk loop reads it and, for a file in which the
    chunk walk from offset 12 arrives at it, for [wav_open] as a whole. *)
Theorem wav_open_supported_format :
  (forall fuel block filename w,
     wav_open fuel block filename = Done (Some w) -> supported w)
  /\ (forall host w data n,
        supported w -> supported (snd (wav_read host w data n)))
  /\ (forall w t, supported w -> supported (snd (wav_stream_seek w t)))
  /\ (forall w, supported w -> supported (snd (wav_stream_rewind w)))
  /\ (forall w s e, supported w -> supported (snd (wav_stream_set_loop w s e)))
  /\ (forall host onedir w data n,
        supported w -> supported (snd (wav_stream_update host onedir w data n)))
  /\ (forall fuel w l0 l1 l2 l3 p0 p1 c0 c1 r0 r1 r2 r3 x0 x1 x2 x3 x4 x5 d0 d1 rest,
        0 <= fpos (f w) ->
        remaining (f w) =
          of_string "fmt " ++ [l0; l1; l2; l3] ++ [p0; p1] ++ [c0; c1]
          ++ [r0; r1; r2; r3] ++ [x0; x1; x2; x3; x4; x5] ++ [d0; d1] ++ rest ->
        (short_le c0 c1 <> 1 /\ short_le c0 c1 <> 2) \/
        (short_le d0 d1 <> 8 /\ short_le d0 d1 <> 16) ->
        wav_open_chunks (S fuel) w = Done None)
  /\ (forall fuel block bytes q k
             l0 l1 l2 l3 p0 p1 c0 c1 r0 r1 r2 r3 x0 x1 x2 x3 x4 x5 d0 d1 rest,
        skips bytes 12 q k ->
        drop q bytes =
          of_string "fmt " ++ [l0; l1; l2; l3] ++ [p0; p1] ++ [c0; c1]
          ++ [r0; r1; r2; r3] ++ [x0; x1; x2; x3; x4; x5] ++ [d0; d1] ++ rest ->
        (short_le c0 c1 <> 1 /\ short_le c0 c1 <> 2) \/
        (short_le d0 d1 <> 8 /\ short_le d0 d1 <> 16) ->
        (k < fuel)%nat ->
        wav_open fuel block (Some bytes) = Done None).
Proof.
  repeat apply conj.
  - intros fuel block [bytes|] w H; [|discriminate].
    destruct (wav_open_done _ _ _ _ H) as (w0 & w' & p & _ & _ & _ & _ & Hs & _ & ->).
    eapply same_format_supported; [apply finish_format | exact Hs].
  - intros; eapply same_format_supported; [apply wav_read_format | assumption].
  - intros; eapply same_format_supported; [apply wav_stream_seek_format | assumption].
  - intros; eapply same_format_supported; [apply wav_stream_seek_format | assumption].
  - intros; assumption.
  - intros; eapply same_format_supported; [apply wav_stream_update_format | assumption].
  - intros. cbn [wav_open_chunks]. erewrite turn_bad_fmt; eauto.
  - intros fuel block bytes q k l0 l1 l2 l3 p0 p1 c0 c1 r0 r1 r2 r3
           x0 x1 x2 x3 x4 x5 d0 d1 rest Hs Hd Hbad Hk.
    destruct block as [w0|]; [|reflexivity].
    destruct (wav_open_cases fuel w0 bytes) as [E|E]; [exact E|]. rewrite E.
    replace fuel with (k + S (fuel - S k))%nat by lia.
    rewrite (chunks_skip bytes 12 q k Hs) by reflexivity.
    cbn [wav_open_chunks].
    erewrite turn_bad_fmt; [reflexivity | | | exact Hbad].
    + simpl. apply (skips_nonneg _ _ _ _ Hs); lia.
    + unfold remaining; simpl. exact Hd.
Qed.

Lemma wav_open_supported_format_witness :
  exists w,
    wav_open 2
      (Some blank_handle)
      (Some (wav_container 2 44100 16 8 [1; 2; 3; 4; 5; 6; 7; 8]))
    = Done (Some w) /\ supported w.
Proof.
  eexists; split; [vm_compute; reflexivity|].
  exact (proj1 wav_open_supported_format 2%nat
           (Some blank_handle)
           (Some (wav_container 2 44100 16 8 [1; 2; 3; 4; 5; 6; 7; 8])) _ eq_refl).
Defined.

(** ** The stream control surface *)

(** C6.  A seek to a time at or behind [loop_end] returns false and changes
    nothing: the handle, and with it the read cursor of the file, is what it
    was before the call. *)
Theorem wav_stream_seek_past_loop_end :
  forall w t,
    PrimFloat.leb (loop_end w) t = true ->
    wav_stream_seek w t = (false, w) /\
    al_ftell (f (snd (wav_stream_seek w t))) = al_ftell (f w).
Proof.
  intros w t H. unfold wav_stream_seek. rewrite H. split; reflexivity.
Qed.

Lemma wav_stream_seek_past_loop_end_witness :
  wav_stream_seek
    (mkWav (mkFile (wav_container 2 44100 16 8 [1; 2; 3; 4; 5; 6; 7; 8]) 48)
           44 44100 16 2 2 0%float 0.5%float) 0.5%float
  = (false,
     mkWav (mkFile (wav_container 2 44100 16 8 [1; 2; 3; 4; 5; 6; 7; 8]) 48)
           44 44100 16 2 2 0%float 0.5%float)
  /\ al_ftell
       (f (snd (wav_stream_seek
                  (mkWav (mkFile (wav_container 2 44100 16 8 [1; 2; 3; 4; 5; 6; 7; 8]) 48)
                         44 44100 16 2 2 0%float 0.5%float) 0.5%float)))
     = 48.
Proof.
  exact (wav_stream_seek_past_loop_end
           (mkWav (mkFile (wav_container 2 44100 16 8 [1; 2; 3; 4; 5; 6; 7; 8]) 48)
                  44 44100 16 2 2 0%float 0.5%float) 0.5%float eq_refl).
Defined.

(** C2 (the code departs from the specification).  Seeking [stereo16] to 2^-15 s:
    the raw byte offset is 5 and a frame has 4 bytes, so the next whole-frame
    boundary is 8; the code adds [5 % 4 = 1] and seeks to data offset 6,
    which is not on a frame boundary. *)
Theorem wav_stream_seek_misaligned :
  PrimFloat.leb (loop_end stereo16) 0x1p-15%float = false /\
  Double.to_ulong
    (PrimFloat.mul 0x1p-15%float
       (Double.of_Z (freq stereo16 * Z.quot (bits stereo16) 8 * channels stereo16)))
  = 5 /\
  Z.quot (bits stereo16) 8 * channels stereo16 = 4 /\
  fst (wav_stream_seek stereo16 0x1p-15%float) = true /\
  al_ftell (f (snd (wav_stream_seek stereo16 0x1p-15%float))) = dpos stereo16 + 6 /\
  Z.rem 6 4 <> 0.
Proof.
  repeat split; try (vm_compute; reflexivity). vm_compute; discriminate.
Qed.

(** ** Truncated headers *)

(** The end of the stream inside the 12-byte prefix or inside a chunk tag is
    noticed: both reads compare the count [al_fread] returns. *)
Lemma wav_open_short_prefix fuel block bytes :
  blen bytes < 12 -> wav_open fuel block (Some bytes) = Done None.
Proof.
  intros Hlen. unfold wav_open; cbn [al_fopen].
  destruct block as [w0|]; [|reflexivity].
  unfold al_fread; cbn [set_f set_freq set_bits set_channels f].
  destruct (Z.eqb_spec (blen (take 12 (remaining (mkFile bytes 0)))) 12) as [E|E];
    [|reflexivity].
  rewrite blen_take in E. unfold remaining in E; simpl in E.
  rewrite drop_le0 in E by lia. pose proof (blen_nonneg bytes). lia.
Qed.

Lemma turn_short_tag w :
  blen (remaining (f w)) < 4 -> wav_open_turn w = Fail.
Proof.
  intros Hlen. unfold wav_open_turn, al_fread.
  destruct (Z.eqb_spec (blen (take 4 (remaining (f w)))) 4) as [E|E];
    [|reflexivity].
  rewrite blen_take in E. pose proof (blen_nonneg (remaining (f w))). lia.
Qed.

(** C5 (the code departs from the specification).  A file that ends inside the
    four-byte count of the data chunk: [wav_open] does not fail, it returns a
    handle whose frame count is whatever the allocated block held ([read32]
    reports the end of the stream and its result is not looked at). *)
Theorem wav_open_truncated_count :
  forall w0 fuel, exists w,
    wav_open (S fuel) (Some w0)
      (Some (of_string "RIFF" ++ [10; 0; 0; 0] ++ of_string "WAVE"
             ++ of_string "data" ++ [16; 0]))
    = Done (Some w) /\
    samples w = samples w0 /\ dpos w = 18 /\
    freq w = 22050 /\ bits w = 8 /\ channels w = 1.
Proof.
  intros w0 fuel. eexists; split; [reflexivity|]. repeat split.
Qed.

(** ** The sample writer *)

(** C4 (the code departs from the specification).  With [MIXER_FRAC_SHIFT] 8, saving
    the two stereo frames of [int8_stereo] writes a header that declares 4
    data bytes and then the first two samples only, 1 + 0x80 and 2 + 0x80:
    the loop runs over the frames, not over the frames times the channels. *)
Theorem al_save_wav_stream_int8_stereo :
  forall host,
    al_save_wav_stream 8 host (mkFile [] 0) int8_stereo
    = (true, mkFile (wav_container 2 44100 8 4 [129; 130]) 46).
Proof. intros host. vm_compute. reflexivity. Qed.

(** ** The decoder *)

Lemma read16_empty file v : remaining file = [] -> read16 file v = (false, v, file).
Proof.
  intros Hr; unfold read16. rewrite (al_fgetc_nil _ Hr), (al_fgetc_nil _ Hr).
  reflexivity.
Qed.

Lemma read16_one file v b :
  0 <= fpos file -> remaining file = [b] ->
  read16 file v = (false, v, advance file 1) /\ remaining (advance file 1) = [].
Proof.
  intros Hp Hr; unfold read16.
  destruct (al_fgetc_cons _ _ _ Hp Hr) as [-> R1].
  rewrite (al_fgetc_nil _ R1). split; [reflexivity | assumption].
Qed.

Lemma wav_read16_empty host k file data i :
  remaining file = [] -> wav_read16 host k file data i = (i, data, file).
Proof.
  intros Hr; destruct k; simpl; [reflexivity|].
  rewrite (read16_empty _ _ Hr). reflexivity.
Qed.

Lemma store_at_end d z p bs :
  blen d = p -> store (d ++ z) p bs = d ++ bs ++ drop (blen bs) z.
Proof.
  intros <-. unfold store. rewrite take_app_len.
  replace (zeros (blen d - blen (d ++ z))) with (@nil Z).
  - simpl. rewrite drop_app by apply blen_nonneg. reflexivity.
  - unfold zeros. rewrite blen_app. pose proof (blen_nonneg z).
    replace (Z.to_nat (blen d - (blen d + blen z))) with 0%nat by lia. reflexivity.
Qed.

Lemma s16_low b0 b1 :
  u8 (short_le b0 b1) = u8 b0 /\ u8 (Z.shiftr (short_le b0 b1) 8) = u8 b1.
Proof.
  rewrite Z.shiftr_div_pow2 by lia. change (2 ^ 8) with 256.
  unfold short_le, s16, u8. split; lia.
Qed.

(** The 16-bit loop: [k] turns over a file with [B] bytes left read
    [min k (B / 2)] values, and the file is exhausted when [k] is more. *)
Lemma wav_read16_count host k : forall file data i,
  0 <= fpos file ->
  exists data' file',
    wav_read16 host k file data i
    = (i + Z.min (Z.of_nat k) (blen (remaining file) / 2), data', file') /\
    (blen (remaining file) / 2 < Z.of_nat k -> remaining file' = []).
Proof.
  induction k as [|k IH]; intros file data i Hp.
  - pose proof (blen_nonneg (remaining file)).
    replace (Z.min (Z.of_nat 0) (blen (remaining file) / 2)) with 0 by lia.
    exists data, file. simpl wav_read16. rewrite Z.add_0_r. split; [reflexivity | lia].
  - cbn [wav_read16].
    destruct (remaining file) as [|b0 [|b1 rest]] eqn:Hr.
    + rewrite blen_nil. change (0 / 2) with 0.
      replace (Z.min (Z.of_nat (S k)) 0) with 0 by lia.
      rewrite (read16_empty _ _ Hr). exists data, file.
      rewrite Z.add_0_r. split; auto.
    + change (blen [b0] / 2) with 0.
      replace (Z.min (Z.of_nat (S k)) 0) with 0 by lia.
      destruct (read16_one _ 0 _ Hp Hr) as [-> Hr1].
      exists data, (advance file 1). rewrite Z.add_0_r. split; auto.
    + destruct (read16_full _ 0 _ _ _ Hp Hr) as [-> Hr2].
      assert (HB : blen (b0 :: b1 :: rest) / 2 = 1 + blen rest / 2).
      { rewrite !blen_cons. pose proof (blen_nonneg rest). lia. }
      rewrite HB. pose proof (blen_nonneg rest) as Hrest.
      destruct (IH (advance file 2)
                   (store16 host data (2 * i) (short_le b0 b1)) (i + 1))
        as (data' & file' & Hrun & Hend); [simpl; lia|].
      rewrite Hr2 in *. exists data', file'. rewrite Hrun. split.
      * do 2 f_equal. lia.
      * intros Hlt. apply Hend. lia.
Qed.

Lemma store16_at_end host d t b0 b1 :
  blen d = 2 * (blen d / 2) -> 2 <= blen t ->
  store16 host (d ++ t) (2 * (blen d / 2)) (short_le b0 b1)
  = (d ++ image16 host b0 b1) ++ drop 2 t.
Proof.
  intros Hd Ht. destruct (s16_low b0 b1) as [E0 E1].
  unfold store16, image16; destruct host; rewrite store_at_end by lia;
    rewrite E0, E1, <- app_assoc; reflexivity.
Qed.

(** When the block has room for [k] values behind the [2 * i] bytes it
    holds, the loop leaves the images of the values it read there and
    nothing else changes. *)
Lemma wav_read16_data host k : forall file done tail i,
  0 <= fpos file -> blen done = 2 * i -> 2 * Z.of_nat k <= blen tail ->
  let m := Z.min (Z.of_nat k) (blen (remaining file) / 2) in
  fst (fst (wav_read16 host k file (done ++ tail) i))
  = i + m /\
  snd (fst (wav_read16 host k file (done ++ tail) i))
  = done ++ images16 host (take (2 * m) (remaining file)) ++ drop (2 * m) tail.
Proof.
  induction k as [|k IH]; intros file done tail i Hp Hd Hroom m.
  - subst m. pose proof (blen_nonneg (remaining file)).
    replace (Z.min (Z.of_nat 0) (blen (remaining file) / 2)) with 0 by lia.
    simpl wav_read16. simpl fst. simpl snd.
    rewrite take_le0, drop_le0 by lia. split; [lia | reflexivity].
  - cbn [wav_read16].
    destruct (remaining file) as [|b0 [|b1 rest]] eqn:Hr.
    + subst m. rewrite blen_nil. change (0 / 2) with 0.
      replace (Z.min (Z.of_nat (S k)) 0) with 0 by lia.
      rewrite (read16_empty _ _ Hr). simpl. rewrite drop_le0 by lia.
      split; [lia | reflexivity].
    + subst m. change (blen [b0] / 2) with 0.
      replace (Z.min (Z.of_nat (S k)) 0) with 0 by lia.
      destruct (read16_one _ 0 _ Hp Hr) as [-> Hr1]. simpl.
      rewrite drop_le0 by lia. split; [lia | reflexivity].
    + destruct (read16_full _ 0 _ _ _ Hp Hr) as [-> Hr2].
      assert (HB : blen (b0 :: b1 :: rest) / 2 = 1 + blen rest / 2).
      { rewrite !blen_cons. pose proof (blen_nonneg rest). lia. }
      subst m. rewrite HB. pose proof (blen_nonneg rest) as Hrest.
      replace (2 * i) with (2 * (blen done / 2)) by lia.
      rewrite store16_at_end by lia.
      destruct (IH (advance file 2) (done ++ image16 host b0 b1) (drop 2 tail) (i + 1))
        as [Hcount Hdata].
      { simpl; lia. }
      { rewrite blen_app, Hd. unfold image16; destruct host;
          rewrite !blen_cons, blen_nil; lia. }
      { rewrite blen_drop. lia. }
      rewrite Hr2 in *.
      set (m' := Z.min (Z.of_nat k) (blen rest / 2)) in *.
      replace (Z.min (Z.of_nat (S k)) (1 + blen rest / 2)) with (1 + m') by lia.
      assert (0 <= m') by lia.
      split; [rewrite Hcount; lia|].
      rewrite Hdata. rewrite <- !app_assoc. f_equal.
      rewrite take_cons by lia. rewrite take_cons by lia.
      replace (2 * (1 + m') - 1 - 1) with (2 * m') by lia.
      cbn [images16]. rewrite <- !app_assoc. do 2 f_equal.
      rewrite drop_drop by lia. f_equal; lia.
Qed.

Lemma u64_small v : 0 <= v < 18446744073709551616 -> u64 v = v.
Proof. unfold u64; lia. Qed.

(** A handle whose file is exhausted decodes nothing. *)
Lemma wav_read_exhausted host w data m :
  remaining (f w) = [] -> fst (fst (wav_read host w data m)) = 0.
Proof.
  intros Hr. unfold wav_read. destruct (bits w =? 8).
  - unfold al_fread. rewrite Hr. reflexivity.
  - rewrite (wav_read16_empty _ _ _ _ _ Hr). reflexivity.
Qed.

(** C7.  On a supported handle with [r] whole frames between the cursor and
    the end of the stream, a decode call that asks for [n > r] frames returns
    exactly [r] (it is a total function: there is no error result), and
    whatever the next decode call asks for, it returns 0. *)
Theorem wav_read_short :
  forall host w data n,
    supported w -> 0 <= fpos (f w) ->
    Z.quot (blen (remaining (f w))) (channels w * Z.quot (bits w) 8) < n ->
    channels w * n < 18446744073709551616 ->
    exists data' w',
      wav_read host w data n
      = (Z.quot (blen (remaining (f w))) (channels w * Z.quot (bits w) 8), data', w')
      /\ forall data2 m, fst (fst (wav_read host w' data2 m)) = 0.
Proof.
  intros host w data n [Hb Hc] Hp Hr Hn.
  pose proof (blen_nonneg (remaining (f w))) as HB.
  assert (Hch : u64 (channels w) = channels w) by (apply u64_small; lia).
  assert (H0 : 0 <= n) by (destruct Hb as [E|E], Hc as [E'|E']; rewrite E, E' in Hr;
                          simpl in Hr; lia).
  assert (Hreq : u64 (channels w * n) = channels w * n) by (apply u64_small; nia).
  unfold wav_read. rewrite Hch, Hreq.
  destruct Hb as [E8|E16].
  - rewrite E8 in *. simpl (8 =? 8). cbv iota. change (Z.quot 8 8) with 1 in *.
    rewrite Z.mul_1_r in *.
    unfold al_fread.
    rewrite (take_all (channels w * n)) by (destruct Hc as [E|E]; rewrite E in *; lia).
    do 2 eexists; split; [reflexivity|].
    intros data2 m. apply wav_read_exhausted. cbn [f set_f].
    rewrite remaining_advance by lia. apply drop_all; lia.
  - rewrite E16 in *. simpl (16 =? 8). cbv iota. change (Z.quot 16 8) with 2 in *.
    destruct (wav_read16_count host (Z.to_nat (channels w * n)) (f w) data 0 Hp)
      as (data' & file' & Hrun & Hend).
    rewrite Hrun.
    assert (Hmore : blen (remaining (f w)) / 2 < channels w * n)
      by (destruct Hc as [E|E]; rewrite E in *; lia).
    replace (0 + Z.min (Z.of_nat (Z.to_nat (channels w * n)))
                       (blen (remaining (f w)) / 2))
      with (blen (remaining (f w)) / 2) by lia.
    do 2 eexists; split.
    + f_equal. f_equal. destruct Hc as [E|E]; rewrite E; lia.
    + intros data2 m. apply wav_read_exhausted. cbn [f set_f]. apply Hend. lia.
Qed.

Lemma wav_read_short_witness :
  exists data' w',
    wav_read LittleEndian
      (mkWav (mkFile (wav_container 2 44100 16 10 [1; 2; 3; 4; 5; 6; 7; 8; 9; 10]) 44)
             44 44100 16 2 2 0%float 1%float)
      [0; 0; 0; 0; 0; 0; 0; 0; 0; 0; 0; 0] 3
    = (2, data', w')
    /\ forall data2 m, fst (fst (wav_read LittleEndian w' data2 m)) = 0.
Proof.
  apply (wav_read_short LittleEndian
           (mkWav (mkFile (wav_container 2 44100 16 10 [1; 2; 3; 4; 5; 6; 7; 8; 9; 10]) 44)
                  44 44100 16 2 2 0%float 1%float)
           [0; 0; 0; 0; 0; 0; 0; 0; 0; 0; 0; 0] 3).
  - split; [right | right]; reflexivity.
  - simpl; lia.
  - vm_compute; reflexivity.
  - vm_compute; reflexivity.
Defined.

(** ** The one-shot load *)

Lemma drop_repeat a b : drop (Z.of_nat a) (List.repeat 0 (a + b)) = List.repeat 0 b.
Proof.
  induction a as [|a IH]; [apply drop_le0; simpl; lia|].
  cbn [Nat.add List.repeat]. rewrite drop_cons by lia.
  rewrite <- IH. f_equal. lia.
Qed.

Lemma drop_zeros k n : 0 <= k -> drop k (zeros n) = zeros (n - k).
Proof.
  intros Hk. destruct (Z_le_gt_dec k n) as [Hle|Hgt].
  - unfold zeros. replace (Z.to_nat n) with (Z.to_nat k + Z.to_nat (n - k))%nat by lia.
    replace k with (Z.of_nat (Z.to_nat k)) at 1 by lia. apply drop_repeat.
  - rewrite drop_all by (rewrite blen_zeros; lia).
    unfold zeros. replace (Z.to_nat (n - k)) with 0%nat by lia. reflexivity.
Qed.

Lemma blen_images16 host l : blen (images16 host l) = 2 * (blen l / 2).
Proof.
  assert (H : forall n l, (List.length l <= n)%nat ->
                          blen (images16 host l) = 2 * (blen l / 2)).
  { clear l. induction n as [|n IH]; intros l Hl.
    - destruct l; [reflexivity | simpl in Hl; lia].
    - destruct l as [|b0 [|b1 rest]]; try reflexivity.
      cbn [images16]. rewrite blen_app, IH by (simpl in Hl; lia).
      rewrite !blen_cons. pose proof (blen_nonneg rest).
      unfold image16; destruct host; rewrite !blen_cons, blen_nil; lia. }
  apply (H (List.length l)). lia.
Qed.

(** C10.  [al_load_wav] clears the whole data block before it decodes into
    it: when the file opens as [w] and a sample comes back, its buffer has
    the size computed from the handle and consists of the decoded bytes
    followed by zeros only; the decoded bytes are as many whole samples as
    the stream still holds, at most the declared number. *)
Theorem al_load_wav_zero_fill :
  forall shift host fuel block bytes alloc created w spl,
    wav_open fuel block (Some bytes) = Done (Some w) ->
    (forall n l, alloc n = Some l -> blen l = n) ->
    0 <= samples w ->
    Z.quot (bits w) 8 * channels w * samples w <= INT_MAX ->
    al_load_wav shift host fuel block (Some bytes) alloc created = Done (Some spl) ->
    let n := Z.quot (bits w) 8 * channels w * samples w in
    let decoded :=
      Z.quot (bits w) 8
      * Z.min (channels w * samples w)
              (Z.quot (blen (remaining (f w))) (Z.quot (bits w) 8)) in
    exists stored,
      buffer spl = stored ++ zeros (n - decoded) /\
      blen stored = decoded /\ blen (buffer spl) = n.
Proof.
  intros shift host fuel block bytes alloc created w spl Hopen Halloc Hs Hmax Hload n decoded.
  assert (Hsup : supported w).
  { destruct (wav_open_done _ _ _ _ Hopen) as (w0 & w' & p & _ & _ & _ & _ & Hs' & _ & ->).
    eapply same_format_supported; [apply finish_format | exact Hs']. }
  assert (Hp : 0 <= fpos (f w)).
  { destruct (wav_open_done _ _ _ _ Hopen) as (w0 & w' & p & _ & Hp & _ & Hf & _ & _ & ->).
    unfold wav_open_finish.
    destruct (read32 (f w') (samples w')) as [[ok c] f1] eqn:E.
    apply read32_keeps in E. destruct E as [_ E]. simpl. apply E. rewrite Hf; simpl; lia. }
  pose proof (blen_nonneg (remaining (f w))) as HB.
  destruct Hsup as [Hb Hc]. unfold INT_MAX in Hmax.
  assert (Hn0 : 0 <= n /\ n <= 2147483647 /\ 0 <= channels w * samples w <= n
                /\ samples w <= n).
  { subst n. clear decoded Hload Hopen.
    destruct Hb as [E|E], Hc as [E'|E']; rewrite E, E' in *;
      change (Z.quot 8 8) with 1 in *; change (Z.quot 16 8) with 2 in *; lia. }
  unfold al_load_wav in Hload. rewrite Hopen in Hload.
  fold n in Hload.
  rewrite (s32_small n), (u64_small n) in Hload by lia.
  destruct (alloc n) as [data|] eqn:Ea; [|discriminate].
  apply Halloc in Ea.
  unfold al_create_sample in Hload. destruct created; [|discriminate].
  unfold memset in Hload. change (u8 0) with 0 in Hload.
  rewrite (drop_all n data) in Hload by lia. rewrite app_nil_r in Hload.
  fold (zeros n) in Hload.
  rewrite (u64_small (samples w)) in Hload by lia.
  unfold wav_read in Hload.
  rewrite (u64_small (channels w)) in Hload by (destruct Hc as [E|E]; rewrite E; lia).
  rewrite (u64_small (channels w * samples w)) in Hload by lia.
  destruct Hb as [E8|E16].
  - rewrite E8 in Hload. simpl (8 =? 8) in Hload. cbv iota in Hload.
    unfold al_fread in Hload. inversion Hload; subst spl; clear Hload.
    cbn [buffer with_buffer]. unfold fill.
    set (got := take (channels w * samples w) (remaining (f w))).
    assert (Hgot : blen got = decoded).
    { subst got decoded. rewrite blen_take, E8. change (Z.quot 8 8) with 1.
      rewrite Z.quot_1_r. lia. }
    exists got. rewrite drop_zeros by apply blen_nonneg. rewrite Hgot.
    repeat split. rewrite blen_app, blen_zeros, Hgot.
    subst decoded. rewrite E8 in *. change (Z.quot 8 8) with 1 in *. lia.
  - rewrite E16 in Hload. simpl (16 =? 8) in Hload. cbv iota in Hload.
    destruct (wav_read16_data host (Z.to_nat (channels w * samples w)) (f w)
                [] (zeros n) 0 Hp ltac:(reflexivity)) as [_ Hdata].
    { rewrite blen_zeros. subst n. rewrite E16 in *.
      change (Z.quot 16 8) with 2 in *. lia. }
    rewrite !app_nil_l in Hdata.
    destruct (wav_read16 host _ (f w) (zeros n) 0) as [[i data'] f1].
    cbn [fst snd] in Hdata. inversion Hload; subst spl; clear Hload.
    cbn [buffer with_buffer]. rewrite Hdata.
    set (m := Z.min (Z.of_nat (Z.to_nat (channels w * samples w)))
                    (blen (remaining (f w)) / 2)).
    assert (Hm : 2 * m = decoded).
    { subst m decoded. rewrite E16. change (Z.quot 16 8) with 2. lia. }
    assert (Hm2 : 0 <= 2 * m <= blen (remaining (f w))).
    { subst m. clear - HB Hn0. lia. }
    assert (Hlen : blen (images16 host (take (2 * m) (remaining (f w)))) = decoded).
    { rewrite blen_images16, blen_take, <- Hm. clearbody m. clear - Hm2.
      replace (Z.max 0 (Z.min (2 * m) (blen (remaining (f w))))) with (2 * m) by lia.
      lia. }
    exists (images16 host (take (2 * m) (remaining (f w)))).
    rewrite drop_zeros by apply Hm2.
    split; [rewrite Hm; reflexivity|]. split; [assumption|].
    rewrite blen_app, blen_zeros, Hlen.
    subst decoded n. rewrite E16 in *. change (Z.quot 16 8) with 2 in *. lia.
Qed.

Lemma al_load_wav_zero_fill_witness :
  exists stored,
    [0; 64; 0; 0] = stored ++ zeros 2 /\ blen stored = 2 /\ blen [0; 64; 0; 0] = 4.
Proof.
  refine (al_load_wav_zero_fill 8 LittleEndian 2
            (Some blank_handle)
            (wav_container 1 22050 8 4 [0; 64])
            (fun n => if n <? 0 then None else Some (List.repeat 170 (Z.to_nat n)))
            true
            (mkWav (mkFile (wav_container 1 22050 8 4 [0; 64]) 44) 44 22050 8 1 4
                   PrimFloat.zero PrimFloat.zero)
            (mkSample ALLEGRO_AUDIO_DEPTH_UINT8 16 22050 1024 [0; 64; 0; 0])
            _ _ _ _ _).
  - vm_compute; reflexivity.
  - intros n l. destruct (Z.ltb_spec n 0) as [Hn|Hn]; intros Hl; inversion Hl.
    unfold blen. rewrite repeat_length. lia.
  - simpl; lia.
  - vm_compute; discriminate.
  - vm_compute; reflexivity.
Defined.

(** ** The round trip *)

Lemma al_fwrite_end l bs :
  al_fwrite (mkFile l (blen l)) bs = mkFile (l ++ bs) (blen (l ++ bs)).
Proof.
  unfold al_fwrite, store; cbn [fbytes fpos].
  rewrite take_all, drop_all by (pose proof (blen_nonneg bs); lia).
  rewrite Z.sub_diag. change (zeros 0) with (@nil Z).
  rewrite app_nil_r, blen_app. reflexivity.
Qed.

(** What [al_save_wav_stream] writes into an empty file for a signed 16-bit
    sample: the container of section 6 around the sample memory. *)
Lemma al_save_wav_stream_int16 shift host spl :
  depth spl = ALLEGRO_AUDIO_DEPTH_INT16 ->
  let c := Z.shiftr (chan_conf spl) 4 + Z.land (chan_conf spl) 15 in
  let frames := Z.shiftr (len spl) shift in
  c = 1 \/ c = 2 ->
  0 <= frames -> frames * c * 2 < 2147483647 ->
  0 <= frequency spl < 2147483648 ->
  blen (buffer spl) = frames * c * 2 ->
  exists pf,
    al_save_wav_stream shift host (mkFile [] 0) spl = (true, pf) /\
    fbytes pf = wav_container c (frequency spl) 16 (frames * c * 2) (buffer spl).
Proof.
  intros Hd c frames Hc Hf Hsize Hrate Hlen.
  unfold al_save_wav_stream. rewrite Hd. fold c. fold frames.
  assert (Hcu : u64 c = c) by (apply u64_small; lia).
  rewrite Hcu. rewrite (u64_small frames) by lia.
  replace ((c <? 1) || (c >? 2)) with false
    by (destruct Hc as [E|E]; rewrite E; reflexivity).
  rewrite (u64_small (frames * c * 16)) by lia.
  rewrite (u64_small (frames * c * 2)) by lia.
  rewrite (u64_small (frequency spl * c * 16)) by lia.
  replace (Z.quot (frames * c * 16) 8) with (frames * c * 2) by lia.
  rewrite (take_all (frames * c * 2)) by lia.
  cbv zeta. unfold al_fputs, al_fwrite32le, al_fwrite16le.
  change (mkFile [] 0) with (mkFile [] (blen [])).
  rewrite !al_fwrite_end.
  eexists; split; [reflexivity|].
  cbn [fbytes]. unfold wav_container. rewrite <- !app_assoc. reflexivity.
Qed.

Lemma short_le_le16 v :
  -32768 <= v < 32768 -> short_le (u8 v) (u8 (Z.shiftr v 8)) = v.
Proof.
  intros Hv. rewrite Z.shiftr_div_pow2 by lia. change (2 ^ 8) with 256.
  unfold short_le, s16, u8. lia.
Qed.

Lemma int_le_le32 v :
  -2147483648 <= v < 2147483648 ->
  int_le (u8 v) (u8 (Z.shiftr v 8)) (u8 (Z.shiftr v 16)) (u8 (Z.shiftr v 24)) = v.
Proof.
  intros Hv. rewrite !Z.shiftr_div_pow2 by lia.
  change (2 ^ 8) with 256; change (2 ^ 16) with 65536; change (2 ^ 24) with 16777216.
  unfold int_le, s32, u8. lia.
Qed.

(** A "fmt " chunk of integer PCM with a supported channel count and bit
    depth: the turn that reads it stores its three fields and leaves the
    cursor behind the chunk. *)
Lemma turn_fmt w l0 l1 l2 l3 p0 p1 c0 c1 r0 r1 r2 r3 x0 x1 x2 x3 x4 x5 d0 d1 rest :
  0 <= fpos (f w) ->
  remaining (f w) =
    of_string "fmt " ++ [l0; l1; l2; l3] ++ [p0; p1] ++ [c0; c1]
    ++ [r0; r1; r2; r3] ++ [x0; x1; x2; x3; x4; x5] ++ [d0; d1] ++ rest ->
  16 <= int_le l0 l1 l2 l3 -> short_le p0 p1 = 1 ->
  short_le c0 c1 = 1 \/ short_le c0 c1 = 2 ->
  short_le d0 d1 = 8 \/ short_le d0 d1 = 16 ->
  wav_open_turn w =
  Again (set_f (set_bits (set_freq (set_channels w (short_le c0 c1))
                                   (int_le r0 r1 r2 r3))
                         (short_le d0 d1))
               (mkFile (fbytes (f w)) (fpos (f w) + 8 + int_le l0 l1 l2 l3))).
Proof.
  intros Hp Hr Hlen Hpcm Hch Hbits. unfold wav_open_turn.
  destruct (al_fread_prefix _ _ _ Hp Hr) as [Hread Hr1].
  change (blen (of_string "fmt ")) with 4 in Hread, Hr1.
  rewrite Hread. cbn [negb blen List.length of_string].
  change (negb (Z.of_nat 4 =? 4)) with false. cbv iota.
  rewrite memcmp_same; cbn [negb].
  destruct (read32_full (advance (f w) 4) 0 _ _ _ _ _ ltac:(simpl; lia) Hr1) as [-> Hr2].
  destruct (Z.ltb_spec (int_le l0 l1 l2 l3) 16) as [?|_]; [lia|].
  rewrite advance_advance in *; cbn [Z.add Pos.add Pos.succ] in *.
  destruct (read16_full (advance (f w) 8) 0 _ _ _ ltac:(simpl; lia) Hr2) as [-> Hr3].
  rewrite Hpcm. cbn [Z.eqb Pos.eqb negb].
  rewrite advance_advance in *; cbn [Z.add Pos.add Pos.succ] in *.
  destruct (read16_full (advance (f w) 10) (channels w) _ _ _ ltac:(simpl; lia) Hr3)
    as [-> Hr4].
  rewrite advance_advance in *; cbn [Z.add Pos.add Pos.succ] in *.
  replace (negb (short_le c0 c1 =? 1) && negb (short_le c0 c1 =? 2)) with false
    by (destruct Hch as [E|E]; rewrite E; reflexivity).
  cbn [set_channels set_freq f freq bits].
  destruct (read32_full (advance (f w) 12) (freq w) _ _ _ _ _ ltac:(simpl; lia) Hr4)
    as [-> Hr5].
  rewrite !advance_advance in *; cbn [Z.add Pos.add Pos.succ] in *.
  unfold al_fseek at 1; cbn [fpos advance fbytes].
  destruct (Z.ltb_spec (fpos (f w) + 16 + 6) 0) as [?|_]; [lia|].
  assert (Hr6 : remaining (mkFile (fbytes (f w)) (fpos (f w) + 16 + 6)) = d0 :: d1 :: rest)
    by (change (mkFile (fbytes (f w)) (fpos (f w) + 16 + 6))
          with (advance (advance (f w) 16) 6);
        rewrite remaining_advance, Hr5 by (simpl; lia); reflexivity).
  destruct (read16_full (mkFile (fbytes (f w)) (fpos (f w) + 16 + 6)) (bits w)
              _ _ _ ltac:(simpl; lia) Hr6) as [-> _].
  replace (negb (short_le d0 d1 =? 8) && negb (short_le d0 d1 =? 16)) with false
    by (destruct Hbits as [E|E]; rewrite E; reflexivity).
  unfold al_fseek, advance; cbn [fpos fbytes snd].
  destruct (Z.gtb_spec (int_le l0 l1 l2 l3 - 16) 0) as [Hgt|Hle].
  - destruct (Z.ltb_spec (fpos (f w) + 16 + 6 + 2 + (int_le l0 l1 l2 l3 - 16)) 0)
      as [?|_]; [lia|].
    cbn [snd].
    replace (fpos (f w) + 16 + 6 + 2 + (int_le l0 l1 l2 l3 - 16))
      with (fpos (f w) + 8 + int_le l0 l1 l2 l3) by lia.
    reflexivity.
  - replace (fpos (f w) + 16 + 6 + 2)
      with (fpos (f w) + 8 + int_le l0 l1 l2 l3) by lia.
    reflexivity.
Qed.

Lemma blen_container c rate b count data :
  wav_container c rate b count data
  = (of_string "RIFF" ++ le32 (36 + count) ++ of_string "WAVE"
     ++ of_string "fmt " ++ le32 16 ++ le16 1 ++ le16 c ++ le32 rate
     ++ le32 (Z.quot (rate * c * b) 8) ++ le16 (Z.quot (c * b) 8) ++ le16 b
     ++ of_string "data" ++ le32 count) ++ data
  /\ blen (of_string "RIFF" ++ le32 (36 + count) ++ of_string "WAVE"
           ++ of_string "fmt " ++ le32 16 ++ le16 1 ++ le16 c ++ le32 rate
           ++ le32 (Z.quot (rate * c * b) 8) ++ le16 (Z.quot (c * b) 8) ++ le16 b
           ++ of_string "data" ++ le32 count) = 44.
Proof. split; reflexivity. Qed.

(** Opening the container of section 6. *)
Lemma wav_open_container fuel w0 c rate b count data :
  (2 <= fuel)%nat ->
  c = 1 \/ c = 2 -> b = 8 \/ b = 16 ->
  0 <= rate < 2147483648 -> 0 <= count < 2147483647 ->
  wav_open fuel (Some w0) (Some (wav_container c rate b count data))
  = Done (Some (mkWav (mkFile (wav_container c rate b count data) 44) 44 rate b c
                      (frame_count c b count) (loop_start w0) (loop_end w0))).
Proof.
  intros Hfuel Hc Hb Hrate Hcount.
  destruct fuel as [|[|fuel]]; try lia.
  rewrite (wav_open_prefix _ w0 _ (le32 (36 + count))
             (of_string "fmt " ++ le32 16 ++ le16 1 ++ le16 c ++ le32 rate
              ++ le32 (Z.quot (rate * c * b) 8) ++ le16 (Z.quot (c * b) 8) ++ le16 b
              ++ of_string "data" ++ le32 count ++ data))
    by reflexivity.
  set (bytes := wav_container c rate b count data).
  cbn [wav_open_chunks].
  assert (Hc16 : short_le (u8 c) (u8 (Z.shiftr c 8)) = c) by (apply short_le_le16; lia).
  assert (Hb16 : short_le (u8 b) (u8 (Z.shiftr b 8)) = b) by (apply short_le_le16; lia).
  erewrite turn_fmt with (rest := of_string "data" ++ le32 count ++ data);
    [ | simpl; lia | reflexivity | vm_compute; discriminate | reflexivity
      | rewrite Hc16; exact Hc | rewrite Hb16; exact Hb ].
  rewrite Hc16, Hb16. rewrite (int_le_le32 rate) by lia.
  change (int_le (u8 16) (u8 (Z.shiftr 16 8)) (u8 (Z.shiftr 16 16)) (u8 (Z.shiftr 16 24)))
    with 16.
  cbn [f set_f set_channels set_bits set_freq fbytes fpos Z.add Pos.add Pos.succ].
  rewrite turn_data; [ | simpl; lia | reflexivity ].
  unfold wav_open_finish.
  cbn [f dpos freq bits channels samples loop_start loop_end set_f set_dpos
       set_freq set_bits set_channels set_samples advance fbytes fpos al_ftell].
  unfold advance; cbn [fbytes fpos]. change (36 + 4) with 40.
  edestruct (read32_full (mkFile bytes 40) (samples w0)) as [Hread _];
    [ simpl; lia | reflexivity | ].
  rewrite Hread. rewrite (int_le_le32 count) by lia.
  cbn [f dpos freq bits channels samples loop_start loop_end set_f set_dpos
       set_freq set_bits set_channels set_samples advance fbytes fpos al_ftell].
  rewrite (s32_small (count + 1)) by lia.
  unfold frame_count. destruct w0; reflexivity.
Qed.

Lemma images16_little_endian l :
  Forall (fun b => 0 <= b < 256) l -> blen l = 2 * (blen l / 2) ->
  images16 LittleEndian l = l.
Proof.
  assert (H : forall n l, (List.length l <= n)%nat ->
                Forall (fun b => 0 <= b < 256) l -> blen l = 2 * (blen l / 2) ->
                images16 LittleEndian l = l).
  { clear l. induction n as [|n IH]; intros l Hl Hall Heven.
    - destruct l; [reflexivity | simpl in Hl; lia].
    - destruct l as [|b0 [|b1 rest]]; [reflexivity | |].
      + rewrite blen_cons, blen_nil in Heven. lia.
      + inversion Hall as [|? ? H0 Hall1]; subst.
        inversion Hall1 as [|? ? H1 Hall2]; subst.
        cbn [images16 image16 app]. unfold u8. rewrite !Z.mod_small by assumption.
        do 2 f_equal. apply IH; [simpl in Hl; lia | assumption |].
        rewrite !blen_cons in Heven. pose proof (blen_nonneg rest). lia. }
  apply (H (List.length l)). lia.
Qed.

(** X19.  On a little-endian host: saving a signed 16-bit sample of 1 or 2
    channels into an empty file, opening what was written and decoding the
    declared number of frames gives back the sample rate, the channel count,
    the frame count and, byte for byte, the sample memory, hence the sample
    values.  (The sample is well formed: its memory holds frames times
    channels 16-bit values, and its rate and its size in bytes fit the [int]
    fields of the handle.) *)
Theorem wav_round_trip_int16 :
  forall shift spl data0 w0 fuel,
    depth spl = ALLEGRO_AUDIO_DEPTH_INT16 ->
    let c := Z.shiftr (chan_conf spl) 4 + Z.land (chan_conf spl) 15 in
    let frames := Z.shiftr (len spl) shift in
    c = 1 \/ c = 2 ->
    0 <= frames -> frames * c * 2 < 2147483647 ->
    0 <= frequency spl < 2147483648 ->
    blen (buffer spl) = frames * c * 2 ->
    Forall (fun b => 0 <= b < 256) (buffer spl) ->
    blen data0 = frames * c * 2 ->
    (2 <= fuel)%nat ->
    exists pf w w',
      al_save_wav_stream shift LittleEndian (mkFile [] 0) spl = (true, pf) /\
      wav_open fuel (Some w0) (Some (fbytes pf)) = Done (Some w) /\
      freq w = frequency spl /\ channels w = c /\ samples w = frames /\
      wav_read LittleEndian w data0 (samples w) = (frames, buffer spl, w').
Proof.
  intros shift spl data0 w0 fuel Hd c frames Hc Hf Hsize Hrate Hlen Hbytes Hroom Hfuel.
  destruct (al_save_wav_stream_int16 shift LittleEndian spl Hd Hc Hf Hsize Hrate Hlen)
    as (pf & Hsave & Hpf).
  fold c in Hpf. fold frames in Hpf.
  assert (Hfc : frame_count c 16 (frames * c * 2) = frames).
  { unfold frame_count. destruct Hc as [E|E]; rewrite E; simpl Z.eqb; cbv iota; lia. }
  pose proof (wav_open_container fuel w0 c (frequency spl) 16 (frames * c * 2)
                (buffer spl) Hfuel Hc (or_intror eq_refl) Hrate ltac:(lia)) as Hopen.
  rewrite Hfc in Hopen. rewrite <- Hpf in Hopen.
  set (w := mkWav (mkFile (fbytes pf) 44) 44 (frequency spl) 16 c frames
                  (loop_start w0) (loop_end w0)) in *.
  assert (Hrem : remaining (f w) = buffer spl).
  { unfold remaining; cbn [f w fbytes fpos]. rewrite Hpf.
    destruct (blen_container c (frequency spl) 16 (frames * c * 2) (buffer spl))
      as [-> H44].
    rewrite <- H44. apply drop_app_len. }
  assert (Hcu : u64 c = c) by (apply u64_small; lia).
  assert (Hk : u64 (c * frames) = c * frames) by (apply u64_small; nia).
  destruct (wav_read16_data LittleEndian (Z.to_nat (c * frames)) (f w) [] data0 0
              ltac:(simpl; lia) ltac:(reflexivity) ltac:(lia)) as [Hcount Hdata].
  rewrite Hrem, !app_nil_l in Hcount, Hdata. rewrite Hlen in Hcount, Hdata.
  replace (Z.min (Z.of_nat (Z.to_nat (c * frames))) (frames * c * 2 / 2))
    with (c * frames) in Hcount, Hdata by nia.
  rewrite take_all in Hdata by lia.
  rewrite drop_all, app_nil_r in Hdata by lia.
  rewrite images16_little_endian in Hdata by (try assumption; lia).
  exists pf, w.
  exists (set_f w (snd (wav_read16 LittleEndian (Z.to_nat (c * frames)) (f w) data0 0))).
  repeat split; try assumption; try reflexivity.
  unfold wav_read. cbn [channels bits samples w]. rewrite Hcu, Hk.
  change (16 =? 8) with false. cbv iota.
  change (f w) with (mkFile (fbytes pf) 44) in *.
  destruct (wav_read16 LittleEndian (Z.to_nat (c * frames)) (mkFile (fbytes pf) 44) data0 0)
    as [[i d] f1].
  cbn [fst snd] in *. subst i d. f_equal. f_equal.
  destruct Hc as [E|E]; rewrite E; lia.
Qed.

Lemma wav_round_trip_int16_witness :
  exists pf w w',
    al_save_wav_stream 8 LittleEndian (mkFile [] 0) int16_stereo = (true, pf) /\
    wav_open 2
      (Some blank_handle)
      (Some (fbytes pf)) = Done (Some w) /\
    freq w = 44100 /\ channels w = 2 /\ samples w = 2 /\
    wav_read LittleEndian w [0; 0; 0; 0; 0; 0; 0; 0] (samples w)
    = (2, [1; 2; 3; 4; 5; 6; 255; 255], w').
Proof.
  apply (wav_round_trip_int16 8 int16_stereo [0; 0; 0; 0; 0; 0; 0; 0]
           blank_handle 2%nat).
  - reflexivity.
  - right; reflexivity.
  - vm_compute; discriminate.
  - vm_compute; reflexivity.
  - vm_compute; split; [discriminate | reflexivity].
  - reflexivity.
  - repeat constructor; lia.
  - reflexivity.
  - lia.
Defined.

(** On a big-endian host the same file decodes to byte-swapped memory: the
    writer dumps the 16-bit array as it lies in memory while the reader
    assembles little-endian values and stores them in host order. *)
Remark big_endian_host_swaps :
  al_load_wav 8 BigEndian 2 (Some blank_handle)
    (Some (fbytes (snd (al_save_wav_stream 8 BigEndian (mkFile [] 0) int16_stereo))))
    (fun n => Some (zeros n)) true
  = Done (Some (mkSample ALLEGRO_AUDIO_DEPTH_INT16 32 44100 512
                         [2; 1; 4; 3; 6; 5; 255; 255])).
Proof. vm_compute. reflexivity. Qed.

(** C1 (the code departs from the specification).  On a big-endian host the
    round trip of the stereo signed 16-bit sample [int16_stereo] fails: the
    writer puts the 16-bit array into the file as it lies in memory, high
    byte first, while the reader assembles little-endian values.  The file
    opens with the rate, channel count and frame count of the sample, but the
    decoded block is the sample memory with the two bytes of every value
    exchanged, so the first sample, 258, comes back as 513. *)
Theorem wav_round_trip_int16_big_endian_host :
  exists pf w data' w',
    al_save_wav_stream 8 BigEndian (mkFile [] 0) int16_stereo = (true, pf) /\
    wav_open 2 (Some blank_handle) (Some (fbytes pf)) = Done (Some w) /\
    freq w = frequency int16_stereo /\ channels w = 2 /\ samples w = 2 /\
    wav_read BigEndian w [0; 0; 0; 0; 0; 0; 0; 0] (samples w) = (2, data', w') /\
    data' = [2; 1; 4; 3; 6; 5; 255; 255] /\
    data' <> buffer int16_stereo /\
    s16 (load_u16 BigEndian (buffer int16_stereo) 0) = 258 /\
    s16 (load_u16 BigEndian data' 0) = 513.
Proof.
  do 4 eexists.
  split; [vm_compute; reflexivity|].
  split; [vm_compute; reflexivity|].
  do 3 (split; [reflexivity|]).
  split; [vm_compute; reflexivity|].
  split; [reflexivity|].
  split; [discriminate|].
  split; reflexivity.
Qed.

(* ================================================================== *)
(** * Further properties of the code *)

(** ** The binary reader at the end of the stream *)

Lemma blen_lt_cases l n :
  blen l < n -> n <= 4 ->
  l = [] \/ (exists a, l = [a]) \/ (exists a b, l = [a; b])
  \/ (exists a b c, l = [a; b; c]).
Proof.
  intros Hl Hn.
  destruct l as [|a [|b [|c [|d l]]]]; eauto 8.
  rewrite !blen_cons in Hl. pose proof (blen_nonneg l). lia.
Qed.

Lemma read32_short file v :
  0 <= fpos file -> blen (remaining file) < 4 ->
  exists file', read32 file v = (false, v, file') /\
                remaining file' = [] /\ fbytes file' = fbytes file.
Proof.
  intros Hp Hlen.
  destruct (blen_lt_cases _ 4 Hlen ltac:(lia))
    as [Hr | [[a Hr] | [(a & b & Hr) | (a & b & c & Hr)]]]; unfold read32.
  - rewrite !(al_fgetc_nil _ Hr). exists file. auto.
  - destruct (al_fgetc_cons _ _ _ Hp Hr) as [-> R1].
    rewrite !(al_fgetc_nil _ R1). exists (advance file 1). auto.
  - destruct (al_fgetc_cons _ _ _ Hp Hr) as [-> R1].
    destruct (al_fgetc_cons (advance file 1) _ _ ltac:(simpl; lia) R1) as [-> R2].
    rewrite !(al_fgetc_nil _ R2). exists (advance (advance file 1) 1). auto.
  - destruct (al_fgetc_cons _ _ _ Hp Hr) as [-> R1].
    destruct (al_fgetc_cons (advance file 1) _ _ ltac:(simpl; lia) R1) as [-> R2].
    destruct (al_fgetc_cons (advance (advance file 1) 1) _ _ ltac:(simpl; lia) R2)
      as [-> R3].
    rewrite !(al_fgetc_nil _ R3). exists (advance (advance (advance file 1) 1) 1). auto.
Qed.

Lemma read16_short file v :
  0 <= fpos file -> blen (remaining file) < 2 ->
  exists file', read16 file v = (false, v, file') /\
                remaining file' = [] /\ fbytes file' = fbytes file.
Proof.
  intros Hp Hlen.
  destruct (remaining file) as [|a [|b l]] eqn:Hr.
  - rewrite (read16_empty _ _ Hr). exists file. auto.
  - destruct (read16_one _ v _ Hp Hr) as [-> R1]. exists (advance file 1). auto.
  - rewrite !blen_cons in Hlen. pose proof (blen_nonneg l). lia.
Qed.

Lemma blen_ge_four l :
  4 <= blen l -> exists b0 b1 b2 b3 rest, l = b0 :: b1 :: b2 :: b3 :: rest.
Proof.
  destruct l as [|a [|b [|c [|d l]]]]; rewrite ?blen_cons, ?blen_nil; intros H;
    try lia; eauto 8.
Qed.

(** X1.  [read32] and [read16] succeed exactly when 4 (2) bytes are left:
    they then return the little-endian value and move the cursor by 4 (2).
    Otherwise they return false, leave the caller's variable as it was, and
    the bytes that were left are consumed: the stream is at its end. *)
Theorem read_at_end_of_stream :
  forall file v,
    0 <= fpos file ->
    (4 <= blen (remaining file) ->
     exists b0 b1 b2 b3 rest,
       remaining file = b0 :: b1 :: b2 :: b3 :: rest /\
       read32 file v = (true, int_le b0 b1 b2 b3, advance file 4))
    /\ (blen (remaining file) < 4 ->
        exists file', read32 file v = (false, v, file') /\
                      remaining file' = [] /\ fbytes file' = fbytes file)
    /\ (2 <= blen (remaining file) ->
        exists b0 b1 rest,
          remaining file = b0 :: b1 :: rest /\
          read16 file v = (true, short_le b0 b1, advance file 2))
    /\ (blen (remaining file) < 2 ->
        exists file', read16 file v = (false, v, file') /\
                      remaining file' = [] /\ fbytes file' = fbytes file).
Proof.
  intros file v Hp. repeat apply conj.
  - intros H4. destruct (blen_ge_four _ H4) as (b0 & b1 & b2 & b3 & rest & Hr).
    exists b0, b1, b2, b3, rest. split; [assumption|].
    apply (read32_full _ v _ _ _ _ _ Hp Hr).
  - apply read32_short; assumption.
  - intros H2. destruct (remaining file) as [|b0 [|b1 rest]] eqn:Hr;
      rewrite ?blen_cons, ?blen_nil in H2; try lia.
    exists b0, b1, rest. split; [reflexivity|].
    apply (read16_full _ v _ _ _ Hp Hr).
  - apply read16_short; assumption.
Qed.

Lemma read_at_end_of_stream_witness :
  exists file',
    read32 (mkFile [1; 2; 3; 4; 5; 6; 7] 4) 99 = (false, 99, file') /\
    remaining file' = [] /\ fbytes file' = [1; 2; 3; 4; 5; 6; 7].
Proof.
  apply (proj1 (proj2 (read_at_end_of_stream (mkFile [1; 2; 3; 4; 5; 6; 7] 4) 99
                         ltac:(simpl; lia)))).
  vm_compute; reflexivity.
Defined.

(** ** The prefix check of wav_open *)

Lemma take_take a b l : a <= b -> take a (take b l) = take a l.
Proof.
  revert a b; induction l as [|x l IH]; intros a b Hab; [reflexivity|].
  destruct (Z_le_gt_dec a 0).
  - rewrite !(take_le0 a) by assumption. reflexivity.
  - rewrite (take_cons b) by lia. rewrite !(take_cons a) by lia.
    f_equal. apply IH. lia.
Qed.

Lemma drop_take a b l : 0 <= a -> drop a (take b l) = take (b - a) (drop a l).
Proof.
  revert a b; induction l as [|x l IH]; intros a b Ha.
  - simpl. destruct (a <=? 0), (b - a <=? 0); reflexivity.
  - destruct (Z.eq_dec a 0) as [->|Hne].
    + rewrite !(drop_le0 0) by lia. f_equal. lia.
    + rewrite (drop_cons a x l) by lia.
      destruct (Z_le_gt_dec b 0).
      * rewrite (take_le0 b) by assumption. rewrite take_le0 by lia.
        destruct a; reflexivity.
      * rewrite (take_cons b) by lia. rewrite drop_cons by lia.
        rewrite IH by lia. f_equal. lia.
Qed.

(** X2.  [wav_open] gives NULL before it reads any chunk, whatever the fuel,
    when the file cannot be opened, the handle cannot be allocated, the file
    has fewer than 12 bytes, its first four bytes are not "RIFF", or its
    bytes 8 to 11 are not "WAVE". *)
Theorem wav_open_bad_magic :
  (forall fuel block, wav_open fuel block None = Done None)
  /\ (forall fuel filename, wav_open fuel None filename = Done None)
  /\ (forall fuel block bytes,
        blen bytes < 12 \/ take 4 bytes <> of_string "RIFF"
        \/ take 4 (drop 8 bytes) <> of_string "WAVE" ->
        wav_open fuel block (Some bytes) = Done None).
Proof.
  repeat apply conj.
  - reflexivity.
  - intros fuel [bytes|]; reflexivity.
  - intros fuel block bytes Hbad.
    destruct block as [w0|]; [|reflexivity].
    unfold wav_open; cbn [al_fopen set_f set_freq set_bits set_channels f].
    unfold al_fread, remaining; cbn [fbytes fpos advance].
    rewrite (drop_le0 0) by lia.
    destruct (Z.eqb_spec (blen (take 12 bytes)) 12) as [E|E]; [|reflexivity].
    cbn [negb].
    destruct Hbad as [Hlen | [Hriff | Hwave]].
    + rewrite blen_take in E. pose proof (blen_nonneg bytes). lia.
    + unfold memcmp at 1. rewrite take_take by lia.
      change (take 4 (of_string "RIFF")) with (of_string "RIFF").
      destruct (Bytes.eqb (take 4 bytes) (of_string "RIFF")) eqn:Eq;
        [apply eqb_eq in Eq; contradiction | reflexivity].
    + rewrite orb_comm. unfold memcmp at 1. rewrite drop_take by lia.
      rewrite take_take by lia.
      change (take 4 (of_string "WAVE")) with (of_string "WAVE").
      destruct (Bytes.eqb (take 4 (drop 8 bytes)) (of_string "WAVE")) eqn:Eq;
        [apply eqb_eq in Eq; contradiction | reflexivity].
Qed.

Lemma wav_open_bad_magic_witness :
  wav_open 0 (Some blank_handle)
    (Some (of_string "RIFX" ++ [36; 0; 0; 0] ++ of_string "WAVE" ++ of_string "data"))
  = Done None.
Proof.
  apply (proj2 (proj2 wav_open_bad_magic)).
  right; left. vm_compute. discriminate.
Defined.

(** ** Chunks that send the reader backwards *)

Lemma chunks_skip_short bytes p q k :
  skips bytes p q k ->
  forall w fuel, f w = mkFile bytes p -> (fuel <= k)%nat ->
    wav_open_chunks fuel w = OutOfFuel.
Proof.
  induction 1 as [p | p q k tag l0 l1 l2 l3 rest Hp Hd H4 Hfmt Hdata Hs IH];
    intros w fuel Hf Hk.
  - replace fuel with 0%nat by lia. reflexivity.
  - destruct fuel as [|fuel]; [reflexivity|].
    cbn [wav_open_chunks].
    assert (Hr : remaining (f w) = tag ++ l0 :: l1 :: l2 :: l3 :: rest)
      by (unfold remaining; rewrite Hf; simpl; assumption).
    rewrite (turn_skip w tag l0 l1 l2 l3 rest ltac:(rewrite Hf; simpl; lia) Hr H4 Hfmt Hdata).
    rewrite Hf; cbn [fpos fbytes].
    apply IH; [reflexivity | lia].
Qed.

Lemma chunks_cycle bytes p j :
  skips bytes p p (S j) ->
  forall fuel w, f w = mkFile bytes p -> wav_open_chunks fuel w = OutOfFuel.
Proof.
  intros Hs fuel. induction fuel as [fuel IH] using lt_wf_ind. intros w Hf.
  destruct (le_gt_dec fuel (S j)) as [Hle|Hgt].
  - apply (chunks_skip_short _ _ _ _ Hs w fuel Hf Hle).
  - replace fuel with (S j + (fuel - S j))%nat by lia.
    rewrite (chunks_skip _ _ _ _ Hs w _ Hf).
    apply IH; [lia | reflexivity].
Qed.

(** X3.  [wav_open] does not return on a file with the RIFF prefix in which
    the chunk walk from offset 12 comes to an offset from which it returns to
    that same offset (a chunk whose declared length is negative and leads
    back to a tag already passed): no amount of fuel completes the loop. *)
Theorem wav_open_cycle_never_returns :
  forall bytes sz rest p k j w0,
    bytes = of_string "RIFF" ++ sz ++ of_string "WAVE" ++ rest -> blen sz = 4 ->
    skips bytes 12 p k -> skips bytes p p (S j) ->
    forall fuel, wav_open fuel (Some w0) (Some bytes) = OutOfFuel.
Proof.
  intros bytes sz rest p k j w0 Hb H4 Hs Hcycle fuel.
  rewrite (wav_open_prefix fuel w0 bytes sz rest Hb H4).
  destruct (le_gt_dec fuel k) as [Hle|Hgt].
  - rewrite (chunks_skip_short _ _ _ _ Hs) by (reflexivity || assumption).
    reflexivity.
  - replace fuel with (k + (fuel - k))%nat by lia.
    rewrite (chunks_skip _ _ _ _ Hs) by reflexivity.
    rewrite (chunks_cycle _ _ _ Hcycle) by reflexivity. reflexivity.
Qed.

Lemma wav_open_cycle_never_returns_witness :
  wav_open 1000 (Some blank_handle)
    (Some (of_string "RIFF" ++ [12; 0; 0; 0] ++ of_string "WAVE"
           ++ of_string "junk" ++ [248; 255; 255; 255]))
  = OutOfFuel.
Proof.
  refine (wav_open_cycle_never_returns _ [12; 0; 0; 0]
            (of_string "junk" ++ [248; 255; 255; 255]) 12 0%nat 0%nat
            blank_handle _ _ _ _ 1000%nat).
  - reflexivity.
  - reflexivity.
  - apply skips_none.
  - apply (skips_chunk _ 12 12 0%nat (of_string "junk") 248 255 255 255 []);
      [lia | reflexivity | reflexivity | vm_compute; discriminate
      | vm_compute; discriminate | apply skips_none].
Defined.

(** ** Format chunks the reader refuses *)

Lemma turn_fmt_rejected w l0 l1 l2 l3 p0 p1 rest :
  0 <= fpos (f w) ->
  remaining (f w) = of_string "fmt " ++ [l0; l1; l2; l3] ++ [p0; p1] ++ rest ->
  int_le l0 l1 l2 l3 < 16 \/ short_le p0 p1 <> 1 ->
  wav_open_turn w = Fail.
Proof.
  intros Hp Hr Hbad. unfold wav_open_turn.
  destruct (al_fread_prefix _ _ _ Hp Hr) as [Hread Hr1].
  change (blen (of_string "fmt ")) with 4 in Hread, Hr1.
  rewrite Hread. cbn [negb blen List.length of_string].
  change (negb (Z.of_nat 4 =? 4)) with false. cbv iota.
  rewrite memcmp_same; cbn [negb].
  destruct (read32_full (advance (f w) 4) 0 _ _ _ _ _ ltac:(simpl; lia) Hr1) as [-> Hr2].
  destruct (Z.ltb_spec (int_le l0 l1 l2 l3) 16) as [Hlt|Hge]; [reflexivity|].
  rewrite advance_advance in *; cbn [Z.add Pos.add Pos.succ] in *.
  destruct (read16_full (advance (f w) 8) 0 _ _ _ ltac:(simpl; lia) Hr2) as [-> Hr3].
  destruct (Z.eqb_spec (short_le p0 p1) 1) as [E|E]; [|reflexivity].
  destruct Hbad as [Hb|Hb]; [lia | contradiction].
Qed.

(** A "fmt " tag behind which the stream ends before the length is complete:
    the length stays 0 and the chunk is refused. *)
Lemma turn_fmt_truncated w rest :
  0 <= fpos (f w) ->
  remaining (f w) = of_string "fmt " ++ rest -> blen rest < 4 ->
  wav_open_turn w = Fail.
Proof.
  intros Hp Hr Hlen. unfold wav_open_turn.
  destruct (al_fread_prefix _ _ _ Hp Hr) as [Hread Hr1].
  change (blen (of_string "fmt ")) with 4 in Hread, Hr1.
  rewrite Hread. cbn [negb blen List.length of_string].
  change (negb (Z.of_nat 4 =? 4)) with false. cbv iota.
  rewrite memcmp_same; cbn [negb].
  destruct (read32_short (advance (f w) 4) 0 ltac:(simpl; lia)
              ltac:(rewrite Hr1; exact Hlen)) as (f2 & -> & _ & _).
  reflexivity.
Qed.

(** X4.  A "fmt " chunk the chunk walk arrives at makes [wav_open] fail when
    its declared length is below 16, when its format code is not 1 (PCM), or
    when the stream ends inside its length field. *)
Theorem wav_open_rejects_fmt :
  (forall fuel block bytes p k l0 l1 l2 l3 p0 p1 rest,
     skips bytes 12 p k ->
     drop p bytes = of_string "fmt " ++ [l0; l1; l2; l3] ++ [p0; p1] ++ rest ->
     int_le l0 l1 l2 l3 < 16 \/ short_le p0 p1 <> 1 ->
     (k < fuel)%nat ->
     wav_open fuel block (Some bytes) = Done None)
  /\ (forall fuel block bytes p k rest,
        skips bytes 12 p k ->
        drop p bytes = of_string "fmt " ++ rest -> blen rest < 4 ->
        (k < fuel)%nat ->
        wav_open fuel block (Some bytes) = Done None).
Proof.
  split.
  - intros fuel block bytes p k l0 l1 l2 l3 p0 p1 rest Hs Hd Hbad Hk.
    destruct block as [w0|]; [|reflexivity].
    destruct (wav_open_cases fuel w0 bytes) as [E|E]; [exact E|]. rewrite E.
    replace fuel with (k + S (fuel - S k))%nat by lia.
    rewrite (chunks_skip bytes 12 p k Hs) by reflexivity.
    cbn [wav_open_chunks].
    erewrite turn_fmt_rejected; [reflexivity | | | exact Hbad].
    + simpl. apply (skips_nonneg _ _ _ _ Hs); lia.
    + unfold remaining; simpl. exact Hd.
  - intros fuel block bytes p k rest Hs Hd Hlen Hk.
    destruct block as [w0|]; [|reflexivity].
    destruct (wav_open_cases fuel w0 bytes) as [E|E]; [exact E|]. rewrite E.
    replace fuel with (k + S (fuel - S k))%nat by lia.
    rewrite (chunks_skip bytes 12 p k Hs) by reflexivity.
    cbn [wav_open_chunks].
    erewrite turn_fmt_truncated; [reflexivity | | | exact Hlen].
    + simpl. apply (skips_nonneg _ _ _ _ Hs); lia.
    + unfold remaining; simpl. exact Hd.
Qed.

Lemma wav_open_rejects_fmt_witness :
  wav_open 1 (Some blank_handle)
    (Some (of_string "RIFF" ++ [36; 0; 0; 0] ++ of_string "WAVE"
           ++ of_string "fmt " ++ [16; 0; 0; 0] ++ [3; 0]
           ++ [2; 0; 68; 172; 0; 0; 16; 177; 2; 0; 4; 0; 32; 0]))
  = Done None.
Proof.
  refine (proj1 wav_open_rejects_fmt 1%nat (Some blank_handle) _ 12 0%nat
            16 0 0 0 3 0 [2; 0; 68; 172; 0; 0; 16; 177; 2; 0; 4; 0; 32; 0]
            _ _ _ _).
  - apply skips_none.
  - reflexivity.
  - right. vm_compute. discriminate.
  - lia.
Defined.

(** ** Files with a format chunk *)

Ltac handle_fields :=
  cbn [f dpos freq bits channels samples loop_start loop_end set_f set_dpos
       set_freq set_bits set_channels set_samples set_loop fbytes fpos al_ftell].

(** X5.  A file with the RIFF prefix, a PCM "fmt " chunk of any declared
    length from 16 on (bytes beyond the 16 the reader uses are skipped), any
    number of other chunks, and then a "data" chunk opens: the handle has the
    rate, bit depth and channel count of the format chunk, the frame count
    derived from the data chunk's byte count, and both its data offset and
    its cursor are just behind that count. *)
Theorem wav_open_fmt_then_data :
  forall fuel w0 bytes sz rest0
         l0 l1 l2 l3 p0 p1 c0 c1 r0 r1 r2 r3 x0 x1 x2 x3 x4 x5 d0 d1 rest1
         q k n0 n1 n2 n3 data,
    bytes = of_string "RIFF" ++ sz ++ of_string "WAVE" ++ rest0 -> blen sz = 4 ->
    drop 12 bytes =
      of_string "fmt " ++ [l0; l1; l2; l3] ++ [p0; p1] ++ [c0; c1]
      ++ [r0; r1; r2; r3] ++ [x0; x1; x2; x3; x4; x5] ++ [d0; d1] ++ rest1 ->
    16 <= int_le l0 l1 l2 l3 -> short_le p0 p1 = 1 ->
    short_le c0 c1 = 1 \/ short_le c0 c1 = 2 ->
    short_le d0 d1 = 8 \/ short_le d0 d1 = 16 ->
    skips bytes (20 + int_le l0 l1 l2 l3) q k ->
    drop q bytes = of_string "data" ++ [n0; n1; n2; n3] ++ data ->
    int_le n0 n1 n2 n3 < INT_MAX ->
    (k + 2 <= fuel)%nat ->
    exists w,
      wav_open fuel (Some w0) (Some bytes) = Done (Some w) /\
      f w = mkFile bytes (q + 8) /\ dpos w = u64 (q + 8) /\
      freq w = int_le r0 r1 r2 r3 /\ bits w = short_le d0 d1 /\
      channels w = short_le c0 c1 /\
      samples w = frame_count (short_le c0 c1) (short_le d0 d1) (int_le n0 n1 n2 n3).
Proof.
  intros fuel w0 bytes sz rest0 l0 l1 l2 l3 p0 p1 c0 c1 r0 r1 r2 r3
         x0 x1 x2 x3 x4 x5 d0 d1 rest1 q k n0 n1 n2 n3 data
         Hb H4 Hfmt Hlen Hpcm Hch Hbits Hs Hdata Hmax Hfuel.
  rewrite (wav_open_prefix fuel w0 bytes sz rest0 Hb H4).
  replace fuel with (S (k + S (fuel - (k + 2))))%nat by lia.
  cbn [wav_open_chunks].
  erewrite turn_fmt;
    [ | simpl; lia | unfold remaining; simpl; exact Hfmt | exact Hlen | exact Hpcm
      | exact Hch | exact Hbits ].
  handle_fields.
  replace (12 + 8 + int_le l0 l1 l2 l3) with (20 + int_le l0 l1 l2 l3) by lia.
  rewrite (chunks_skip bytes _ q k Hs) by reflexivity.
  assert (Hq : 0 <= q) by (apply (skips_nonneg _ _ _ _ Hs); lia).
  cbn [wav_open_chunks].
  rewrite turn_data;
    [ | simpl; exact Hq
      | unfold remaining; simpl; rewrite Hdata; reflexivity ].
  handle_fields. unfold advance; cbn [fbytes fpos].
  unfold wav_open_finish. handle_fields.
  assert (Hr : remaining (mkFile bytes (q + 4)) = n0 :: n1 :: n2 :: n3 :: data).
  { change (mkFile bytes (q + 4)) with (advance (mkFile bytes q) 4).
    rewrite remaining_advance by (simpl; lia).
    unfold remaining; simpl. rewrite Hdata. reflexivity. }
  destruct (read32_full (mkFile bytes (q + 4)) (samples w0) _ _ _ _ _
              ltac:(simpl; lia) Hr) as [Hread _].
  rewrite Hread.
  eexists; split; [reflexivity|].
  handle_fields. unfold advance; cbn [fbytes fpos].
  replace (q + 4 + 4) with (q + 8) by lia.
  repeat split.
  unfold frame_count.
  pose proof (s32_range (u8 n0 + 256 * u8 n1 + 65536 * u8 n2 + 16777216 * u8 n3)).
  fold (int_le n0 n1 n2 n3) in *.
  rewrite (s32_small (int_le n0 n1 n2 n3 + 1)) by (unfold INT_MAX in Hmax; lia).
  reflexivity.
Qed.

Lemma wav_open_fmt_then_data_witness :
  exists w,
    wav_open 3 (Some blank_handle)
      (Some (of_string "RIFF" ++ [52; 0; 0; 0] ++ of_string "WAVE"
             ++ of_string "fmt " ++ [18; 0; 0; 0] ++ [1; 0] ++ [1; 0]
             ++ [34; 86; 0; 0] ++ [34; 86; 0; 0; 1; 0] ++ [8; 0] ++ [0; 0]
             ++ of_string "LIST" ++ [2; 0; 0; 0] ++ [7; 7]
             ++ of_string "data" ++ [4; 0; 0; 0] ++ [0; 64; 128; 192]))
    = Done (Some w) /\
    f w = mkFile
            (of_string "RIFF" ++ [52; 0; 0; 0] ++ of_string "WAVE"
             ++ of_string "fmt " ++ [18; 0; 0; 0] ++ [1; 0] ++ [1; 0]
             ++ [34; 86; 0; 0] ++ [34; 86; 0; 0; 1; 0] ++ [8; 0] ++ [0; 0]
             ++ of_string "LIST" ++ [2; 0; 0; 0] ++ [7; 7]
             ++ of_string "data" ++ [4; 0; 0; 0] ++ [0; 64; 128; 192]) 56 /\
    dpos w = 56 /\ freq w = 22050 /\ bits w = 8 /\ channels w = 1 /\ samples w = 4.
Proof.
  refine (wav_open_fmt_then_data 3%nat blank_handle _ [52; 0; 0; 0]
            (of_string "fmt " ++ [18; 0; 0; 0] ++ [1; 0] ++ [1; 0]
             ++ [34; 86; 0; 0] ++ [34; 86; 0; 0; 1; 0] ++ [8; 0] ++ [0; 0]
             ++ of_string "LIST" ++ [2; 0; 0; 0] ++ [7; 7]
             ++ of_string "data" ++ [4; 0; 0; 0] ++ [0; 64; 128; 192])
            18 0 0 0 1 0 1 0 34 86 0 0 34 86 0 0 1 0 8 0
            ([0; 0] ++ of_string "LIST" ++ [2; 0; 0; 0] ++ [7; 7]
             ++ of_string "data" ++ [4; 0; 0; 0] ++ [0; 64; 128; 192])
            48 1%nat 4 0 0 0 [0; 64; 128; 192] _ _ _ _ _ _ _ _ _ _ _).
  - reflexivity.
  - reflexivity.
  - reflexivity.
  - vm_compute; discriminate.
  - reflexivity.
  - left; reflexivity.
  - left; reflexivity.
  - apply (skips_chunk _ 38 48 0%nat (of_string "LIST") 2 0 0 0
             ([7; 7] ++ of_string "data" ++ [4; 0; 0; 0] ++ [0; 64; 128; 192]));
      [lia | reflexivity | reflexivity | vm_compute; discriminate
      | vm_compute; discriminate | apply skips_none].
  - reflexivity.
  - vm_compute; reflexivity.
  - lia.
Defined.

(** ** What a successful open leaves behind *)

Lemma turn_loop_fields w w' :
  wav_open_turn w = Again w' \/ wav_open_turn w = Break w' ->
  loop_start w' = loop_start w /\ loop_end w' = loop_end w.
Proof.
  unfold wav_open_turn; intros [H|H];
    repeat (split_match H; try discriminate); inversion H; split; reflexivity.
Qed.

Lemma chunks_loop_fields fuel : forall w w',
  wav_open_chunks fuel w = Done (Some w') ->
  loop_start w' = loop_start w /\ loop_end w' = loop_end w.
Proof.
  induction fuel as [|fuel IH]; intros w w' H; simpl in H; [discriminate|].
  destruct (wav_open_turn w) as [w1|w1|] eqn:Et; try discriminate.
  - destruct (turn_loop_fields w w1 (or_introl Et)) as [<- <-]. apply IH, H.
  - inversion H; subst w1. apply (turn_loop_fields w w' (or_intror Et)).
Qed.

(** X6.  A handle [wav_open] returns reads the very bytes of the file that
    was opened, its data offset is the position of its cursor (on a
    successful return the file is at the beginning of the sample data), and
    its loop region is whatever the allocated block held: [wav_open] does
    not set it. *)
Theorem wav_open_postcondition :
  forall fuel block bytes w,
    wav_open fuel block (Some bytes) = Done (Some w) ->
    exists w0,
      block = Some w0 /\ fbytes (f w) = bytes /\ 0 <= fpos (f w) /\
      dpos w = u64 (fpos (f w)) /\
      loop_start w = loop_start w0 /\ loop_end w = loop_end w0.
Proof.
  intros fuel block bytes w H.
  destruct block as [w0|]; [|discriminate H].
  exists w0. split; [reflexivity|].
  assert (Hloop : loop_start w = loop_start w0 /\ loop_end w = loop_end w0).
  { destruct (wav_open_cases fuel w0 bytes) as [E|E]; rewrite E in H; [discriminate|].
    destruct (wav_open_chunks fuel _) as [|[w'|]] eqn:Ec; try discriminate.
    inversion H; subst w. apply chunks_loop_fields in Ec. handle_fields. simpl in Ec.
    unfold wav_open_finish. destruct (read32 (f w') (samples w')) as [[ok n] f1].
    handle_fields. exact Ec. }
  destruct (wav_open_done _ _ _ _ H) as (w1 & w' & p & _ & Hp & _ & Hf & _ & _ & ->).
  unfold wav_open_finish in *.
  destruct (read32 (f w') (samples w')) as [[ok n] f1] eqn:Er.
  apply read32_keeps in Er. destruct Er as [Hb Hpos].
  rewrite Hf in Hb, Hpos. simpl in Hb, Hpos.
  handle_fields. repeat split; try tauto. apply Hpos. lia.
Qed.

Lemma wav_open_postcondition_witness :
  exists w0,
    Some blank_handle = Some w0 /\
    fbytes (mkFile (wav_container 1 22050 8 4 [0; 64; 128; 192]) 44)
    = wav_container 1 22050 8 4 [0; 64; 128; 192] /\
    0 <= 44 /\ 44 = u64 44 /\
    PrimFloat.zero = loop_start w0 /\ PrimFloat.zero = loop_end w0.
Proof.
  exact (wav_open_postcondition 2%nat (Some blank_handle)
           (wav_container 1 22050 8 4 [0; 64; 128; 192])
           (mkWav (mkFile (wav_container 1 22050 8 4 [0; 64; 128; 192]) 44)
                  44 22050 8 1 4 PrimFloat.zero PrimFloat.zero)
           eq_refl).
Defined.

(** ** Decoding in the middle of the stream *)

Lemma advance_zero file : advance file 0 = file.
Proof. destruct file; unfold advance; simpl; f_equal; lia. Qed.

Lemma wav_read16_pos host k : forall file data i,
  0 <= fpos file -> Z.of_nat k <= blen (remaining file) / 2 ->
  snd (wav_read16 host k file data i) = advance file (2 * Z.of_nat k).
Proof.
  induction k as [|k IH]; intros file data i Hp Hk.
  - simpl. symmetry. apply advance_zero.
  - cbn [wav_read16].
    destruct (remaining file) as [|b0 [|b1 rest]] eqn:Hr.
    + rewrite blen_nil in Hk. change (0 / 2) with 0 in Hk. lia.
    + change (blen [b0] / 2) with 0 in Hk. lia.
    + destruct (read16_full _ 0 _ _ _ Hp Hr) as [-> Hr2].
      rewrite IH.
      * rewrite advance_advance. f_equal. lia.
      * simpl; lia.
      * rewrite Hr2. rewrite !blen_cons in Hk. pose proof (blen_nonneg rest). lia.
Qed.

Lemma wav_read16_keeps host k : forall file data i,
  keeps file (snd (wav_read16 host k file data i)).
Proof.
  induction k as [|k IH]; intros file data i; [apply keeps_refl|].
  cbn [wav_read16]. destruct (read16 file 0) as [[ok s] file'] eqn:Er.
  apply read16_keeps in Er. destruct ok.
  - eapply keeps_trans; [exact Er | apply IH].
  - exact Er.
Qed.

(** X7.  A decode call for [n] frames on a supported handle returns the
    smaller of [n] and the whole frames left in the stream, and never touches
    the bytes of the file.  When the stream holds the [n] frames, the cursor
    moves by exactly [n] frames and [n] frames fewer are left. *)
Theorem wav_read_frames :
  forall host w data n,
    supported w -> 0 <= fpos (f w) -> 0 <= n ->
    channels w * n < 18446744073709551616 ->
    exists data' w',
      wav_read host w data n = (Z.min n (frames_left w), data', w') /\
      fbytes (f w') = fbytes (f w) /\ same_format w w' /\
      (n <= frames_left w ->
       fpos (f w') = fpos (f w) + n * (channels w * Z.quot (bits w) 8) /\
       frames_left w' = frames_left w - n).
Proof.
  intros host w data n [Hb Hc] Hp Hn Hmax.
  pose proof (blen_nonneg (remaining (f w))) as HB.
  assert (Hch : u64 (channels w) = channels w) by (apply u64_small; lia).
  assert (Hreq : u64 (channels w * n) = channels w * n) by (apply u64_small; nia).
  unfold frames_left, wav_read. rewrite Hch, Hreq.
  destruct Hb as [E8|E16].
  - rewrite E8. simpl (8 =? 8). cbv iota. change (Z.quot 8 8) with 1.
    rewrite !Z.mul_1_r. unfold al_fread.
    set (got := take (channels w * n) (remaining (f w))).
    assert (Hgot : blen got = Z.min (channels w * n) (blen (remaining (f w)))).
    { subst got. rewrite blen_take. lia. }
    exists (fill data got), (set_f w (advance (f w) (blen got))).
    split; [|split; [reflexivity | split; [split; reflexivity|]]].
    + replace (Z.quot (blen got) (channels w))
        with (Z.min n (Z.quot (blen (remaining (f w))) (channels w)))
        by (rewrite Hgot; destruct Hc as [E|E]; rewrite E; lia).
      reflexivity.
    + intros Hle. handle_fields. unfold advance; cbn [fbytes fpos].
      assert (Hall : blen got = channels w * n)
        by (rewrite Hgot; destruct Hc as [E|E]; rewrite E in *; lia).
      rewrite Hall. split; [lia|].
      rewrite E8. change (Z.quot 8 8) with 1. rewrite Z.mul_1_r.
      change (mkFile (fbytes (f w)) (fpos (f w) + channels w * n))
        with (advance (f w) (channels w * n)).
      rewrite remaining_advance by lia. rewrite blen_drop.
      destruct Hc as [E|E]; rewrite E in *; lia.
  - rewrite E16. simpl (16 =? 8). cbv iota. change (Z.quot 16 8) with 2.
    destruct (wav_read16_count host (Z.to_nat (channels w * n)) (f w) data 0 Hp)
      as (data' & file' & Hrun & _).
    pose proof (wav_read16_keeps host (Z.to_nat (channels w * n)) (f w) data 0) as Hk.
    pose proof (wav_read16_pos host (Z.to_nat (channels w * n)) (f w) data 0 Hp) as Hpos.
    rewrite Hrun in *. cbn [snd] in Hk, Hpos. destruct Hk as [Hbytes _].
    exists data', (set_f w file').
    split; [|split; [exact Hbytes | split; [split; reflexivity|]]].
    + replace (Z.quot (0 + Z.min (Z.of_nat (Z.to_nat (channels w * n)))
                                 (blen (remaining (f w)) / 2)) (channels w))
        with (Z.min n (Z.quot (blen (remaining (f w))) (channels w * 2)))
        by (destruct Hc as [E|E]; rewrite E; lia).
      reflexivity.
    + intros Hle. handle_fields.
      rewrite Hpos by (destruct Hc as [E|E]; rewrite E in *; lia).
      unfold advance; cbn [fbytes fpos]. split; [lia|].
      rewrite E16. change (Z.quot 16 8) with 2.
      change (mkFile (fbytes (f w)) (fpos (f w) + 2 * Z.of_nat (Z.to_nat (channels w * n))))
        with (advance (f w) (2 * Z.of_nat (Z.to_nat (channels w * n)))).
      rewrite remaining_advance by lia. rewrite blen_drop.
      destruct Hc as [E|E]; rewrite E in *; lia.
Qed.

Lemma wav_read_frames_witness :
  exists data' w',
    wav_read BigEndian
      (mkWav (mkFile (wav_container 2 44100 16 12 [1; 2; 3; 4; 5; 6; 7; 8; 9; 10; 11; 12]) 44)
             44 44100 16 2 3 0%float 1%float)
      [0; 0; 0; 0] 1
    = (Z.min 1
         (frames_left
            (mkWav (mkFile (wav_container 2 44100 16 12
                              [1; 2; 3; 4; 5; 6; 7; 8; 9; 10; 11; 12]) 44)
                   44 44100 16 2 3 0%float 1%float)),
       data', w') /\
    fbytes (f w') = wav_container 2 44100 16 12 [1; 2; 3; 4; 5; 6; 7; 8; 9; 10; 11; 12] /\
    same_format
      (mkWav (mkFile (wav_container 2 44100 16 12 [1; 2; 3; 4; 5; 6; 7; 8; 9; 10; 11; 12]) 44)
             44 44100 16 2 3 0%float 1%float) w' /\
    (1 <= frames_left
            (mkWav (mkFile (wav_container 2 44100 16 12
                              [1; 2; 3; 4; 5; 6; 7; 8; 9; 10; 11; 12]) 44)
                   44 44100 16 2 3 0%float 1%float) ->
     fpos (f w') = 44 + 1 * (2 * Z.quot 16 8) /\
     frames_left w' = 3 - 1).
Proof.
  apply (wav_read_frames BigEndian
           (mkWav (mkFile (wav_container 2 44100 16 12 [1; 2; 3; 4; 5; 6; 7; 8; 9; 10; 11; 12]) 44)
                  44 44100 16 2 3 0%float 1%float)
           [0; 0; 0; 0] 1).
  - split; right; reflexivity.
  - simpl; lia.
  - lia.
  - vm_compute; reflexivity.
Defined.

Lemma file_eq a b : fbytes a = fbytes b -> fpos a = fpos b -> a = b.
Proof. destruct a, b; simpl; intros -> ->; reflexivity. Qed.

(** X8.  Decode calls compose: when the stream holds [n1 + n2] frames, a
    call for [n1] frames followed by a call for [n2] frames returns [n1] and
    then [n2], and leaves the file exactly where one call for [n1 + n2]
    frames leaves it. *)
Theorem wav_read_compose :
  forall host w data n1 n2,
    supported w -> 0 <= fpos (f w) -> 0 <= n1 -> 0 <= n2 ->
    n1 + n2 <= frames_left w ->
    channels w * (n1 + n2) < 18446744073709551616 ->
    exists d1 w1 d2 w2 d w',
      wav_read host w data n1 = (n1, d1, w1) /\
      wav_read host w1 d1 n2 = (n2, d2, w2) /\
      wav_read host w data (n1 + n2) = (n1 + n2, d, w') /\
      f w2 = f w'.
Proof.
  intros host w data n1 n2 Hs Hp H1 H2 Hle Hmax.
  assert (Hc : channels w = 1 \/ channels w = 2) by apply Hs.
  destruct (wav_read_frames host w data n1 Hs Hp H1
              ltac:(destruct Hc as [E|E]; rewrite E in *; lia))
    as (d1 & w1 & R1 & Hb1 & Hf1 & Hstep1).
  destruct (Hstep1 ltac:(lia)) as [Hpos1 Hleft1].
  assert (Hs1 : supported w1) by (eapply same_format_supported; eassumption).
  destruct Hf1 as [Ebits Ech].
  assert (Hfs : 0 <= channels w * Z.quot (bits w) 8).
  { destruct Hs as [[E|E] [E'|E']]; rewrite E, E'; vm_compute; discriminate. }
  assert (Hp1 : 0 <= fpos (f w1)) by (rewrite Hpos1; nia).
  destruct (wav_read_frames host w1 d1 n2 Hs1 Hp1 H2
              ltac:(rewrite Ech; destruct Hc as [E|E]; rewrite E in *; lia))
    as (d2 & w2 & R2 & Hb2 & _ & Hstep2).
  destruct (Hstep2 ltac:(lia)) as [Hpos2 _].
  destruct (wav_read_frames host w data (n1 + n2) Hs Hp ltac:(lia) Hmax)
    as (d & w' & R & Hb & _ & Hstep).
  destruct (Hstep Hle) as [Hpos _].
  exists d1, w1, d2, w2, d, w'.
  rewrite R1, R2, R.
  rewrite (Z.min_l n1) by lia. rewrite (Z.min_l n2) by lia.
  rewrite (Z.min_l (n1 + n2)) by lia.
  repeat split. apply file_eq; [congruence|].
  rewrite Hpos2, Hpos1, Hpos, Ebits, Ech. lia.
Qed.

Lemma wav_read_compose_witness :
  exists d1 w1 d2 w2 d w',
    wav_read LittleEndian
      (mkWav (mkFile (wav_container 1 22050 8 4 [0; 64; 128; 192]) 44)
             44 22050 8 1 4 0%float 1%float) [9; 9; 9; 9] 1 = (1, d1, w1) /\
    wav_read LittleEndian w1 d1 2 = (2, d2, w2) /\
    wav_read LittleEndian
      (mkWav (mkFile (wav_container 1 22050 8 4 [0; 64; 128; 192]) 44)
             44 22050 8 1 4 0%float 1%float) [9; 9; 9; 9] (1 + 2) = (1 + 2, d, w') /\
    f w2 = f w'.
Proof.
  apply (wav_read_compose LittleEndian
           (mkWav (mkFile (wav_container 1 22050 8 4 [0; 64; 128; 192]) 44)
                  44 22050 8 1 4 0%float 1%float) [9; 9; 9; 9] 1 2).
  - split; left; reflexivity.
  - simpl; lia.
  - lia.
  - lia.
  - vm_compute; discriminate.
  - vm_compute; reflexivity.
Defined.

(** ** The values a 16-bit decode stores *)

Lemma byte_at_cons x l i : 0 < i -> byte_at (x :: l) i = byte_at l (i - 1).
Proof. intros Hi; unfold byte_at. now rewrite drop_cons by lia. Qed.

Lemma byte_at_take n l j : 0 <= j < n -> byte_at (take n l) j = byte_at l j.
Proof.
  intros Hj. unfold byte_at. rewrite drop_take by lia.
  destruct (drop j l) as [|x t]; [reflexivity|].
  rewrite take_cons by lia. reflexivity.
Qed.

Lemma load_images16 host : forall n l t i,
  (List.length l <= n)%nat -> 0 <= i -> 2 * i + 1 < blen l ->
  load_u16 host (images16 host l ++ t) i
  = u8 (byte_at l (2 * i)) + 256 * u8 (byte_at l (2 * i + 1)).
Proof.
  induction n as [|n IH]; intros l t i Hl Hi Hlen.
  - destruct l; [rewrite blen_nil in Hlen; lia | simpl in Hl; lia].
  - destruct l as [|b0 [|b1 rest]].
    + rewrite blen_nil in Hlen; lia.
    + rewrite blen_cons, blen_nil in Hlen; lia.
    + cbn [images16]. destruct (Z.eq_dec i 0) as [->|Hne].
      * unfold load_u16, image16, byte_at, u8. destruct host; simpl;
          rewrite !Z.mod_mod by lia; reflexivity.
      * rewrite !blen_cons in Hlen.
        assert (Hstep : forall m, load_u16 host (image16 host b0 b1 ++ m) i
                                  = load_u16 host m (i - 1)).
        { intros m. unfold load_u16, image16.
          destruct host; cbn [app];
            rewrite !(byte_at_cons _ _ (2 * i)), !(byte_at_cons _ _ (2 * i - 1)),
                    !(byte_at_cons _ _ (2 * i + 1)), !(byte_at_cons _ _ (2 * i + 1 - 1))
              by lia;
            replace (2 * i - 1 - 1) with (2 * (i - 1)) by lia;
            replace (2 * i + 1 - 1 - 1) with (2 * (i - 1) + 1) by lia; reflexivity. }
        rewrite <- app_assoc, Hstep.
        rewrite IH by (simpl in Hl; lia).
        rewrite !(byte_at_cons _ _ (2 * i)), !(byte_at_cons _ _ (2 * i - 1)),
                !(byte_at_cons _ _ (2 * i + 1)), !(byte_at_cons _ _ (2 * i + 1 - 1))
          by lia.
        replace (2 * i - 1 - 1) with (2 * (i - 1)) by lia.
        replace (2 * i + 1 - 1 - 1) with (2 * (i - 1) + 1) by lia. reflexivity.
Qed.

(** X9.  The values of a 16-bit decode do not depend on the byte order of the
    host: when the block has room for the values asked for, the [i]-th 16-bit
    object the call leaves in the block, read back on the same host, is the
    little-endian value of bytes [2 i] and [2 i + 1] of the stream, for every
    value of a returned frame. *)
Theorem wav_read_int16_values :
  forall host w data n i,
    bits w = 16 -> channels w = 1 \/ channels w = 2 ->
    0 <= fpos (f w) -> 0 <= n ->
    channels w * n < 18446744073709551616 ->
    2 * (channels w * n) <= blen data ->
    0 <= i < channels w * fst (fst (wav_read host w data n)) ->
    s16 (load_u16 host (snd (fst (wav_read host w data n))) i)
    = short_le (byte_at (remaining (f w)) (2 * i))
               (byte_at (remaining (f w)) (2 * i + 1)).
Proof.
  intros host w data n i E16 Hc Hp Hn Hmax Hroom.
  pose proof (blen_nonneg (remaining (f w))) as HB.
  unfold wav_read. rewrite E16. simpl (16 =? 8). cbv iota.
  rewrite (u64_small (channels w)) by lia.
  rewrite (u64_small (channels w * n)) by nia.
  destruct (wav_read16_data host (Z.to_nat (channels w * n)) (f w) [] data 0
              Hp ltac:(reflexivity) ltac:(lia)) as [Hcount Hdata].
  rewrite !app_nil_l in Hcount, Hdata.
  destruct (wav_read16 host (Z.to_nat (channels w * n)) (f w) data 0) as [[cnt d] f1].
  cbn [fst snd] in *. subst cnt d.
  set (m := Z.min (Z.of_nat (Z.to_nat (channels w * n))) (blen (remaining (f w)) / 2)).
  intros Hi.
  assert (Him : 0 <= i < m).
  { assert (0 <= m) by (subst m; lia).
    destruct Hc as [E|E]; rewrite E in Hi; lia. }
  assert (Hm2 : 2 * m <= blen (remaining (f w))) by (subst m; lia).
  clearbody m. change ([] ++ ?x) with x.
  rewrite (load_images16 host (List.length (take (2 * m) (remaining (f w)))))
    by (rewrite ?blen_take; lia).
  rewrite !byte_at_take by lia. reflexivity.
Qed.

Lemma wav_read_int16_values_witness :
  s16 (load_u16 BigEndian
         (snd (fst (wav_read BigEndian
                      (mkWav (mkFile (wav_container 1 44100 16 4 [1; 2; 255; 255]) 44)
                             44 44100 16 1 2 0%float 1%float)
                      [0; 0; 0; 0] 2))) 1)
  = short_le
      (byte_at (remaining (mkFile (wav_container 1 44100 16 4 [1; 2; 255; 255]) 44)) (2 * 1))
      (byte_at (remaining (mkFile (wav_container 1 44100 16 4 [1; 2; 255; 255]) 44)) (2 * 1 + 1)).
Proof.
  apply (wav_read_int16_values BigEndian
           (mkWav (mkFile (wav_container 1 44100 16 4 [1; 2; 255; 255]) 44)
                  44 44100 16 1 2 0%float 1%float) [0; 0; 0; 0] 2 1).
  - reflexivity.
  - left; reflexivity.
  - simpl; lia.
  - lia.
  - vm_compute; reflexivity.
  - vm_compute; discriminate.
  - vm_compute. split; [discriminate | reflexivity].
Defined.

(** ** Seeks that are accepted *)

Lemma converts_to_ulong_range d :
  converts_to_ulong d = true -> 0 <= Double.trunc d < 18446744073709551616.
Proof.
  unfold converts_to_ulong, Double.trunc.
  destruct (Prim2SF d) as [s | s | | s m e]; try discriminate.
  - intros _. lia.
  - intros H. apply andb_true_iff in H as [H1 H2].
    apply Z.leb_le in H1. apply Z.ltb_lt in H2. lia.
Qed.

Lemma supported_frame w :
  supported w ->
  Z.quot (bits w) 8 * channels w = 1 \/ Z.quot (bits w) 8 * channels w = 2
  \/ Z.quot (bits w) 8 * channels w = 4.
Proof.
  intros [[E|E] [E'|E']]; rewrite E, E'; vm_compute; auto.
Qed.

Lemma wav_stream_seek_offset :
  forall w t,
    supported w ->
    PrimFloat.leb (loop_end w) t = false ->
    let rate := freq w * Z.quot (bits w) 8 * channels w in
    -2147483648 <= rate <= 2147483647 ->
    converts_to_ulong (PrimFloat.mul t (Double.of_Z rate)) = true ->
    let cpos := Double.trunc (PrimFloat.mul t (Double.of_Z rate)) in
    let off := cpos + Z.rem cpos (Z.quot (bits w) 8 * channels w) in
    0 <= dpos w -> dpos w + off < 9223372036854775808 ->
    wav_stream_seek w t = (true, set_f w (mkFile (fbytes (f w)) (dpos w + off))).
Proof.
  intros w t Hs Hlt rate Hrate Hconv cpos off Hd Hmax.
  unfold wav_stream_seek. rewrite Hlt. fold rate.
  rewrite (s32_small rate) by lia.
  unfold Double.to_ulong.
  pose proof (converts_to_ulong_range _ Hconv) as Hc. fold cpos in Hc.
  fold cpos. rewrite (u64_small cpos) by lia.
  pose proof (supported_frame w Hs) as Hframe.
  rewrite (u64_small (Z.quot (bits w) 8 * channels w))
    by (destruct Hframe as [E|[E|E]]; rewrite E; lia).
  assert (Hr : 0 <= Z.rem cpos (Z.quot (bits w) 8 * channels w)).
  { apply Z.rem_nonneg; [|lia]. destruct Hframe as [E|[E|E]]; rewrite E; lia. }
  fold off. subst off.
  rewrite (u64_small (cpos + _)) by lia.
  rewrite (u64_small (dpos w + _)) by lia.
  unfold s64.
  rewrite Z.mod_small by lia.
  unfold al_fseek.
  match goal with |- context [?a <? 0] => destruct (Z.ltb_spec a 0) as [Hneg|_] end;
    [lia|].
  cbn [negb Z.eqb]. do 2 f_equal. f_equal. lia.
Qed.

(** X10.  On a handle of supported format, a seek to a time before
    [loop_end] whose byte offset C can compute (the rate in bytes per second
    fits [int], and the product of the time with it is a finite double whose
    integral part [cpos] is an [unsigned long]) is never refused for lying
    behind the data: the call returns true and puts the cursor at
    [dpos + cpos + cpos % align], wherever the stream ends (offsets within
    [int64_t]). *)
Theorem wav_stream_seek_accepted :
  forall w t,
    supported w ->
    PrimFloat.leb (loop_end w) t = false ->
    let rate := freq w * Z.quot (bits w) 8 * channels w in
    -2147483648 <= rate <= 2147483647 ->
    converts_to_ulong (PrimFloat.mul t (Double.of_Z rate)) = true ->
    let cpos := Double.trunc (PrimFloat.mul t (Double.of_Z rate)) in
    let off := cpos + Z.rem cpos (Z.quot (bits w) 8 * channels w) in
    0 <= dpos w -> dpos w + off < 9223372036854775808 ->
    wav_stream_seek w t = (true, set_f w (mkFile (fbytes (f w)) (dpos w + off))).
Proof.
  intros w t Hs Hlt rate Hrate Hconv cpos off Hd Hmax.
  exact (wav_stream_seek_offset w t Hs Hlt Hrate Hconv Hd Hmax).
Qed.

Lemma wav_stream_seek_accepted_witness :
  wav_stream_seek stereo16 0.5%float
  = (true, set_f stereo16 (mkFile (wav_container 2 44100 16 176400 []) (44 + 88200))).
Proof.
  refine (wav_stream_seek_accepted stereo16 0.5%float _ eq_refl _ eq_refl _ _).
  - split; right; reflexivity.
  - vm_compute; split; discriminate.
  - vm_compute; discriminate.
  - vm_compute; reflexivity.
Defined.

Lemma wav_stream_seek_past_loop_end_lemma w t :
  PrimFloat.leb (loop_end w) t = true -> wav_stream_seek w t = (false, w).
Proof. intros H. unfold wav_stream_seek. rewrite H. reflexivity. Qed.

(** X11.  On a handle of supported format, setting the loop region always
    succeeds and changes nothing but the two bounds; the rewind that follows
    is a seek to the new start, refused without moving the cursor when the
    new end is not behind the new start, and otherwise, when C can compute
    the byte offset of the new start (as in X10), landing at that offset. *)
Theorem wav_stream_rewind_after_set_loop :
  forall w s e,
    supported w ->
    let w1 := snd (wav_stream_set_loop w s e) in
    fst (wav_stream_set_loop w s e) = true /\
    f w1 = f w /\ dpos w1 = dpos w /\ freq w1 = freq w /\ bits w1 = bits w /\
    channels w1 = channels w /\ samples w1 = samples w /\
    (PrimFloat.leb e s = true -> wav_stream_rewind w1 = (false, w1)) /\
    (PrimFloat.leb e s = false ->
     let rate := freq w * Z.quot (bits w) 8 * channels w in
     -2147483648 <= rate <= 2147483647 ->
     converts_to_ulong (PrimFloat.mul s (Double.of_Z rate)) = true ->
     let cpos := Double.trunc (PrimFloat.mul s (Double.of_Z rate)) in
     let off := cpos + Z.rem cpos (Z.quot (bits w) 8 * channels w) in
     0 <= dpos w -> dpos w + off < 9223372036854775808 ->
     wav_stream_rewind w1 = (true, set_f w1 (mkFile (fbytes (f w)) (dpos w + off)))).
Proof.
  intros w s e Hs w1. subst w1. cbn [wav_stream_set_loop fst snd].
  do 7 (split; [reflexivity|]). split.
  - intros Hle. unfold wav_stream_rewind.
    apply (wav_stream_seek_past_loop_end_lemma (set_loop w s e) s Hle).
  - intros Hlt Hrate Hconv Hd Hmax. unfold wav_stream_rewind.
    apply (wav_stream_seek_offset (set_loop w s e) s Hs Hlt Hrate Hconv Hd Hmax).
Qed.

Lemma wav_stream_rewind_after_set_loop_witness :
  wav_stream_rewind (snd (wav_stream_set_loop stereo16 0.25%float 0.5%float))
  = (true,
     set_f (snd (wav_stream_set_loop stereo16 0.25%float 0.5%float))
           (mkFile (wav_container 2 44100 16 176400 []) (44 + 44100))).
Proof.
  refine (proj2 (proj2 (proj2 (proj2 (proj2 (proj2 (proj2 (proj2
            (wav_stream_rewind_after_set_loop stereo16 0.25%float 0.5%float _))))))))
            eq_refl _ eq_refl _ _).
  - split; right; reflexivity.
  - vm_compute; split; discriminate.
  - vm_compute; discriminate.
  - vm_compute; reflexivity.
Defined.

(** ** Feeding a buffer *)

(** X12.  Outside the one-directional play mode, a feed of a buffer of
    [buf_size] bytes from a supported handle produces whole frames only: the
    byte count it returns is the frame size times the smaller of the frames
    that fit the buffer and the frames left in the stream, so it never
    exceeds [buf_size] and is 0 once the stream is exhausted. *)
Theorem wav_stream_update_bytes :
  forall host w data buf_size,
    supported w -> 0 <= fpos (f w) -> 0 <= buf_size < 2147483648 ->
    let frame := channels w * Z.quot (bits w) 8 in
    fst (fst (wav_stream_update host false w data buf_size))
    = frame * Z.min (Z.quot buf_size frame) (frames_left w)
    /\ fst (fst (wav_stream_update host false w data buf_size)) <= buf_size.
Proof.
  intros host w data buf_size Hs Hp Hb frame.
  assert (Hframe : frame = 1 \/ frame = 2 \/ frame = 4).
  { subst frame. destruct Hs as [[E|E] [E'|E']]; rewrite E, E'; vm_compute; auto. }
  assert (Hfr : Z.quot (bits w) 8 * channels w = frame) by (subst frame; lia).
  pose proof (blen_nonneg (remaining (f w))) as HB.
  assert (Hleft : 0 <= frames_left w).
  { unfold frames_left. fold frame. destruct Hframe as [E|[E|E]]; rewrite E; lia. }
  unfold wav_stream_update. cbn [andb]. rewrite Hfr.
  rewrite (u64_small frame) by lia.
  assert (Hq : 0 <= Z.quot buf_size frame <= buf_size)
    by (destruct Hframe as [E|[E|E]]; rewrite E; lia).
  rewrite (s32_small (Z.quot buf_size frame)) by lia.
  destruct (Z.ltb_spec (Z.quot buf_size frame) 0) as [?|_]; [lia|].
  rewrite (u64_small (Z.quot buf_size frame)) by lia.
  destruct (wav_read_frames host w data (Z.quot buf_size frame) Hs Hp ltac:(lia))
    as (data' & w' & -> & _).
  { destruct Hs as [_ [E|E]]; rewrite E; lia. }
  cbn [fst snd].
  set (got := Z.min (Z.quot buf_size frame) (frames_left w)).
  assert (Hgot : 0 <= got <= Z.quot buf_size frame) by (subst got; lia).
  assert (Hmul : 0 <= got * frame <= buf_size)
    by (destruct Hframe as [E|[E|E]]; rewrite E in *; lia).
  rewrite (s32_small got) by lia.
  rewrite (s32_small (got * frame)) by lia.
  rewrite (u64_small (got * frame)) by lia.
  split; lia.
Qed.

Lemma wav_stream_update_bytes_witness :
  fst (fst (wav_stream_update LittleEndian false
              (mkWav (mkFile (wav_container 2 44100 16 12
                                [1; 2; 3; 4; 5; 6; 7; 8; 9; 10; 11; 12]) 44)
                     44 44100 16 2 3 0%float 1%float)
              [0; 0; 0; 0; 0; 0; 0; 0; 0; 0; 0; 0; 0; 0; 0; 0; 0; 0; 0; 0; 0; 0] 22))
  = 2 * Z.quot 16 8
    * Z.min (Z.quot 22 (2 * Z.quot 16 8))
        (frames_left
           (mkWav (mkFile (wav_container 2 44100 16 12
                             [1; 2; 3; 4; 5; 6; 7; 8; 9; 10; 11; 12]) 44)
                  44 44100 16 2 3 0%float 1%float))
  /\ fst (fst (wav_stream_update LittleEndian false
                 (mkWav (mkFile (wav_container 2 44100 16 12
                                   [1; 2; 3; 4; 5; 6; 7; 8; 9; 10; 11; 12]) 44)
                        44 44100 16 2 3 0%float 1%float)
                 [0; 0; 0; 0; 0; 0; 0; 0; 0; 0; 0; 0; 0; 0; 0; 0; 0; 0; 0; 0; 0; 0] 22))
     <= 22.
Proof.
  apply (wav_stream_update_bytes LittleEndian
           (mkWav (mkFile (wav_container 2 44100 16 12
                             [1; 2; 3; 4; 5; 6; 7; 8; 9; 10; 11; 12]) 44)
                  44 44100 16 2 3 0%float 1%float)).
  - split; right; reflexivity.
  - simpl; lia.
  - lia.
Defined.

(** ** What the writer leaves in the file *)

Lemma write_loop_append g k : forall i l,
  write_loop k i (fun j pf => al_fwrite pf (g j)) (mkFile l (blen l))
  = mkFile (l ++ data_of k i g) (blen (l ++ data_of k i g)).
Proof.
  induction k as [|k IH]; intros i l; cbn [write_loop data_of].
  - rewrite app_nil_r. reflexivity.
  - rewrite al_fwrite_end, IH, <- app_assoc. reflexivity.
Qed.

Lemma blen_data_of g m k : forall i,
  (forall j, blen (g j) = m) -> blen (data_of k i g) = m * Z.of_nat k.
Proof.
  induction k as [|k IH]; intros i Hg; cbn [data_of].
  - rewrite blen_nil. lia.
  - rewrite blen_app, Hg, IH by assumption. lia.
Qed.

(** The file [al_save_wav_stream] makes of an empty one: the 44-byte header
    of section 6 and the sample data behind it; the result is false for an
    unknown depth only, and the header is written all the same. *)
Lemma al_save_wav_stream_written shift host spl :
  let c := Z.shiftr (chan_conf spl) 4 + Z.land (chan_conf spl) 15 in
  let frames := Z.shiftr (len spl) shift in
  c = 1 \/ c = 2 ->
  0 <= frames < 2147483648 -> 0 <= frequency spl < 4294967296 ->
  exists data,
    al_save_wav_stream shift host (mkFile [] 0) spl
    = (known (depth spl),
       mkFile (wav_container c (frequency spl) (bits_of (depth spl))
                 (Z.quot (frames * c * bits_of (depth spl)) 8) data)
              (blen (wav_container c (frequency spl) (bits_of (depth spl))
                       (Z.quot (frames * c * bits_of (depth spl)) 8) data)))
    /\ written host spl frames c data.
Proof.
  intros c frames Hc Hf Hrate.
  unfold al_save_wav_stream, written. fold c. fold frames.
  assert (Hcu : u64 c = c) by (apply u64_small; lia).
  rewrite Hcu. rewrite (u64_small frames) by lia.
  replace ((c <? 1) || (c >? 2)) with false
    by (destruct Hc as [E|E]; rewrite E; reflexivity).
  rewrite (u64_small (frames * c)) by lia.
  rewrite (u64_small (frames * c * 2)) by lia.
  destruct (depth spl) eqn:Hd; cbv zeta iota; cbn [bits_of known];
    rewrite (u64_small (frames * c * _)) by lia;
    rewrite (u64_small (frequency spl * c * _)) by lia;
    unfold al_fputs, al_fwrite32le, al_fwrite16le, al_fputc;
    change (mkFile [] 0) with (mkFile [] (blen []));
    rewrite !al_fwrite_end;
    try rewrite write_loop_append;
    unfold wav_container.
  all: eexists; split;
    [ rewrite <- !app_assoc; cbn [app]; reflexivity | ].
  all: try reflexivity.
  all: rewrite (blen_data_of _ 2) by (intros j; reflexivity); lia.
Qed.

(** ** When the writer gives up *)

(** X13.  [al_save_wav_stream] returns false in two ways.  For a channel
    configuration that does not stand for 1 or 2 channels it returns at once
    and the file is untouched.  For a depth outside the enumeration it
    returns only after the header: the file, empty before, then holds the
    44 header bytes of a 16-bit stream and no sample data. *)
Theorem al_save_wav_stream_gives_up :
  (forall shift host pf spl,
     let c := u64 (Z.shiftr (chan_conf spl) 4 + Z.land (chan_conf spl) 15) in
     c < 1 \/ 2 < c ->
     al_save_wav_stream shift host pf spl = (false, pf))
  /\ (forall shift host spl code,
        depth spl = ALLEGRO_AUDIO_DEPTH_unknown code ->
        let c := Z.shiftr (chan_conf spl) 4 + Z.land (chan_conf spl) 15 in
        let frames := Z.shiftr (len spl) shift in
        c = 1 \/ c = 2 ->
        0 <= frames < 2147483648 -> 0 <= frequency spl < 4294967296 ->
        al_save_wav_stream shift host (mkFile [] 0) spl
        = (false,
           mkFile (wav_container c (frequency spl) 16 (Z.quot (frames * c * 16) 8) [])
                  44)).
Proof.
  split.
  - intros shift host pf spl c Hc. unfold al_save_wav_stream. fold c.
    replace ((c <? 1) || (c >? 2)) with true; [reflexivity|].
    symmetry. apply orb_true_iff. destruct Hc as [H|H]; [left | right]; lia.
  - intros shift host spl code Hd c frames Hc Hf Hrate.
    destruct (al_save_wav_stream_written shift host spl Hc Hf Hrate)
      as (data & Hsave & Hw).
    fold c in Hsave, Hw. fold frames in Hsave, Hw.
    unfold written in Hw. rewrite Hd in Hsave, Hw. subst data.
    rewrite Hsave. reflexivity.
Qed.

Lemma al_save_wav_stream_gives_up_witness :
  al_save_wav_stream 8 LittleEndian (mkFile [7; 7] 2)
    (mkSample ALLEGRO_AUDIO_DEPTH_INT16 81 44100 (Z.shiftl 1 8)
              [0; 0; 0; 0; 0; 0; 0; 0; 0; 0; 0; 0])
  = (false, mkFile [7; 7] 2).
Proof.
  apply (proj1 al_save_wav_stream_gives_up).
  right. vm_compute. reflexivity.
Defined.

(** ** The header of a written file *)

(** X14.  Whatever the depth of the sample (unknown depths included), the
    file [al_save_wav_stream] writes opens again: the handle has the sample
    rate and the channel count of the sample, 8 bits for the two 8-bit
    depths and 16 bits for every other depth, the frame count of the sample,
    and its data offset is 44. *)
Theorem al_save_wav_stream_reopens :
  forall shift host spl w0 fuel,
    let c := Z.shiftr (chan_conf spl) 4 + Z.land (chan_conf spl) 15 in
    let frames := Z.shiftr (len spl) shift in
    c = 1 \/ c = 2 ->
    0 <= frames -> frames * c * 2 < 2147483647 ->
    0 <= frequency spl < 2147483648 ->
    (2 <= fuel)%nat ->
    exists w,
      wav_open fuel (Some w0)
        (Some (fbytes (snd (al_save_wav_stream shift host (mkFile [] 0) spl))))
      = Done (Some w) /\
      freq w = frequency spl /\ channels w = c /\
      bits w = bits_of (depth spl) /\ samples w = frames /\ dpos w = 44.
Proof.
  intros shift host spl w0 fuel c frames Hc Hf Hsize Hrate Hfuel.
  destruct (al_save_wav_stream_written shift host spl Hc ltac:(lia) ltac:(lia))
    as (data & Hsave & _).
  fold c in Hsave. fold frames in Hsave.
  rewrite Hsave. cbn [snd fbytes].
  assert (Hb : bits_of (depth spl) = 8 \/ bits_of (depth spl) = 16)
    by (destruct (depth spl); simpl; auto).
  rewrite wav_open_container; try assumption.
  - eexists; split; [reflexivity|]. handle_fields. repeat split.
    unfold frame_count.
    destruct Hb as [E|E], Hc as [E'|E']; rewrite E, E'; simpl Z.eqb; cbv iota; lia.
  - destruct Hb as [E|E], Hc as [E'|E']; rewrite E, E' in *; lia.
Qed.

Lemma al_save_wav_stream_reopens_witness :
  exists w,
    wav_open 2 (Some blank_handle)
      (Some (fbytes (snd (al_save_wav_stream 8 BigEndian (mkFile [] 0) int8_stereo))))
    = Done (Some w) /\
    freq w = 44100 /\ channels w = 2 /\ bits w = 8 /\ samples w = 2 /\ dpos w = 44.
Proof.
  apply (al_save_wav_stream_reopens 8 BigEndian int8_stereo blank_handle 2%nat).
  - right; reflexivity.
  - vm_compute; discriminate.
  - vm_compute; reflexivity.
  - vm_compute; split; [discriminate | reflexivity].
  - lia.
Defined.

Lemma blen_wav_container c rate b count data :
  blen (wav_container c rate b count data) = 44 + blen data.
Proof.
  destruct (blen_container c rate b count data) as [-> H44].
  rewrite blen_app, H44. reflexivity.
Qed.

(** X15.  The size fields of a written file are right: for a sample whose
    memory holds its frames, of any of the seven depths (a signed 8-bit
    sample being mono), the sample data behind the 44-byte header has exactly
    the length the header declares,
    [frames * channels * bits / 8], and the cursor is left at the end of the
    file. *)
Theorem al_save_wav_stream_sizes :
  forall shift host spl,
    let c := Z.shiftr (chan_conf spl) 4 + Z.land (chan_conf spl) 15 in
    let frames := Z.shiftr (len spl) shift in
    let size := Z.quot (frames * c * bits_of (depth spl)) 8 in
    c = 1 \/ c = 2 ->
    0 <= frames < 2147483648 -> 0 <= frequency spl < 4294967296 ->
    known (depth spl) = true ->
    (depth spl = ALLEGRO_AUDIO_DEPTH_INT8 -> c = 1) ->
    (depth spl = ALLEGRO_AUDIO_DEPTH_UINT8 \/ depth spl = ALLEGRO_AUDIO_DEPTH_INT16 ->
     size <= blen (buffer spl)) ->
    exists data,
      al_save_wav_stream shift host (mkFile [] 0) spl
      = (true, mkFile (wav_container c (frequency spl) (bits_of (depth spl)) size data)
                      (44 + size))
      /\ blen data = size.
Proof.
  intros shift host spl c frames size Hc Hf Hrate Hk Hmono Hroom.
  destruct (al_save_wav_stream_written shift host spl Hc Hf Hrate)
    as (data & Hsave & Hw).
  fold c in Hsave, Hw. fold frames in Hsave, Hw. fold size in Hsave.
  rewrite Hk, blen_wav_container in Hsave.
  assert (Hlen : blen data = size).
  { unfold written in Hw. subst size.
    destruct (depth spl) eqn:Hd; cbn [bits_of] in *; try discriminate Hk.
    - rewrite (Hmono eq_refl) in *. subst data.
      rewrite (blen_data_of _ 1) by (intros j; reflexivity). lia.
    - subst data. rewrite blen_take.
      specialize (Hroom (or_intror eq_refl)). lia.
    - lia.
    - lia.
    - subst data. rewrite blen_take.
      specialize (Hroom (or_introl eq_refl)). lia.
    - subst data. rewrite (blen_data_of _ 2) by (intros j; reflexivity). lia.
    - lia. }
  exists data. rewrite Hsave, Hlen. split; reflexivity.
Qed.

Lemma al_save_wav_stream_sizes_witness :
  exists data,
    al_save_wav_stream 8 BigEndian (mkFile [] 0)
      (mkSample ALLEGRO_AUDIO_DEPTH_FLOAT32 16 44100 (Z.shiftl 3 8)
                [63; 128; 0; 0; 191; 128; 0; 0; 0; 0; 0; 0])
    = (true, mkFile (wav_container 1 44100 16 6 data) (44 + 6))
    /\ blen data = 6.
Proof.
  apply (al_save_wav_stream_sizes 8 BigEndian
           (mkSample ALLEGRO_AUDIO_DEPTH_FLOAT32 16 44100 (Z.shiftl 3 8)
                     [63; 128; 0; 0; 191; 128; 0; 0; 0; 0; 0; 0])).
  - left; reflexivity.
  - vm_compute; split; [discriminate | reflexivity].
  - vm_compute; split; [discriminate | reflexivity].
  - reflexivity.
  - discriminate.
  - intros [H|H]; discriminate H.
Defined.

(** ** Round trips of the other depths *)

(** X16.  Unsigned 8-bit samples survive the trip through a file on either
    host: loading with [al_load_wav] what [al_save_wav_stream] wrote for a
    sample of 1 or 2 channels gives a sample whose memory is byte for byte
    the memory that was saved (when the allocations succeed). *)
Theorem al_load_wav_of_saved_uint8 :
  forall shift host spl w0 fuel alloc,
    depth spl = ALLEGRO_AUDIO_DEPTH_UINT8 ->
    let c := Z.shiftr (chan_conf spl) 4 + Z.land (chan_conf spl) 15 in
    let frames := Z.shiftr (len spl) shift in
    c = 1 \/ c = 2 ->
    0 <= frames -> frames * c < 2147483647 ->
    0 <= frequency spl < 2147483648 ->
    blen (buffer spl) = frames * c ->
    (forall n, 0 <= n -> exists block, alloc n = Some block /\ blen block = n) ->
    (2 <= fuel)%nat ->
    exists loaded,
      al_load_wav shift host fuel (Some w0)
        (Some (fbytes (snd (al_save_wav_stream shift host (mkFile [] 0) spl))))
        alloc true
      = Done (Some loaded) /\
      buffer loaded = buffer spl.
Proof.
  intros shift host spl w0 fuel alloc Hd c frames Hc Hf Hsize Hrate Hlen Halloc Hfuel.
  destruct (al_save_wav_stream_written shift host spl Hc ltac:(lia) ltac:(lia))
    as (data & Hsave & Hw).
  fold c in Hsave, Hw. fold frames in Hsave, Hw.
  unfold written in Hw. rewrite Hd in Hsave, Hw. cbn [bits_of] in Hsave.
  rewrite take_all in Hw by lia. subst data.
  replace (Z.quot (frames * c * 8) 8) with (frames * c) in Hsave by lia.
  rewrite Hsave. cbn [snd fbytes].
  unfold al_load_wav.
  rewrite wav_open_container by (auto; lia).
  replace (frame_count c 8 (frames * c)) with frames
    by (unfold frame_count; destruct Hc as [E|E]; rewrite E; simpl Z.eqb; cbv iota; lia).
  handle_fields. change (Z.quot 8 8) with 1.
  replace (1 * c * frames) with (frames * c) by lia.
  rewrite (s32_small (frames * c)), (u64_small (frames * c)) by lia.
  destruct (Halloc (frames * c) ltac:(lia)) as (block & -> & Hblock).
  unfold al_create_sample, memset. change (u8 0) with 0.
  rewrite (drop_all _ block), app_nil_r by lia.
  fold (zeros (frames * c)).
  rewrite (u64_small frames) by lia.
  unfold wav_read. handle_fields. change (8 =? 8) with true. cbv iota.
  rewrite (u64_small c) by lia.
  rewrite (u64_small (c * frames)) by lia.
  unfold al_fread.
  assert (Hrem : remaining (mkFile (wav_container c (frequency spl) 8 (frames * c)
                                      (buffer spl)) 44) = buffer spl).
  { unfold remaining; cbn [fbytes fpos].
    destruct (blen_container c (frequency spl) 8 (frames * c) (buffer spl)) as [-> H44].
    rewrite <- H44. apply drop_app_len. }
  rewrite Hrem. rewrite take_all by lia.
  eexists; split; [reflexivity|].
  cbn [buffer with_buffer]. unfold fill.
  rewrite drop_all by (rewrite blen_zeros; lia). apply app_nil_r.
Qed.

Lemma al_load_wav_of_saved_uint8_witness :
  exists loaded,
    al_load_wav 8 BigEndian 2 (Some blank_handle)
      (Some (fbytes (snd (al_save_wav_stream 8 BigEndian (mkFile [] 0)
                            (mkSample ALLEGRO_AUDIO_DEPTH_UINT8 32 22050 (Z.shiftl 2 8)
                                      [0; 64; 128; 192])))))
      (fun n => Some (zeros n)) true
    = Done (Some loaded) /\
    buffer loaded = [0; 64; 128; 192].
Proof.
  apply (al_load_wav_of_saved_uint8 8 BigEndian
           (mkSample ALLEGRO_AUDIO_DEPTH_UINT8 32 22050 (Z.shiftl 2 8) [0; 64; 128; 192])
           blank_handle 2%nat (fun n => Some (zeros n))).
  - reflexivity.
  - right; reflexivity.
  - vm_compute; discriminate.
  - vm_compute; reflexivity.
  - vm_compute; split; [discriminate | reflexivity].
  - reflexivity.
  - intros n Hn. exists (zeros n). split; [reflexivity|]. rewrite blen_zeros. lia.
  - lia.
Defined.

Lemma data_of_drop g m :
  0 <= m -> (forall j, blen (g j) = m) ->
  forall n k i, (n <= k)%nat ->
    drop (m * Z.of_nat n) (data_of k i g) = data_of (k - n) (i + Z.of_nat n) g.
Proof.
  intros Hm Hg. induction n as [|n IH]; intros k i Hn.
  - rewrite drop_le0 by lia. simpl Z.of_nat. rewrite Z.add_0_r, Nat.sub_0_r. reflexivity.
  - destruct k as [|k]; [lia|]. cbn [data_of].
    replace (m * Z.of_nat (S n)) with (blen (g i) + m * Z.of_nat n) by (rewrite Hg; lia).
    rewrite drop_app by lia. rewrite IH by lia.
    replace (i + 1 + Z.of_nat n) with (i + Z.of_nat (S n)) by lia. reflexivity.
Qed.

Lemma data_of_at g m k i :
  0 <= m -> (forall j, blen (g j) = m) -> 0 <= i < Z.of_nat k ->
  exists rest, drop (m * i) (data_of k 0 g) = g i ++ rest.
Proof.
  intros Hm Hg Hi.
  pose proof (data_of_drop g m Hm Hg (Z.to_nat i) k 0 ltac:(lia)) as H.
  rewrite Z2Nat.id in H by lia. rewrite H.
  destruct (k - Z.to_nat i)%nat as [|k'] eqn:Ek; [lia|].
  cbn [data_of]. rewrite Z.add_0_l. eauto.
Qed.

Lemma remaining_in_container c rate b count data j :
  0 <= j ->
  remaining (mkFile (wav_container c rate b count data) (44 + j)) = drop j data.
Proof.
  intros Hj. unfold remaining; cbn [fbytes fpos].
  destruct (blen_container c rate b count data) as [-> H44].
  rewrite <- H44. apply drop_app. assumption.
Qed.

(** X17.  Unsigned 16-bit samples are written as signed ones, little-endian
    whatever the host: [read16] at the place of sample [i] in the written
    file succeeds and gives the sample (as the host reads it from the sample
    memory) minus 0x8000. *)
Theorem al_save_wav_stream_uint16 :
  forall shift host spl i v0,
    depth spl = ALLEGRO_AUDIO_DEPTH_UINT16 ->
    let c := Z.shiftr (chan_conf spl) 4 + Z.land (chan_conf spl) 15 in
    let frames := Z.shiftr (len spl) shift in
    c = 1 \/ c = 2 ->
    0 <= frames < 2147483648 -> 0 <= frequency spl < 4294967296 ->
    0 <= i < frames * c ->
    fst (read16
           (mkFile (fbytes (snd (al_save_wav_stream shift host (mkFile [] 0) spl)))
                   (44 + 2 * i)) v0)
    = (true, load_u16 host (buffer spl) i - 32768).
Proof.
  intros shift host spl i v0 Hd c frames Hc Hf Hrate Hi.
  destruct (al_save_wav_stream_written shift host spl Hc Hf Hrate)
    as (data & Hsave & Hw).
  fold c in Hsave, Hw. fold frames in Hsave, Hw.
  unfold written in Hw. rewrite Hd in Hsave, Hw. cbn [bits_of] in Hsave.
  rewrite Hsave. cbn [snd fbytes].
  destruct (data_of_at (fun j => le16 (load_u16 host (buffer spl) j - 32768)) 2
              (Z.to_nat (frames * c)) i ltac:(lia) ltac:(intros j; reflexivity)
              ltac:(lia)) as [rest Hat].
  rewrite <- Hw in Hat.
  set (v := load_u16 host (buffer spl) i - 32768) in *.
  assert (Hv : -32768 <= v < 32768).
  { subst v. unfold load_u16.
    pose proof (u8_range (byte_at (buffer spl) (2 * i))).
    pose proof (u8_range (byte_at (buffer spl) (2 * i + 1))).
    destruct host; lia. }
  destruct (read16_full
              (mkFile (wav_container c (frequency spl) 16 (Z.quot (frames * c * 16) 8) data)
                      (44 + 2 * i)) v0 (u8 v) (u8 (Z.shiftr v 8)) rest
              ltac:(cbn [fpos]; lia)) as [-> _].
  { rewrite remaining_in_container by lia. exact Hat. }
  cbn [fst]. rewrite (short_le_le16 v Hv). reflexivity.
Qed.

Lemma al_save_wav_stream_uint16_witness :
  fst (read16
         (mkFile (fbytes (snd (al_save_wav_stream 8 BigEndian (mkFile [] 0)
                                 (mkSample ALLEGRO_AUDIO_DEPTH_UINT16 16 44100
                                           (Z.shiftl 2 8) [128; 0; 0; 1]))))
                 (44 + 2 * 1)) 0)
  = (true, load_u16 BigEndian [128; 0; 0; 1] 1 - 32768).
Proof.
  apply (al_save_wav_stream_uint16 8 BigEndian
           (mkSample ALLEGRO_AUDIO_DEPTH_UINT16 16 44100 (Z.shiftl 2 8) [128; 0; 0; 1])
           1 0).
  - reflexivity.
  - left; reflexivity.
  - vm_compute; split; [discriminate | reflexivity].
  - vm_compute; split; [discriminate | reflexivity].
  - vm_compute; split; [discriminate | reflexivity].
Defined.

(** X18.  A mono signed 8-bit sample is written completely: the file has one
    data byte for each sample, and the byte of sample [i] is the sample plus
    0x80. *)
Theorem al_save_wav_stream_int8_mono :
  forall shift host spl i,
    depth spl = ALLEGRO_AUDIO_DEPTH_INT8 ->
    Z.shiftr (chan_conf spl) 4 + Z.land (chan_conf spl) 15 = 1 ->
    let frames := Z.shiftr (len spl) shift in
    0 <= frames < 2147483648 -> 0 <= frequency spl < 4294967296 ->
    0 <= i < frames ->
    blen (fbytes (snd (al_save_wav_stream shift host (mkFile [] 0) spl)))
    = 44 + frames /\
    byte_at (fbytes (snd (al_save_wav_stream shift host (mkFile [] 0) spl))) (44 + i)
    = load_s8 (buffer spl) i + 128.
Proof.
  intros shift host spl i Hd Hc frames Hf Hrate Hi.
  destruct (al_save_wav_stream_written shift host spl
              ltac:(left; exact Hc) Hf Hrate) as (data & Hsave & Hw).
  rewrite Hc in Hsave, Hw. fold frames in Hsave, Hw.
  unfold written in Hw. rewrite Hd in Hsave, Hw.
  rewrite Hsave. cbn [snd fbytes]. split.
  - rewrite blen_wav_container, Hw.
    rewrite (blen_data_of _ 1) by (intros j; reflexivity). lia.
  - destruct (data_of_at (fun j => [u8 (load_s8 (buffer spl) j + 128)]) 1
                (Z.to_nat frames) i ltac:(lia) ltac:(intros j; reflexivity)
                ltac:(lia)) as [rest Hat].
    rewrite <- Hw in Hat. rewrite Z.mul_1_l in Hat.
    pose proof (remaining_in_container 1 (frequency spl) (bits_of ALLEGRO_AUDIO_DEPTH_INT8)
                  (Z.quot (frames * 1 * bits_of ALLEGRO_AUDIO_DEPTH_INT8) 8) data i
                  ltac:(lia)) as Hrem.
    unfold remaining in Hrem; cbn [fbytes fpos] in Hrem.
    unfold byte_at. rewrite Hrem, Hat. cbn [app hd].
    unfold load_s8, s8, u8. lia.
Qed.

Lemma al_save_wav_stream_int8_mono_witness :
  blen (fbytes (snd (al_save_wav_stream 8 LittleEndian (mkFile [] 0)
                       (mkSample ALLEGRO_AUDIO_DEPTH_INT8 16 22050 (Z.shiftl 3 8)
                                 [1; 255; 128]))))
  = 44 + Z.shiftr (Z.shiftl 3 8) 8 /\
  byte_at (fbytes (snd (al_save_wav_stream 8 LittleEndian (mkFile [] 0)
                          (mkSample ALLEGRO_AUDIO_DEPTH_INT8 16 22050 (Z.shiftl 3 8)
                                    [1; 255; 128])))) (44 + 2)
  = load_s8 [1; 255; 128] 2 + 128.
Proof.
  apply (al_save_wav_stream_int8_mono 8 LittleEndian
           (mkSample ALLEGRO_AUDIO_DEPTH_INT8 16 22050 (Z.shiftl 3 8) [1; 255; 128]) 2).
  - reflexivity.
  - reflexivity.
  - vm_compute; split; [discriminate | reflexivity].
  - vm_compute; split; [discriminate | reflexivity].
  - vm_compute; split; [discriminate | reflexivity].
Defined.
